(** * GhostWriter: settings store, recording lifecycle and UI update queue

    A shallow embedding of [ghostwriter_app.py].  The application object
    ([GhostWriterApp]) becomes the record [App]; everything outside the
    process (files, clipboard, sounds, the recognizer, worker threads and
    Tk timers) becomes the record [World], whose [log] lists the outside
    calls in the order the code makes them.  Outcomes the program cannot
    decide (does [open] fail, what does the recognizer print) are read
    from an [Env].  Methods are computations in a small state-and-exception
    monad. *)

From Stdlib Require Import QArith Ascii String.
From stdpp Require Import gmap strings list fin_maps.

Set Warnings "-register-all,-clear-no-such-hyp".

Local Open Scope string_scope.

(** ** Python strings

    A [str] is modelled by a [string] whose characters are the code points
    below 256.  The predicates follow CPython on that range. *)

Module PyStr.

(** [c.isspace()] for one character: TAB..CR, FS..US, SPACE, NEL, NBSP. *)
Definition is_space_char (c : ascii) : bool :=
  let n := nat_of_ascii c in
  ((9 <=? n)%nat && (n <=? 13)%nat) || ((28 <=? n)%nat && (n <=? 32)%nat)
  || (n =? 133)%nat || (n =? 160)%nat.

(** [c.isdigit()]: 0..9 and the superscripts 2, 3, 1 of Latin-1. *)
Definition is_digit_char (c : ascii) : bool :=
  let n := nat_of_ascii c in
  ((48 <=? n)%nat && (n <=? 57)%nat)
  || (n =? 178)%nat || (n =? 179)%nat || (n =? 185)%nat.

(** [c.lower()]: A..Z and the accented capitals (all but the times sign). *)
Definition lower_char (c : ascii) : ascii :=
  let n := nat_of_ascii c in
  if ((65 <=? n)%nat && (n <=? 90)%nat)
     || ((192 <=? n)%nat && (n <=? 222)%nat && negb (n =? 215)%nat)
  then ascii_of_nat (n + 32) else c.

Fixpoint all_chars (p : ascii -> bool) (s : string) : bool :=
  match s with
  | EmptyString => true
  | String c s' => p c && all_chars p s'
  end.

Definition nonempty (s : string) : bool :=
  match s with EmptyString => false | String _ _ => true end.

(** [s.isspace()] and [s.isdigit()] are false on the empty string. *)
Definition isspace (s : string) : bool := nonempty s && all_chars is_space_char s.
Definition isdigit (s : string) : bool := nonempty s && all_chars is_digit_char s.

Fixpoint lower (s : string) : string :=
  match s with
  | EmptyString => EmptyString
  | String c s' => String (lower_char c) (lower s')
  end.

Fixpoint lstrip (s : string) : string :=
  match s with
  | EmptyString => EmptyString
  | String c s' => if is_space_char c then lstrip s' else s
  end.

Fixpoint rstrip (s : string) : string :=
  match s with
  | EmptyString => EmptyString
  | String c s' =>
      match rstrip s' with
      | EmptyString => if is_space_char c then EmptyString else String c EmptyString
      | r => String c r
      end
  end.

(** [s.strip()] *)
Definition strip (s : string) : string := rstrip (lstrip s).

(** [s.startswith(p)] *)
Definition startswith (s p : string) : bool := String.prefix p s.

(** [s[1:]] *)
Definition tail (s : string) : string :=
  match s with EmptyString => EmptyString | String _ s' => s' end.

(** [p in s] on two strings: [p] occurs in [s] as a substring. *)
Fixpoint contains (s p : string) : bool :=
  String.prefix p s ||
  match s with
  | EmptyString => false
  | String _ s' => contains s' p
  end.

(** [sep.join(l)] *)
Definition join (sep : string) (l : list string) : string := String.concat sep l.

End PyStr.

(** ** Floats

    A Python [float] is a binary64 number.  A float is written here as a
    rational, the way a literal of the source or of a JSON document writes
    it, and it stands for the binary64 number nearest to that rational, ties
    going to the even significand: [double_of] gives that number.  Two floats
    are equal when their [double_of] are. *)

(** [n / d] rounded to the nearest integer, ties to even, for [0 <= n] and
    [0 < d]. *)
Definition round_half_even (n d : Z) : Z :=
  let q := (n / d)%Z in
  match (2 * (n mod d) ?= d)%Z with
  | Lt => q
  | Gt => (q + 1)%Z
  | Eq => if Z.even q then q else (q + 1)%Z
  end.

(** The binary64 number nearest to [n / d], for [0 < n] and [0 < d]: a
    significand below [2 ^ 53] times a power of two from [2 ^ -1074] on.
    What rounds to infinity is given as [2 ^ 1024]. *)
Definition double_of_pos (n d : Z) : Q :=
  let k := (Z.log2 n - Z.log2 d)%Z in
  let lg :=
    if (if (0 <=? k)%Z then (d * 2 ^ k <=? n)%Z else (d <=? n * 2 ^ (- k))%Z)
    then k else (k - 1)%Z in
  let e := Z.max (lg - 52) (-1074) in
  if (0 <=? e)%Z
  then inject_Z (Z.min (round_half_even n (d * 2 ^ e) * 2 ^ e) (2 ^ 1024))
  else Qmake (round_half_even (n * 2 ^ (- e)) d) (Z.to_pos (2 ^ (- e))).

Definition double_of (q : Q) : Q :=
  match Qnum q with
  | Z0 => 0%Q
  | Zpos p => double_of_pos (Zpos p) (Zpos (Qden q))
  | Zneg p => Qopp (double_of_pos (Zpos p) (Zpos (Qden q)))
  end.

(** ** Python values

    The values a settings entry can hold: whatever [json.load] builds, which
    covers what the handlers store ([str], [bool], [float]).  [PFloat q] is
    the float written [q], that is the binary64 number [double_of q]; the
    program never computes with a stored float, it only stores it, looks it
    up and hands it to [time.sleep]. *)

Inductive pyval : Type :=
| PNone
| PBool (b : bool)
| PInt (z : Z)
| PFloat (q : Q)
| PStr (s : string)
| PList (l : list pyval)
| PDict (m : gmap string pyval).

(** Truth value of a Python object, as [if x:] tests it. *)
Definition truthy (v : pyval) : bool :=
  match v with
  | PNone => false
  | PBool b => b
  | PInt z => negb (z =? 0)%Z
  | PFloat q => negb (Qeq_bool (double_of q) 0)
  | PStr s => PyStr.nonempty s
  | PList l => match l with [] => false | _ => true end
  | PDict m => negb (bool_decide (m = ∅))
  end.

(** An exception, with the text [str(e)] gives. *)
Inductive exn : Type := Exception (msg : string).

Definition str_of_exn (e : exn) : string := let 'Exception msg := e in msg.

Inductive outcome (A : Type) : Type :=
| Normal (a : A)
| Raised (e : exn).
Arguments Normal {A} a.
Arguments Raised {A} e.

(** ** Constants *)

Definition APP_NAME : string := "GhostWriter".
Definition SETTINGS_FILE : string := "settings.json".
Definition WHISPER_EXE : string := "whisper-cli.exe".
Definition MODEL_PATH : string := "ggml-tiny.bin".
Definition SAMPLE_RATE : Z := 16000.

(** The literal of [DEFAULT_SETTINGS], in source order: a Python [dict]
    iterates in insertion order, and [load_settings] iterates over it. *)
Definition DEFAULT_SETTINGS_items : list (string * pyval) :=
  [ ("hotkey", PStr "F8");
    ("sound_enabled", PBool true);
    ("paste_delay", PFloat 0.15%Q);
    ("start_minimized", PBool false);
    ("run_on_startup", PBool false) ].

Definition DEFAULT_SETTINGS : gmap string pyval := list_to_map DEFAULT_SETTINGS_items.

(** [for key in DEFAULT_SETTINGS] *)
Definition DEFAULT_SETTINGS_keys : list string := DEFAULT_SETTINGS_items.*1.

Definition HOTKEY_OPTIONS : list string :=
  [ "F1"; "F2"; "F3"; "F4"; "F5"; "F6";
    "F7"; "F8"; "F9"; "F10"; "F11"; "F12";
    "Ctrl+Shift+R"; "Ctrl+Shift+D"; "Ctrl+Alt+V" ].

Definition PASTE_DELAY_OPTIONS : list (string * Q) :=
  [ ("Fast (0.05s)", 0.05%Q);
    ("Normal (0.10s)", 0.10%Q);
    ("Default (0.15s)", 0.15%Q);
    ("Slow (0.25s)", 0.25%Q);
    ("Very Slow (0.50s)", 0.50%Q) ].

Definition START_BEEP : Z * Z := (1000, 150)%Z.
Definition STOP_BEEP : Z * Z := (600, 150)%Z.

Definition STATUS_READY : string := "ready".
Definition STATUS_RECORDING : string := "recording".
Definition STATUS_TRANSCRIBING : string := "transcribing".
Definition STATUS_ERROR : string := "error".

(** [os.path.join(SCRIPT_DIR, name)]: the process changes its working
    directory to [SCRIPT_DIR] at import, so a path is named relative to it. *)
Definition script_path (name : string) : string := name.

(** ** Data model *)

(** One audio sample ([np.float32]); the program only counts and copies them. *)
Definition sample : Type := Q.

(** One block delivered to [audio_callback]: [indata] has shape (frames, 1). *)
Definition chunk : Type := list sample.

(** An entry of [update_queue]: the tuples [("status", state, message)] and
    [("transcription", text)]. *)
Inductive update : Type :=
| UStatus (state message : string)
| UTranscription (text : string).

(** What the transcription box shows: a literal text, or the ready hint
    [f"Press {hotkey} to start listening..."] with the value interpolated. *)
Inductive box_text : Type :=
| Literal (s : string)
| PressHint (hotkey : pyval).

(** The three widgets the update handlers configure. *)
Record Ui : Type := mkUi {
  status_dot_fg_color : string;
  status_label_text : string;
  status_label_text_color : option string;   (* [None]: the theme's colour *)
  transcription_text : box_text
}.

(** A key event of pynput: a member of the [Key] enum, named as the library
    names it, or a [KeyCode] with its [char] (possibly [None]). *)
Inductive key : Type :=
| Key (name : string)
| KeyCode (char : option string).

(** The fields of [GhostWriterApp] that the modelled methods read or write.
    [root] and [ghost_indicator] record whether the object has been created. *)
Record App : Type := mkApp {
  settings : gmap string pyval;
  is_recording : bool;
  audio_data : list chunk;
  last_transcription : string;
  current_status : string;
  error_message : string;
  update_queue : list update;          (* head: the oldest entry *)
  ctrl_pressed : bool;
  shift_pressed : bool;
  alt_pressed : bool;
  root : bool;
  ui : Ui;
  ghost_indicator : bool;
  files_ok : bool
}.

Definition set_settings (v : gmap string pyval) (a : App) : App :=
  mkApp v (is_recording a) (audio_data a) (last_transcription a) (current_status a)
    (error_message a) (update_queue a) (ctrl_pressed a) (shift_pressed a) (alt_pressed a)
    (root a) (ui a) (ghost_indicator a) (files_ok a).
Definition set_is_recording (v : bool) (a : App) : App :=
  mkApp (settings a) v (audio_data a) (last_transcription a) (current_status a)
    (error_message a) (update_queue a) (ctrl_pressed a) (shift_pressed a) (alt_pressed a)
    (root a) (ui a) (ghost_indicator a) (files_ok a).
Definition set_audio_data (v : list chunk) (a : App) : App :=
  mkApp (settings a) (is_recording a) v (last_transcription a) (current_status a)
    (error_message a) (update_queue a) (ctrl_pressed a) (shift_pressed a) (alt_pressed a)
    (root a) (ui a) (ghost_indicator a) (files_ok a).
Definition set_last_transcription (v : string) (a : App) : App :=
  mkApp (settings a) (is_recording a) (audio_data a) v (current_status a)
    (error_message a) (update_queue a) (ctrl_pressed a) (shift_pressed a) (alt_pressed a)
    (root a) (ui a) (ghost_indicator a) (files_ok a).
Definition set_current_status (v : string) (a : App) : App :=
  mkApp (settings a) (is_recording a) (audio_data a) (last_transcription a) v
    (error_message a) (update_queue a) (ctrl_pressed a) (shift_pressed a) (alt_pressed a)
    (root a) (ui a) (ghost_indicator a) (files_ok a).
Definition set_error_message (v : string) (a : App) : App :=
  mkApp (settings a) (is_recording a) (audio_data a) (last_transcription a) (current_status a)
    v (update_queue a) (ctrl_pressed a) (shift_pressed a) (alt_pressed a)
    (root a) (ui a) (ghost_indicator a) (files_ok a).
Definition set_update_queue (v : list update) (a : App) : App :=
  mkApp (settings a) (is_recording a) (audio_data a) (last_transcription a) (current_status a)
    (error_message a) v (ctrl_pressed a) (shift_pressed a) (alt_pressed a)
    (root a) (ui a) (ghost_indicator a) (files_ok a).
Definition set_ctrl_pressed (v : bool) (a : App) : App :=
  mkApp (settings a) (is_recording a) (audio_data a) (last_transcription a) (current_status a)
    (error_message a) (update_queue a) v (shift_pressed a) (alt_pressed a)
    (root a) (ui a) (ghost_indicator a) (files_ok a).
Definition set_shift_pressed (v : bool) (a : App) : App :=
  mkApp (settings a) (is_recording a) (audio_data a) (last_transcription a) (current_status a)
    (error_message a) (update_queue a) (ctrl_pressed a) v (alt_pressed a)
    (root a) (ui a) (ghost_indicator a) (files_ok a).
Definition set_alt_pressed (v : bool) (a : App) : App :=
  mkApp (settings a) (is_recording a) (audio_data a) (last_transcription a) (current_status a)
    (error_message a) (update_queue a) (ctrl_pressed a) (shift_pressed a) v
    (root a) (ui a) (ghost_indicator a) (files_ok a).
Definition set_root (v : bool) (a : App) : App :=
  mkApp (settings a) (is_recording a) (audio_data a) (last_transcription a) (current_status a)
    (error_message a) (update_queue a) (ctrl_pressed a) (shift_pressed a) (alt_pressed a)
    v (ui a) (ghost_indicator a) (files_ok a).
Definition set_ui (v : Ui) (a : App) : App :=
  mkApp (settings a) (is_recording a) (audio_data a) (last_transcription a) (current_status a)
    (error_message a) (update_queue a) (ctrl_pressed a) (shift_pressed a) (alt_pressed a)
    (root a) v (ghost_indicator a) (files_ok a).
Definition set_ghost_indicator (v : bool) (a : App) : App :=
  mkApp (settings a) (is_recording a) (audio_data a) (last_transcription a) (current_status a)
    (error_message a) (update_queue a) (ctrl_pressed a) (shift_pressed a) (alt_pressed a)
    (root a) (ui a) v (files_ok a).
Definition set_files_ok (v : bool) (a : App) : App :=
  mkApp (settings a) (is_recording a) (audio_data a) (last_transcription a) (current_status a)
    (error_message a) (update_queue a) (ctrl_pressed a) (shift_pressed a) (alt_pressed a)
    (root a) (ui a) (ghost_indicator a) v.

(** ** The world outside the process *)

(** What a file holds: text that [json.load] parses to [v], a wave file, or
    anything else (an executable, a model, text that is not JSON). *)
Inductive file_content : Type :=
| Json (v : pyval)
| Wav (rate : Z) (data : list sample)
| Opaque.

(** The outside calls the modelled methods make, as the [log] records them. *)
Inductive effect : Type :=
| Print (msg : string)                      (* print(...) *)
| Beep (tone : Z * Z)                       (* winsound.Beep on its own thread *)
| AfterShow (look : string)                 (* root.after(0, ghost_indicator.show(look)) *)
| AfterHide                                 (* root.after(0, ghost_indicator.hide) *)
| AfterPoll                                 (* root.after(50, self.poll_updates) *)
| StartWorker                               (* Thread(target=self.process_recording).start() *)
| SubprocessRun (command : list string)     (* subprocess.run(command, ...) *)
| ClipboardPaste                            (* pyperclip.paste() *)
| ClipboardCopy (text : string)             (* pyperclip.copy(text) *)
| Sleep (delay : pyval)                     (* time.sleep(delay) *)
| KbPress (k : string)                      (* self.kb.press(k) *)
| KbRelease (k : string)                    (* self.kb.release(k) *)
| StopListener                              (* stop_keyboard_listener *)
| StartStream                               (* sd.InputStream(...).start() *)
| StartListener                             (* keyboard.Listener(...).start() *)
| SetStartupRegistry (enabled : bool)       (* update_startup_registry(enabled) *)
| StopTrayIcon                              (* self.tray_icon.stop() *)
| DestroyWindow.                            (* self.root.quit(); self.root.destroy() *)

Record World : Type := mkWorld {
  fs : gmap string file_content;            (* the files that exist, by path *)
  clipboard : string;
  log : list effect                         (* oldest first *)
}.

Definition set_fs (v : gmap string file_content) (w : World) : World :=
  mkWorld v (clipboard w) (log w).
Definition set_clipboard (v : string) (w : World) : World :=
  mkWorld (fs w) v (log w).
Definition set_log (v : list effect) (w : World) : World :=
  mkWorld (fs w) (clipboard w) v.

(** How [wav.write] ends: it wrote the file, or it raised, leaving a partial
    file behind or none. *)
Inductive wav_write_result : Type :=
| WavWritten
| WavFailed (e : exn) (file_left : bool).

(** The outcomes of the outside calls during one method call. *)
Record Env : Type := mkEnv {
  open_settings : option exn;               (* open(settings_path, ...) raises *)
  mktemp : string;                          (* tempfile.mktemp(suffix=".wav") *)
  wav_write : wav_write_result;
  subprocess_run : outcome (Z * string);    (* raises, or (returncode, stdout) *)
  pyperclip_paste : option exn;             (* pyperclip.paste() raises *)
  pyperclip_copy : option exn;              (* pyperclip.copy(text) raises *)
  time_sleep : option exn;                  (* time.sleep(delay) raises *)
  os_remove : option exn;                   (* os.remove(temp_wav) raises *)
  start_stream : option exn;                (* opening the input stream raises *)
  start_listener : option exn;              (* starting the key listener raises *)
  boolean_var : pyval -> option exn         (* ctk.BooleanVar(value=v) raises *)
}.

(** ** The state-and-exception monad *)

Definition State : Type := App * World.

Definition M (A : Type) : Type := State -> outcome A * State.

Definition ret {A} (a : A) : M A := fun s => (Normal a, s).

Definition bind {A B} (m : M A) (k : A -> M B) : M B :=
  fun s =>
    match m s with
    | (Normal a, s') => k a s'
    | (Raised e, s') => (Raised e, s')
    end.

Definition raise {A} (e : exn) : M A := fun s => (Raised e, s).

(** [try: m  except Exception as e: h e] *)
Definition try_except {A} (m : M A) (h : exn -> M A) : M A :=
  fun s =>
    match m s with
    | (Normal a, s') => (Normal a, s')
    | (Raised e, s') => h e s'
    end.

(** [try: m  finally: fin]: [fin] runs however [m] ends, and an exception
    of [fin] replaces the result of [m]. *)
Definition try_finally {A} (m : M A) (fin : M unit) : M A :=
  fun s =>
    let (r, s') := m s in
    match fin s' with
    | (Normal _, s'') => (r, s'')
    | (Raised e, s'') => (Raised e, s'')
    end.

Declare Scope py_scope.
Delimit Scope py_scope with py.
Notation "x <- m ;; k" := (bind m (fun x => k))
  (at level 100, m at next level, right associativity) : py_scope.
Notation "m ;; k" := (bind m (fun _ => k))
  (at level 100, right associativity) : py_scope.
Local Open Scope py_scope.

Definition get_self : M App := fun s => (Normal (fst s), s).
Definition get_world : M World := fun s => (Normal (snd s), s).
Definition modify_self (f : App -> App) : M unit := fun s => (Normal tt, (f (fst s), snd s)).
Definition modify_world (f : World -> World) : M unit := fun s => (Normal tt, (fst s, f (snd s))).

(** Record an outside call. *)
Definition emit (e : effect) : M unit := modify_world (fun w => set_log (log w ++ [e]) w).

(** An outside call that raises when the environment says so. *)
Definition may_raise (o : option exn) : M unit :=
  match o with
  | Some e => raise e
  | None => ret tt
  end.

Definition when (b : bool) (m : M unit) : M unit := if b then m else ret tt.

(** The state a computation ends in, and how it ends. *)
Definition exec {A} (m : M A) (s : State) : State := snd (m s).
Definition result {A} (m : M A) (s : State) : outcome A := fst (m s).

Definition lift {A} (o : outcome A) : M A :=
  match o with
  | Normal a => ret a
  | Raised e => raise e
  end.

(** ** Settings store *)

(** [d.get(key, default)] on the settings dict *)
Definition settings_get (a : App) (key : string) (dflt : pyval) : pyval :=
  default dflt (settings a !! key).

(** [self.settings[key] = v] *)
Definition settings_setitem (key : string) (v : pyval) : M unit :=
  modify_self (fun a => set_settings (<[key := v]> (settings a)) a).

(** [json.load(f)]: the parsed document, or [JSONDecodeError]. *)
Definition json_load (c : file_content) : outcome pyval :=
  match c with
  | Json v => Normal v
  | _ => Raised (Exception "Expecting value")
  end.

(** [key in loaded] for a [str] key: a key of a dict, an element of a list,
    a substring of a string; [TypeError] on the other JSON values. *)
Definition py_contains (loaded : pyval) (key : string) : outcome bool :=
  match loaded with
  | PDict m => Normal (bool_decide (is_Some (m !! key)))
  | PList l =>
      Normal (existsb (fun v => match v with PStr s => String.eqb s key | _ => false end) l)
  | PStr s => Normal (PyStr.contains s key)
  | _ => Raised (Exception "argument is not iterable")
  end.

(** [loaded[key]] for a [str] key: only a dict can be indexed by it. *)
Definition py_getitem (loaded : pyval) (key : string) : outcome pyval :=
  match loaded with
  | PDict m =>
      match m !! key with
      | Some v => Normal v
      | None => Raised (Exception key)
      end
  | PList _ => Raised (Exception "list indices must be integers or slices, not str")
  | PStr _ => Raised (Exception "string indices must be integers")
  | _ => Raised (Exception "object is not subscriptable")
  end.

(** The loop of [load_settings]:
    [for key in DEFAULT_SETTINGS: if key in loaded: self.settings[key] = loaded[key]] *)
Fixpoint merge_loaded (loaded : pyval) (keys : list string) : M unit :=
  match keys with
  | [] => ret tt
  | key :: rest =>
      present <- lift (py_contains loaded key) ;;
      (if present : bool
       then v <- lift (py_getitem loaded key) ;; settings_setitem key v
       else ret tt) ;;
      merge_loaded loaded rest
  end.

Definition load_settings (env : Env) : M unit :=
  let settings_path := script_path SETTINGS_FILE in
  try_except
    (w <- get_world ;;
     match fs w !! settings_path with
     | Some content =>
         may_raise (open_settings env) ;;
         loaded <- lift (json_load content) ;;
         merge_loaded loaded DEFAULT_SETTINGS_keys
     | None => ret tt
     end)
    (fun e => emit (Print ("Error loading settings: " ++ str_of_exn e))).

(** [json.dump(self.settings, f, indent=2)] writes the whole dict; opening
    the file for writing can fail, and then the file stays as it was. *)
Definition save_settings (env : Env) : M unit :=
  let settings_path := script_path SETTINGS_FILE in
  try_except
    (may_raise (open_settings env) ;;
     a <- get_self ;;
     modify_world (fun w => set_fs (<[settings_path := Json (PDict (settings a))]> (fs w)) w))
    (fun e => emit (Print ("Error saving settings: " ++ str_of_exn e))).

(** [os.path.exists(path)] *)
Definition path_exists (w : World) (path : string) : bool :=
  bool_decide (is_Some (fs w !! path)).

Definition check_files_exist : M bool :=
  let whisper_path := script_path WHISPER_EXE in
  let model_path := script_path MODEL_PATH in
  w <- get_world ;;
  let missing :=
    ((if negb (path_exists w whisper_path) then [WHISPER_EXE] else [])
     ++ (if negb (path_exists w model_path) then [MODEL_PATH] else []))%list in
  match missing with
  | [] => ret true
  | _ => modify_self (set_error_message ("Missing: " ++ PyStr.join ", " missing)) ;;
         ret false
  end.

(** The widgets as [create_gui] builds them. *)
Definition initial_ui : Ui :=
  mkUi "#888888" "Ready" None (Literal "Press F8 to dictate...").

(** The fields as [__init__] assigns them, before [load_settings] and
    [check_files_exist] run. *)
Definition new_app : App :=
  mkApp DEFAULT_SETTINGS false [] "" STATUS_READY "" [] false false false
        false initial_ui false false.

(** [GhostWriterApp.__init__] *)
Definition init (env : Env) : M unit :=
  modify_self (fun _ => new_app) ;;
  load_settings env ;;
  ok <- check_files_exist ;;
  modify_self (set_files_ok ok).

(** ** Update queue *)

Definition update_status (state message : string) : M unit :=
  modify_self (set_current_status state) ;;
  modify_self (fun a => set_update_queue (update_queue a ++ [UStatus state message]) a).

Definition update_transcription (text : string) : M unit :=
  modify_self (set_last_transcription text) ;;
  modify_self (fun a => set_update_queue (update_queue a ++ [UTranscription text]) a).

(** [colors.get(state, '#888888')] *)
Definition status_color (state : string) : string :=
  if String.eqb state STATUS_READY then "#888888"
  else if String.eqb state STATUS_RECORDING then "#4CAF50"
  else if String.eqb state STATUS_TRANSCRIBING then "#FFC107"
  else if String.eqb state STATUS_ERROR then "#F44336"
  else "#888888".

Definition _update_status_ui (state message : string) : M unit :=
  a <- get_self ;;
  let color := status_color state in
  let u := mkUi color (status_label_text (ui a)) (status_label_text_color (ui a))
                (transcription_text (ui a)) in
  let hotkey := settings_get a "hotkey" (PStr "F8") in
  let u' :=
    if String.eqb state STATUS_READY then
      mkUi (status_dot_fg_color u) "Ready" (Some "white") (PressHint hotkey)
    else if String.eqb state STATUS_RECORDING then
      mkUi (status_dot_fg_color u) "Listening..." (Some "#4CAF50") (transcription_text u)
    else if String.eqb state STATUS_TRANSCRIBING then
      mkUi (status_dot_fg_color u) "Thinking..." (Some "#FFC107") (transcription_text u)
    else if String.eqb state STATUS_ERROR then
      mkUi (status_dot_fg_color u) "Error" (Some "#F44336") (Literal message)
    else u in
  modify_self (set_ui u').

Definition _update_transcription_ui (text : string) : M unit :=
  modify_self (fun a =>
    set_ui (mkUi (status_dot_fg_color (ui a)) (status_label_text (ui a))
                 (status_label_text_color (ui a)) (Literal text)) a).

(** [self.update_queue.get_nowait()]: the oldest entry, removed from the
    queue, or [None] where Python raises [queue.Empty]. *)
Definition get_nowait : M (option update) :=
  a <- get_self ;;
  match update_queue a with
  | [] => ret None
  | u :: q => modify_self (set_update_queue q) ;; ret (Some u)
  end.

(** The [while True] loop of [poll_updates]; it ends on [queue.Empty].
    [fuel] bounds the iterations. *)
Fixpoint drain (fuel : nat) : M unit :=
  match fuel with
  | O => ret tt
  | S fuel' =>
      got <- get_nowait ;;
      match got with
      | None => ret tt
      | Some (UStatus state message) => _update_status_ui state message ;; drain fuel'
      | Some (UTranscription text) => _update_transcription_ui text ;; drain fuel'
      end
  end.

(** One timer tick of the UI thread.  Nothing else runs inside a method of
    this model, so one more iteration than the queue is long reaches
    [queue.Empty]. *)
Definition poll_updates : M unit :=
  a <- get_self ;;
  drain (S (length (update_queue a))) ;;
  when (root a) (emit AfterPoll).

(** ** Keyboard listener *)

Definition stop_keyboard_listener : M unit := emit StopListener.

Definition start_keyboard_listener (env : Env) : M unit :=
  try_except
    (emit StartStream ;; may_raise (start_stream env) ;;
     emit StartListener ;; may_raise (start_listener env))
    (fun e => update_status STATUS_ERROR ("Failed to start: " ++ str_of_exn e)).

Definition restart_keyboard_listener (env : Env) : M unit :=
  stop_keyboard_listener ;;
  start_keyboard_listener env.

(** ** Settings handlers

    Each handler takes what it reads from its widget variable as an
    argument. *)

Definition on_hotkey_changed (env : Env) (choice : string) : M unit :=
  let new_hotkey := choice in
  settings_setitem "hotkey" (PStr new_hotkey) ;;
  save_settings env ;;
  a <- get_self ;;
  _update_status_ui (current_status a) "" ;;
  restart_keyboard_listener env.

Definition on_sound_changed (env : Env) (sound_var : bool) : M unit :=
  settings_setitem "sound_enabled" (PBool sound_var) ;;
  save_settings env.

(** [for lbl, val in PASTE_DELAY_OPTIONS: if lbl == label: ...; break] *)
Fixpoint find_delay (label : string) (options : list (string * Q)) : option Q :=
  match options with
  | [] => None
  | (lbl, val) :: rest => if String.eqb lbl label then Some val else find_delay label rest
  end.

Definition on_delay_changed (env : Env) (delay_var : string) : M unit :=
  let label := delay_var in
  match find_delay label PASTE_DELAY_OPTIONS with
  | Some val => settings_setitem "paste_delay" (PFloat val)
  | None => ret tt
  end ;;
  save_settings env.

Definition on_minimized_changed (env : Env) (minimized_var : bool) : M unit :=
  settings_setitem "start_minimized" (PBool minimized_var) ;;
  save_settings env.

(** [update_startup_registry] catches its own errors and touches nothing of
    the application; it is recorded as one outside call. *)
Definition on_startup_changed (env : Env) (startup_var : bool) : M unit :=
  let enabled := startup_var in
  settings_setitem "run_on_startup" (PBool enabled) ;;
  save_settings env ;;
  emit (SetStartupRegistry enabled).

(** ** Audio and recording *)

Definition audio_callback (indata : chunk) : M unit :=
  a <- get_self ;;
  when (is_recording a) (modify_self (fun a => set_audio_data (audio_data a ++ [indata]) a)).

Definition start_recording : M unit :=
  a <- get_self ;;
  if negb (files_ok a) then ret tt
  else
    modify_self (set_is_recording true) ;;
    modify_self (set_audio_data []) ;;
    update_status STATUS_RECORDING "" ;;
    when (ghost_indicator a) (emit (AfterShow "recording")) ;;
    when (truthy (settings_get a "sound_enabled" (PBool true))) (emit (Beep START_BEEP)).

(** The worker thread is started, not run: its body is [process_recording],
    which the scheduler runs later. *)
Definition stop_recording : M unit :=
  a <- get_self ;;
  if negb (is_recording a) then ret tt
  else
    modify_self (set_is_recording false) ;;
    when (truthy (settings_get a "sound_enabled" (PBool true))) (emit (Beep STOP_BEEP)) ;;
    emit StartWorker.

Definition toggle_recording : M unit :=
  a <- get_self ;;
  if is_recording a then stop_recording else start_recording.

(** [wav.write(path, rate, data)] *)
Definition wav_write_file (env : Env) (path : string) (rate : Z) (data : list sample) : M unit :=
  match wav_write env with
  | WavWritten => modify_world (fun w => set_fs (<[path := Wav rate data]> (fs w)) w)
  | WavFailed e file_left =>
      when file_left (modify_world (fun w => set_fs (<[path := Opaque]> (fs w)) w)) ;;
      raise e
  end.

(** [os.remove(path)] *)
Definition remove_file (env : Env) (path : string) : M unit :=
  may_raise (os_remove env) ;;
  modify_world (fun w => set_fs (delete path (fs w)) w).

(** Runs the recognizer; [None] on a non-zero exit code or on an exception
    of the call. *)
Definition transcribe (env : Env) (audio_file : string) : M (option string) :=
  try_except
    (let command :=
       [ script_path WHISPER_EXE; "-m"; script_path MODEL_PATH;
         "-f"; audio_file; "-nt"; "-np" ] in
     emit (SubprocessRun command) ;;
     r <- lift (subprocess_run env) ;;
     let '(returncode, stdout) := r in
     if negb (returncode =? 0)%Z then ret None
     else ret (Some (PyStr.strip stdout)))
    (fun e => emit (Print ("Transcription error: " ++ str_of_exn e)) ;; ret None).

Definition type_text (env : Env) (text : string) : M unit :=
  if negb (PyStr.nonempty text) || PyStr.isspace text then ret tt
  else
    let text := PyStr.strip text in
    old_clipboard <-
      try_except
        (emit ClipboardPaste ;; may_raise (pyperclip_paste env) ;;
         w <- get_world ;; ret (clipboard w))
        (fun _ => ret "") ;;
    emit (ClipboardCopy text) ;;
    may_raise (pyperclip_copy env) ;;
    modify_world (set_clipboard text) ;;
    a <- get_self ;;
    emit (Sleep (settings_get a "paste_delay" (PFloat 0.15%Q))) ;;
    may_raise (time_sleep env) ;;
    emit (KbPress "ctrl") ;;
    emit (KbPress "v") ;;
    emit (KbRelease "v") ;;
    emit (KbRelease "ctrl").

(** [duration < 0.5], with [duration = len(recording) / SAMPLE_RATE].  The
    float quotient is the correctly rounded rational one and 0.5 is a float,
    so the comparison on rationals decides the same. *)
Definition too_short (recording : list sample) : bool :=
  let duration := (inject_Z (Z.of_nat (length recording)) / inject_Z SAMPLE_RATE)%Q in
  negb (Qle_bool 0.5%Q duration).

(** How the [try] statement of [process_recording] is left: by falling
    through, or by the [return] of its [except] branch. *)
Inductive flow : Type := FallThrough | Return.

(** The [try] block of [process_recording] with its [except] clause. *)
Definition guarded_transcription (env : Env) (a : App) (temp_wav : string)
    (recording : list sample) : M flow :=
  try_except
    (wav_write_file env temp_wav SAMPLE_RATE recording ;;
     text <- transcribe env temp_wav ;;
     match text with
     | Some t =>
         if PyStr.nonempty t
         then update_transcription t ;; type_text env t
         else ret tt
     | None => ret tt
     end ;;
     ret FallThrough)
    (fun e =>
       update_status STATUS_ERROR (str_of_exn e) ;;
       when (ghost_indicator a) (emit AfterHide) ;;
       ret Return).

(** Its [finally] clause: [if os.path.exists(temp_wav): os.remove(temp_wav)]. *)
Definition remove_temp (env : Env) (temp_wav : string) : M unit :=
  w <- get_world ;;
  when (path_exists w temp_wav) (remove_file env temp_wav).

Definition process_recording (env : Env) : M unit :=
  a <- get_self ;;
  if (length (audio_data a) =? 0)%nat then
    update_status STATUS_READY "" ;;
    when (ghost_indicator a) (emit AfterHide)
  else
    let recording := concat (audio_data a) in
    if too_short recording then
      update_status STATUS_READY "" ;;
      when (ghost_indicator a) (emit AfterHide)
    else
      update_status STATUS_TRANSCRIBING "" ;;
      when (ghost_indicator a) (emit (AfterShow "transcribing")) ;;
      let temp_wav := mktemp env in
      left <-
        try_finally
          (guarded_transcription env a temp_wav recording)
          (remove_temp env temp_wav) ;;
      match left with
      | Return => ret tt
      | FallThrough =>
          update_status STATUS_READY "" ;;
          when (ghost_indicator a) (emit AfterHide)
      end.

(** ** Hotkey matching *)

(** The members of pynput's [Key] enum on Windows, by name. *)
Definition Key_members : list string :=
  [ "alt"; "alt_l"; "alt_r"; "alt_gr"; "backspace"; "caps_lock";
    "cmd"; "cmd_l"; "cmd_r"; "ctrl"; "ctrl_l"; "ctrl_r"; "delete"; "down";
    "end"; "enter"; "esc";
    "f1"; "f2"; "f3"; "f4"; "f5"; "f6"; "f7"; "f8"; "f9"; "f10";
    "f11"; "f12"; "f13"; "f14"; "f15"; "f16"; "f17"; "f18"; "f19"; "f20";
    "f21"; "f22"; "f23"; "f24";
    "home"; "left"; "page_down"; "page_up"; "right";
    "shift"; "shift_l"; "shift_r"; "space"; "tab"; "up";
    "media_play_pause"; "media_volume_mute"; "media_volume_down";
    "media_volume_up"; "media_previous"; "media_next";
    "insert"; "menu"; "num_lock"; "pause"; "print_screen"; "scroll_lock" ].

(** [getattr(Key, name, dflt)], for the names the callers build: an [f]
    followed by digits, which can only name a member. *)
Definition getattr_Key (name : string) (dflt : key) : key :=
  if bool_decide (name ∈ Key_members) then Key name else dflt.

(** [key == expected] where [expected] is a member of [Key]: enum members
    are equal only to themselves. *)
Definition key_eqb (k expected : key) : bool :=
  match k, expected with
  | Key n, Key m => String.eqb n m
  | _, _ => false
  end.

(** [key == Key.<name>] *)
Definition is_Key (k : key) (name : string) : bool := key_eqb k (Key name).

(** [hasattr(key, 'char') and key.char == c] *)
Definition has_char (k : key) (c : string) : bool :=
  match k with
  | KeyCode (Some ch) => String.eqb ch c
  | _ => false
  end.

(** [hotkey.startswith(...)] raises [AttributeError] when the stored
    hotkey is not a string. *)
Definition is_hotkey_pressed (k : key) : M bool :=
  a <- get_self ;;
  match settings_get a "hotkey" (PStr "F8") with
  | PStr hotkey =>
      if PyStr.startswith hotkey "F" && PyStr.isdigit (PyStr.tail hotkey) then
        let expected := getattr_Key (PyStr.lower hotkey) (Key "f8") in
        ret (key_eqb k expected)
      else if String.eqb hotkey "Ctrl+Shift+R" then
        ret (ctrl_pressed a && shift_pressed a && has_char k "r")
      else if String.eqb hotkey "Ctrl+Shift+D" then
        ret (ctrl_pressed a && shift_pressed a && has_char k "d")
      else if String.eqb hotkey "Ctrl+Alt+V" then
        ret (ctrl_pressed a && alt_pressed a && has_char k "v")
      else ret false
  | _ => raise (Exception "object has no attribute 'startswith'")
  end.

Definition on_key_press (k : key) : M unit :=
  (if is_Key k "ctrl_l" || is_Key k "ctrl_r" then
     modify_self (set_ctrl_pressed true)
   else if is_Key k "shift_l" || is_Key k "shift_r" || is_Key k "shift" then
     modify_self (set_shift_pressed true)
   else if is_Key k "alt_l" || is_Key k "alt_r" || is_Key k "alt_gr" then
     modify_self (set_alt_pressed true)
   else ret tt) ;;
  pressed <- is_hotkey_pressed k ;;
  if pressed : bool then
    a <- get_self ;;
    if negb (is_recording a) then start_recording else stop_recording
  else ret tt.

Definition on_key_release (k : key) : M unit :=
  if is_Key k "ctrl_l" || is_Key k "ctrl_r" then
    modify_self (set_ctrl_pressed false)
  else if is_Key k "shift_l" || is_Key k "shift_r" || is_Key k "shift" then
    modify_self (set_shift_pressed false)
  else if is_Key k "alt_l" || is_Key k "alt_r" || is_Key k "alt_gr" then
    modify_self (set_alt_pressed false)
  else ret tt.

(** ** Start-up *)

(** The value a dict key is compared by when the other keys are floats:
    numbers compare by value ([bool] being 0 and 1, a float being the
    binary64 number it stands for), while [None] and strings equal no
    float. *)
Definition py_number (v : pyval) : option Q :=
  match v with
  | PFloat x => Some (double_of x)
  | PInt z => Some (inject_Z z)
  | PBool b => Some (if b then 1%Q else 0%Q)
  | _ => None
  end.

(** [d[q] = label] on a dict with float keys, kept in insertion order: an
    equal key keeps its place and takes the new value. *)
Fixpoint py_dict_set (d : list (Q * string)) (q : Q) (label : string) : list (Q * string) :=
  match d with
  | [] => [(q, label)]
  | (q', label') :: rest =>
      if Qeq_bool q' q then (q', label) :: rest
      else (q', label') :: py_dict_set rest q label
  end.

(** [{v: k for k, v in options}]: the keys are the floats the literals of
    [options] stand for. *)
Definition delay_map (options : list (string * Q)) : list (Q * string) :=
  fold_left (fun d kv => py_dict_set d (double_of (snd kv)) (fst kv)) options [].

Fixpoint py_dict_find (d : list (Q * string)) (x : Q) : option string :=
  match d with
  | [] => None
  | (q, label) :: rest => if Qeq_bool q x then Some label else py_dict_find rest x
  end.

(** [d.get(key, dflt)]: a list or a dict cannot be hashed, so looking one
    up raises [TypeError]. *)
Definition py_dict_get (d : list (Q * string)) (key : pyval) (dflt : string) : outcome string :=
  match key with
  | PList _ | PDict _ => Raised (Exception "unhashable type")
  | _ =>
      match py_number key with
      | Some x => Normal (default dflt (py_dict_find d x))
      | None => Normal dflt
      end
  end.

(** The label [create_gui] puts in [delay_var]:
    [delay_map.get(self.settings.get("paste_delay", 0.15), "Normal (0.15s)")]. *)
Definition current_delay_label (a : App) : outcome string :=
  let current_delay := settings_get a "paste_delay" (PFloat 0.15%Q) in
  py_dict_get (delay_map PASTE_DELAY_OPTIONS) current_delay "Normal (0.15s)".

(** [create_gui]: the window and the status widgets are built; the
    settings card reads the stored settings, where the look-up of the delay
    label raises on an unhashable delay and each of the three
    [ctk.BooleanVar(value=...)] raises if Tk refuses the stored value; then
    the first poll runs and missing files are reported. *)
Definition create_gui (env : Env) : M unit :=
  modify_self (set_root true) ;;
  modify_self (set_ui initial_ui) ;;
  a <- get_self ;;
  lift (current_delay_label a) ;;
  may_raise (boolean_var env (settings_get a "sound_enabled" (PBool true))) ;;
  may_raise (boolean_var env (settings_get a "start_minimized" (PBool false))) ;;
  may_raise (boolean_var env (settings_get a "run_on_startup" (PBool false))) ;;
  poll_updates ;;
  a <- get_self ;;
  when (negb (files_ok a)) (update_status STATUS_ERROR (error_message a)).

(** [run], up to the Tk main loop. *)
Definition run (env : Env) : M unit :=
  create_gui env ;;
  modify_self (set_ghost_indicator true) ;;
  start_keyboard_listener env.

(** [app = GhostWriterApp(); app.run()], on the world the process starts in. *)
Definition startup (env : Env) (w : World) : State :=
  exec (init env ;; run env) (new_app, w).

(** [quit_app]; the tray icon exists once [run] has created it. *)
Definition quit_app (env : Env) : M unit :=
  a <- get_self ;;
  when (is_recording a) (modify_self (set_is_recording false)) ;;
  stop_keyboard_listener ;;
  emit StopTrayIcon ;;
  save_settings env ;;
  when (root a) (emit DestroyWindow).

(** ** The running application

    After start-up the application reacts to callbacks: key events from the
    listener, the tray menu, audio blocks, timer ticks, the widgets of the
    settings card, and the bodies of the worker threads it started.  Each
    callback runs with its own [Env]; one that ends by an uncaught exception
    leaves the changes it made.  A worker body runs as one step: the
    model does not interleave it with other callbacks. *)

Inductive event : Type :=
| KeyPressed (k : key)
| KeyReleased (k : key)
| TrayToggle
| AudioBlock (indata : chunk)
| TimerTick
| WorkerRuns
| HotkeyChosen (choice : string)
| SoundSwitched (sound_var : bool)
| DelayChosen (delay_var : string)
| MinimizedSwitched (minimized_var : bool)
| StartupSwitched (startup_var : bool)
| QuitChosen.

Definition handle (env : Env) (ev : event) : M unit :=
  match ev with
  | KeyPressed k => on_key_press k
  | KeyReleased k => on_key_release k
  | TrayToggle => toggle_recording
  | AudioBlock indata => audio_callback indata
  | TimerTick => poll_updates
  | WorkerRuns => process_recording env
  | HotkeyChosen choice => on_hotkey_changed env choice
  | SoundSwitched b => on_sound_changed env b
  | DelayChosen label => on_delay_changed env label
  | MinimizedSwitched b => on_minimized_changed env b
  | StartupSwitched b => on_startup_changed env b
  | QuitChosen => quit_app env
  end.

Definition step (s : State) (c : Env * event) : State :=
  exec (handle (fst c) (snd c)) s.

Definition run_events (cs : list (Env * event)) (s : State) : State :=
  fold_left step cs s.

(** ** Observations on the log *)

(** The recognizer was invoked. *)
Definition is_recognizer_call (e : effect) : bool :=
  match e with SubprocessRun _ => true | _ => false end.

(** Text was put on the clipboard. *)
Definition is_clipboard_copy (e : effect) : bool :=
  match e with ClipboardCopy _ => true | _ => false end.

(** A key was pressed or released through the keyboard controller. *)
Definition is_keystroke (e : effect) : bool :=
  match e with KbPress _ | KbRelease _ => true | _ => false end.

(** The entries of the log that satisfy [p]. *)
Definition calls (p : effect -> bool) (w : World) : list effect := filter (fun e => p e = true) (log w).

(** The five recognized settings keys. *)
Definition recognized_keys : gset string :=
  {[ "hotkey"; "sound_enabled"; "paste_delay"; "start_minimized"; "run_on_startup" ]}.

(** An environment in which no outside call fails and the recognizer
    prints [stdout] with exit code [returncode]. *)
Definition quiet_env (temp : string) (returncode : Z) (stdout : string) : Env :=
  mkEnv None temp WavWritten (Normal (returncode, stdout)) None None None None None None
    (fun _ => None).

(** A world with the recognizer and the model in place and no settings
    file. *)
Definition installed_world : World :=
  mkWorld (<[script_path WHISPER_EXE := Opaque]> (<[script_path MODEL_PATH := Opaque]> ∅)) "" [].

(** ** Vocabulary of the properties *)

(** The dispatch of [poll_updates] on one queue entry. *)
Definition apply_update (u : update) : M unit :=
  match u with
  | UStatus state message => _update_status_ui state message
  | UTranscription text => _update_transcription_ui text
  end.

(** The UI handlers run on the entries of [us], first to last. *)
Fixpoint apply_in_order (us : list update) : M unit :=
  match us with
  | [] => ret tt
  | u :: rest => apply_update u ;; apply_in_order rest
  end.

(** The producer call that puts the entry [u] on the queue. *)
Definition enqueue (u : update) : M unit :=
  match u with
  | UStatus state message => update_status state message
  | UTranscription text => update_transcription text
  end.

Fixpoint enqueue_all (us : list update) : M unit :=
  match us with
  | [] => ret tt
  | u :: rest => enqueue u ;; enqueue_all rest
  end.

(** Seconds of audio in the buffer: [len(recording) / SAMPLE_RATE]. *)
Definition duration (a : App) : Q :=
  (inject_Z (Z.of_nat (length (concat (audio_data a)))) / inject_Z SAMPLE_RATE)%Q.

(** [m] keeps the property [P] of the application object, however it ends. *)
Definition preserves {A} (P : App -> Prop) (m : M A) : Prop :=
  forall s, P (fst s) -> P (fst (snd (m s))).

(** The settings a fresh process ends up with when it starts on a world
    whose settings file was just written from [st]. *)
Definition reload (env_save env_load : Env) (st : gmap string pyval) (a : App) (w : World)
  : gmap string pyval :=
  let saved := exec (save_settings env_save) (set_settings st a, w) in
  settings (fst (exec (init env_load) saved)).

(** The recording in the buffer passes both guards of [process_recording]:
    there is a chunk and the audio lasts half a second or more, so the
    temporary wave file gets written. *)
Definition reaches_transcription (a : App) : Prop :=
  audio_data a <> [] /\ (0.5 <= duration a)%Q.

(** The state [process_recording] is in when it enters its [try]
    statement: the status is transcribing and the indicator was asked to
    show it. *)
Definition transcribing_state (s : State) : State :=
  (set_update_queue (update_queue (fst s) ++ [UStatus STATUS_TRANSCRIBING ""])
     (set_current_status STATUS_TRANSCRIBING (fst s)),
   set_log (log (snd s) ++ (if ghost_indicator (fst s) then [AfterShow "transcribing"] else []))
     (snd s)).

(** The recognizer call [transcribe] makes on [audio_file]. *)
Definition recognizer_call (audio_file : string) : effect :=
  SubprocessRun [ script_path WHISPER_EXE; "-m"; script_path MODEL_PATH;
                  "-f"; audio_file; "-nt"; "-np" ].

(** The settings mapping has exactly the five recognized keys. *)
Definition five_keys (a : App) : Prop := dom (settings a) = recognized_keys.

(** The required files were found missing and no recording is going on. *)
Definition disarmed (a : App) : Prop := files_ok a = false /\ is_recording a = false.

(** ** Sample inputs *)

(** An environment without failures: recognizer output "hello", exit code 0. *)
Definition calm : Env := quiet_env "rec.wav" 0 "hello".

(** The application right after start-up with all files in place. *)
Definition started : State := startup calm installed_world.

(** Half a second and a quarter of a second of silence, in one block. *)
Definition half_second : list chunk := [repeat 0%Q (Z.to_nat 8000)].
Definition quarter_second : list chunk := [repeat 0%Q (Z.to_nat 4000)].

Definition with_audio (d : list chunk) (s : State) : State :=
  (set_audio_data d (fst s), snd s).

(** The recognizer exits with code 1. *)
Definition failing_recognizer : Env := quiet_env "rec.wav" 1 "".

(** The recognizer prints a text and exits with code 1. *)
Definition talking_failing_recognizer : Env := quiet_env "rec.wav" 1 "hello".

(** The recognizer prints only blanks. *)
Definition blank_recognizer : Env := quiet_env "rec.wav" 0 "  ".

(** A settings file with one recognized and one unknown key. *)
Definition partial_file : gmap string pyval :=
  <["hotkey" := PStr "F9"]> (<["theme" := PStr "dark"]> ∅).

Definition world_with_settings (m : gmap string pyval) : World :=
  set_fs (<[script_path SETTINGS_FILE := Json (PDict m)]> (fs installed_world)) installed_world.

(** A world in which the model file is missing. *)
Definition world_without_model : World :=
  mkWorld (<[script_path WHISPER_EXE := Opaque]> ∅) "" [].

(** ** Further methods *)

(** [get_hotkey_key]: the key the stored hotkey stands for, a member of
    [Key] ([inl]) or, for a combination, the character of its main key
    ([inr]). *)
Definition get_hotkey_key : M (key + string) :=
  a <- get_self ;;
  match settings_get a "hotkey" (PStr "F8") with
  | PStr hotkey =>
      if PyStr.startswith hotkey "F" && PyStr.isdigit (PyStr.tail hotkey) then
        ret (inl (getattr_Key (PyStr.lower hotkey) (Key "f8")))
      else if String.eqb hotkey "Ctrl+Shift+R" then ret (inr "r")
      else if String.eqb hotkey "Ctrl+Shift+D" then ret (inr "d")
      else if String.eqb hotkey "Ctrl+Alt+V" then ret (inr "v")
      else ret (inl (Key "f8"))
  | _ => raise (Exception "object has no attribute 'startswith'")
  end.

(** [s.replace(old, new)] for a non-empty [old]: the occurrences of [old]
    are replaced left to right, without overlap.  [skip] counts the
    characters of a replaced occurrence still to drop. *)
Fixpoint replace_from (skip : nat) (old new s : string) : string :=
  match s with
  | EmptyString => EmptyString
  | String c s' =>
      match skip with
      | S n => replace_from n old new s'
      | O =>
          if String.prefix old s
          then new ++ replace_from (String.length old - 1) old new s'
          else String c (replace_from 0 old new s')
      end
  end.

Definition py_replace (s old new : string) : string := replace_from 0 old new s.

(** The double quote character, as a string. *)
Definition dquote : string := String (ascii_of_nat 34) EmptyString.

(** The outcomes [update_startup_registry] depends on: how the process was
    started and whether the registry calls fail. *)
Record RegistryEnv : Type := mkRegistryEnv {
  open_key : option exn;           (* winreg.OpenKey raises *)
  frozen : bool;                   (* getattr(sys, 'frozen', False) *)
  sys_executable : string;         (* sys.executable *)
  script_file : string;            (* os.path.abspath(__file__) *)
  set_value : option exn;          (* winreg.SetValueEx raises *)
  delete_value : option exn        (* winreg.DeleteValue raises, for another
                                      reason than a missing value *)
}.

(** [update_startup_registry(enabled)] on the values of the key
    [Software\Microsoft\Windows\CurrentVersion\Run] of the current user:
    the values after the call, and what it printed. *)
Definition update_startup_registry (renv : RegistryEnv) (enabled : bool)
    (run_key : gmap string string) : gmap string string * list string :=
  let app_name := "GhostWriter" in
  let failed (e : exn) := [("Error updating registry: " ++ str_of_exn e)%string] in
  match open_key renv with
  | Some e => (run_key, failed e)
  | None =>
      if enabled then
        let app_path :=
          if frozen renv then sys_executable renv
          else
            let pythonw := py_replace (sys_executable renv) "python.exe" "pythonw.exe" in
            (dquote ++ pythonw ++ dquote ++ " " ++ dquote ++ script_file renv ++ dquote)%string in
        match set_value renv with
        | Some e => (run_key, failed e)
        | None => (<[app_name := app_path]> run_key, [])
        end
      else
        match run_key !! app_name with
        | None => (run_key, [])                       (* FileNotFoundError: pass *)
        | Some _ =>
            match delete_value renv with
            | Some e => (run_key, failed e)
            | None => (delete app_name run_key, [])
            end
        end
  end.

(** ** The floating indicator *)

Module GhostIndicator.

(** The indicator with its popup window.  [pending_timers] are the [after]
    callbacks of the popup that Tk still has to run and [timer_counter]
    numbers them; the label text keeps the ghost emoji as its bytes. *)
Record Indicator : Type := mkIndicator {
  status : string;
  animation_id : option nat;
  alpha_step : Q;
  label_text : string;
  label_fill : string;
  pill_fill : string;
  popup_visible : bool;
  popup_position : Z * Z;
  pending_timers : gset nat;
  timer_counter : nat
}.

Definition width : Z := 126.
Definition height : Z := 32.

(** The indicator as [__init__] and [_create_popup] leave it, on a screen
    of [sw] by [sh] pixels: withdrawn, centred, no timer. *)
Definition create (sw sh : Z) : Indicator :=
  mkIndicator "idle" None 0 "👻 Ready" "white" "#121212" false
    ((sw - width) / 2, (sh - height) / 2)%Z ∅ 0.

(** [self.popup.after(30, self._animate)]: a new pending timer. *)
Definition after (g : Indicator) : nat * Indicator :=
  (timer_counter g,
   mkIndicator (status g) (animation_id g) (alpha_step g) (label_text g) (label_fill g)
     (pill_fill g) (popup_visible g) (popup_position g)
     ({[timer_counter g]} ∪ pending_timers g) (S (timer_counter g))).

(** [self.popup.after_cancel(id)] *)
Definition after_cancel (id : nat) (g : Indicator) : Indicator :=
  mkIndicator (status g) (animation_id g) (alpha_step g) (label_text g) (label_fill g)
    (pill_fill g) (popup_visible g) (popup_position g)
    (pending_timers g ∖ {[id]}) (timer_counter g).

(** [if self.animation_id: self.popup.after_cancel(self.animation_id)] *)
Definition cancel_animation (g : Indicator) : Indicator :=
  match animation_id g with
  | Some id => after_cancel id g
  | None => g
  end.

(** [_animate].  The colour it sets follows a sine of [alpha_step]; it is
    taken from outside as [color]. *)
Definition _animate (color : string) (g : Indicator) : Indicator :=
  if String.eqb (status g) "idle" then g
  else
    let fill :=
      if String.eqb (status g) "recording" then color
      else if String.eqb (status g) "transcribing" then color
      else label_fill g in
    let g1 :=
      mkIndicator (status g) (animation_id g) (alpha_step g + 0.15)%Q (label_text g) fill
        (pill_fill g) (popup_visible g) (popup_position g)
        (pending_timers g) (timer_counter g) in
    let (id, g2) := after g1 in
    mkIndicator (status g2) (Some id) (alpha_step g2) (label_text g2) (label_fill g2)
      (pill_fill g2) (popup_visible g2) (popup_position g2)
      (pending_timers g2) (timer_counter g2).

(** [show(status)].  [screen] is what [winfo_screenwidth] and
    [winfo_screenheight] give, or the exception that sends the popup to the
    fallback place.  [int(sh * 0.85)] is the exact product truncated
    towards zero: the product is a multiple of 0.05, so its float is on the
    same side of every integer. *)
Definition show (screen : outcome (Z * Z)) (color : string) (new_status : string)
    (g : Indicator) : Indicator :=
  let look :=
    if String.eqb new_status "recording" then
      ("👻 Listening...", "#7fff7f", "#121212")
    else if String.eqb new_status "transcribing" then
      ("👻 Thinking...", "#ffeb3b", "#1e1e1e")
    else (label_text g, label_fill g, pill_fill g) in
  let place :=
    match screen with
    | Normal (sw, sh) => ((sw - width) / 2, Z.quot (sh * 85) 100)%Z
    | Raised _ => (500, 500)%Z
    end in
  let g1 :=
    mkIndicator new_status (animation_id g) (alpha_step g) (fst (fst look)) (snd (fst look))
      (snd look) true place (pending_timers g) (timer_counter g) in
  _animate color (cancel_animation g1).

(** [hide] *)
Definition hide (g : Indicator) : Indicator :=
  let g1 :=
    mkIndicator "idle" (animation_id g) (alpha_step g) (label_text g) (label_fill g)
      (pill_fill g) (popup_visible g) (popup_position g)
      (pending_timers g) (timer_counter g) in
  let g2 := cancel_animation g1 in
  mkIndicator (status g2) (animation_id g2) (alpha_step g2) (label_text g2) (label_fill g2)
    (pill_fill g2) false (popup_position g2) (pending_timers g2) (timer_counter g2).

(** What happens to the indicator: the application asks to show or hide
    it, or Tk runs a pending timer, which calls [_animate]. *)
Inductive action : Type :=
| Show (screen : outcome (Z * Z)) (color : string) (new_status : string)
| Hide
| Fire (id : nat) (color : string).

Definition act (g : Indicator) (x : action) : Indicator :=
  match x with
  | Show screen color new_status => show screen color new_status g
  | Hide => hide g
  | Fire id color =>
      if bool_decide (id ∈ pending_timers g)
      then _animate color (after_cancel id g)
      else g
  end.

Definition acts (xs : list action) (g : Indicator) : Indicator := fold_left act xs g.

(** The animation is either stopped, with no timer pending, or running on
    exactly one pending timer, the one [animation_id] names. *)
Definition one_loop (g : Indicator) : Prop :=
  (forall id, id ∈ pending_timers g -> id < timer_counter g)%nat
  /\ if String.eqb (status g) "idle"
     then pending_timers g = ∅
     else exists id, animation_id g = Some id /\ pending_timers g = {[id]}.

End GhostIndicator.

(** ** Vocabulary of the further properties *)

(** The key events a hotkey target stands for. *)
Definition hits (target : key + string) (k : key) : Prop :=
  match target with
  | inl member => k = member
  | inr c => k = KeyCode (Some c)
  end.

(** [a] with the three modifier flags set to [b]. *)
Definition with_modifiers (b : bool) (a : App) : App :=
  set_alt_pressed b (set_shift_pressed b (set_ctrl_pressed b a)).

(** The required files that do not exist, in the order
    [check_files_exist] looks for them. *)
Definition missing_files (w : World) : list string :=
  ((if path_exists w (script_path WHISPER_EXE) then [] else [WHISPER_EXE])
   ++ (if path_exists w (script_path MODEL_PATH) then [] else [MODEL_PATH]))%list.

(** The settings entry a callback of the settings card assigns. *)
Definition assigned (ev : event) : option (string * pyval) :=
  match ev with
  | HotkeyChosen choice => Some ("hotkey", PStr choice)
  | SoundSwitched b => Some ("sound_enabled", PBool b)
  | DelayChosen label =>
      match find_delay label PASTE_DELAY_OPTIONS with
      | Some val => Some ("paste_delay", PFloat val)
      | None => None
      end
  | MinimizedSwitched b => Some ("start_minimized", PBool b)
  | StartupSwitched b => Some ("run_on_startup", PBool b)
  | _ => None
  end.

Definition is_settings_event (ev : event) : bool :=
  match ev with
  | HotkeyChosen _ | SoundSwitched _ | DelayChosen _ | MinimizedSwitched _
  | StartupSwitched _ => true
  | _ => false
  end.

(** A tone was played. *)
Definition is_beep (e : effect) : bool :=
  match e with Beep _ => true | _ => false end.

(** A worker thread was started. *)
Definition is_worker_start (e : effect) : bool :=
  match e with StartWorker => true | _ => false end.

(** The audio blocks [blocks] delivered one after the other. *)
Definition deliver (env : Env) (blocks : list chunk) : list (Env * event) :=
  map (fun c => (env, AudioBlock c)) blocks.

(** The paste keystroke: control down, v down, v up, control up. *)
Definition paste_keys : list effect :=
  [KbPress "ctrl"; KbPress "v"; KbRelease "v"; KbRelease "ctrl"].

(** The wave file is written and the recognizer exits with code 0 and
    prints [stdout]. *)
Definition recognizer_prints (env : Env) (stdout : string) : Prop :=
  wav_write env = WavWritten /\ subprocess_run env = Normal (0%Z, stdout).

(** Every outside call of [type_text] and the removal of the temporary
    file succeed. *)
Definition paste_succeeds (env : Env) : Prop :=
  pyperclip_copy env = None /\ time_sleep env = None /\ os_remove env = None.

(** The JSON object [load_settings] gets to merge, if there is one: the
    settings file exists, opens, and holds a JSON object. *)
Definition settings_object (env : Env) (w : World) : option (gmap string pyval) :=
  match open_settings env, fs w !! script_path SETTINGS_FILE with
  | None, Some (Json (PDict m)) => Some m
  | _, _ => None
  end.

(** The application object [__init__] builds when [load_settings] left the
    settings [st] and [missing] are the required files not found. *)
Definition initialized (st : gmap string pyval) (missing : list string) : App :=
  match missing with
  | [] => set_files_ok true (set_settings st new_app)
  | _ => set_files_ok false
           (set_error_message ("Missing: " ++ PyStr.join ", " missing) (set_settings st new_app))
  end.

(** The exception that stops [create_gui] before its first poll, if any:
    of the look-up of the delay label, or else of the first
    [ctk.BooleanVar] that Tk refuses. *)
Definition gui_failure (env : Env) (a : App) : option exn :=
  match current_delay_label a with
  | Raised e => Some e
  | Normal _ =>
      match boolean_var env (settings_get a "sound_enabled" (PBool true)) with
      | Some e => Some e
      | None =>
          match boolean_var env (settings_get a "start_minimized" (PBool false)) with
          | Some e => Some e
          | None => boolean_var env (settings_get a "run_on_startup" (PBool false))
          end
      end
  end.

(** [app = GhostWriterApp(); app.run()] as a computation: how it ends. *)
Definition start (env : Env) : M unit := init env ;; run env.

(** A settings file that holds a list as paste delay. *)
Definition world_with_odd_delay : World :=
  set_fs (<[script_path SETTINGS_FILE := Json (PDict (<["paste_delay" := PList []]> ∅))]>
            (fs installed_world)) installed_world.

(** A stored hotkey on which the keyboard trigger never fires: a value
    that is not a string, or a string that is neither an F followed by
    digits nor one of the three combinations. *)
Definition dead_hotkey (v : pyval) : Prop :=
  match v with
  | PStr h =>
      PyStr.startswith h "F" && PyStr.isdigit (PyStr.tail h) = false
      /\ h <> "Ctrl+Shift+R" /\ h <> "Ctrl+Shift+D" /\ h <> "Ctrl+Alt+V"
  | _ => True
  end.

(** What a key event leaves alone when it does not trigger: everything but
    the three modifier flags. *)
Definition same_but_modifiers (a b : App) : Prop :=
  with_modifiers false a = with_modifiers false b.

(** A key press or a key release. *)
Definition is_key_event (ev : event) : bool :=
  match ev with
  | KeyPressed _ | KeyReleased _ => true
  | _ => false
  end.

(** What [type_text] does outside the process when nothing fails: it reads
    the clipboard, copies [text], sleeps, and sends the paste keystroke. *)
Definition paste_effects (text : string) (delay : pyval) : list effect :=
  ([ClipboardPaste; ClipboardCopy text; Sleep delay] ++ paste_keys)%list.

(** The request to the indicator, when there is one. *)
Definition indicator (a : App) (e : effect) : list effect :=
  if ghost_indicator a then [e] else [].

(** The paste fails by the exception [e]: [pyperclip.copy] raises it, or
    [time.sleep] does after the copy. *)
Definition paste_fails (env : Env) (e : exn) : Prop :=
  pyperclip_copy env = Some e \/ (pyperclip_copy env = None /\ time_sleep env = Some e).

(** The indicator was asked to hide. *)
Definition is_hide (e : effect) : bool :=
  match e with AfterHide => true | _ => false end.

(** The three widgets as the handler of a ready status leaves them, and as
    the handler of an error status with [message] does. *)
Definition ready_window (a : App) : Ui :=
  mkUi "#888888" "Ready" (Some "white") (PressHint (settings_get a "hotkey" (PStr "F8"))).
Definition error_window (message : string) : Ui :=
  mkUi "#F44336" "Error" (Some "#F44336") (Literal message).

(** The exception that stops [start_keyboard_listener], if any: of the
    audio stream, or else of the key listener. *)
Definition listener_failure (env : Env) : option exn :=
  match start_stream env with
  | Some e => Some e
  | None => start_listener env
  end.

(** A call that stops or starts the listener or the audio stream. *)
Definition is_listener_call (e : effect) : bool :=
  match e with StopListener | StartStream | StartListener => true | _ => false end.

(** The tone, when the sound is enabled. *)
Definition tone (a : App) (t : Z * Z) : list effect :=
  if truthy (settings_get a "sound_enabled" (PBool true)) then [Beep t] else [].

(** One dictation: the tray entry starts the recording, the audio blocks
    arrive, the tray entry stops it, the worker thread runs, and the timer
    ticks. *)
Definition dictation (env : Env) (blocks : list chunk) : list (Env * event) :=
  ((env, TrayToggle) :: deliver env blocks
   ++ [(env, TrayToggle); (env, WorkerRuns); (env, TimerTick)])%list.

(** The members of [Key] each modifier flag follows. *)
Definition ctrl_keys : list string := ["ctrl_l"; "ctrl_r"].
Definition shift_keys : list string := ["shift_l"; "shift_r"; "shift"].
Definition alt_keys : list string := ["alt_l"; "alt_r"; "alt_gr"].

(** A flag that follows the keys [names], after the event [ev]: set by the
    press of one of them, cleared by the release of one of them. *)
Definition flag_after (names : list string) (held : bool) (ev : event) : bool :=
  match ev with
  | KeyPressed k => if existsb (is_Key k) names then true else held
  | KeyReleased k => if existsb (is_Key k) names then false else held
  | _ => held
  end.

(** The three modifier flags. *)
Definition modifiers (a : App) : bool * bool * bool :=
  (ctrl_pressed a, shift_pressed a, alt_pressed a).

(** The text of the status label for each of the four statuses. *)
Definition status_label (state : string) : string :=
  if String.eqb state STATUS_READY then "Ready"
  else if String.eqb state STATUS_RECORDING then "Listening..."
  else if String.eqb state STATUS_TRANSCRIBING then "Thinking..."
  else "Error".

Definition is_status (state : string) : Prop :=
  In state [STATUS_READY; STATUS_RECORDING; STATUS_TRANSCRIBING; STATUS_ERROR].

(** The colour of the dot and the text of the status label. *)
Definition face (u : Ui) : string * string := (status_dot_fg_color u, status_label_text u).

(** The face once the handler of one queue entry has run. *)
Definition face_after (f : string * string) (u : update) : string * string :=
  match u with
  | UStatus state _ =>
      (status_color state,
       if String.eqb state STATUS_READY then "Ready"
       else if String.eqb state STATUS_RECORDING then "Listening..."
       else if String.eqb state STATUS_TRANSCRIBING then "Thinking..."
       else if String.eqb state STATUS_ERROR then "Error"
       else snd f)
  | UTranscription _ => f
  end.

(** The window is in step with the status: the status is one of the four,
    and once the queued updates are applied the dot and the label show
    it. *)
Definition in_step (a : App) : Prop :=
  is_status (current_status a)
  /\ fold_left face_after (update_queue a) (face (ui a))
     = (status_color (current_status a), status_label (current_status a)).

(** * Properties *)

Local Open Scope list_scope.

(** ** Checks on small inputs *)

Example strip_trims_both_ends :
  PyStr.strip (String "009"%char " hello world " ++ String "010"%char "")%string = "hello world"%string.
Proof. reflexivity. Qed.

Example isspace_isdigit_lower :
  PyStr.isspace "  " = true /\ PyStr.isspace "" = false /\ PyStr.isspace " a" = false
  /\ PyStr.isdigit "12" = true /\ PyStr.isdigit "" = false /\ PyStr.isdigit "1a" = false
  /\ PyStr.lower "F9" = "f9"%string /\ PyStr.contains "xhotkeyx" "hotkey" = true.
Proof. repeat split. Qed.

(** A settings file that is a JSON list naming a key: the lookup raises,
    the error is printed and the defaults stay. *)
Example load_from_a_list :
  let w := set_fs (<[script_path SETTINGS_FILE := Json (PList [PStr "hotkey"])]> (fs installed_world))
             installed_world in
  let s := exec (init calm) (new_app, w) in
  settings (fst s) = DEFAULT_SETTINGS
  /\ log (snd s)
     = [Print "Error loading settings: list indices must be integers or slices, not str"].
Proof. split; reflexivity. Qed.

(** A combination hotkey needs its modifiers held. *)
Example combo_needs_modifiers :
  let s := exec (on_hotkey_changed calm "Ctrl+Shift+R") started in
  let held := exec (bind (on_key_press (Key "ctrl_l")) (fun _ => on_key_press (Key "shift"))) s in
  result (is_hotkey_pressed (KeyCode (Some "r"))) s = Normal false
  /\ result (is_hotkey_pressed (KeyCode (Some "r"))) held = Normal true
  /\ result (is_hotkey_pressed (Key "f8")) held = Normal false.
Proof. vm_compute. auto. Qed.

(** When [wav.write] fails, the error is reported, nothing is pasted and the
    partial file is removed. *)
Example failed_write_is_reported :
  let env := mkEnv None "rec.wav" (WavFailed (Exception "disk full") true)
                   (Normal (0%Z, "hello"%string)) None None None None None None
                   (fun _ => None) in
  let s := exec (process_recording env) (with_audio half_second started) in
  current_status (fst s) = STATUS_ERROR
  /\ update_queue (fst s) = [UStatus "transcribing" ""; UStatus "error" "disk full"]
  /\ calls is_recognizer_call (snd s) = [] /\ calls is_clipboard_copy (snd s) = []
  /\ fs (snd s) !! "rec.wav" = None.
Proof. vm_compute. auto 6. Qed.

Example started_is_ready :
  current_status (fst started) = STATUS_READY /\ files_ok (fst started) = true
  /\ update_queue (fst started) = [] /\ log (snd started) = [AfterPoll; StartStream; StartListener].
Proof. vm_compute. auto. Qed.

Example recording_runs :
  let s := exec (process_recording calm) (with_audio half_second started) in
  update_queue (fst s) = [UStatus "transcribing" ""; UTranscription "hello"; UStatus "ready" ""]
  /\ log (snd s) = [AfterPoll; StartStream; StartListener; AfterShow "transcribing";
                    SubprocessRun ["whisper-cli.exe"; "-m"; "ggml-tiny.bin"; "-f"; "rec.wav"; "-nt"; "-np"];
                    ClipboardPaste; ClipboardCopy "hello"; Sleep (PFloat 0.15%Q);
                    KbPress "ctrl"; KbPress "v"; KbRelease "v"; KbRelease "ctrl"; AfterHide]
  /\ fs (snd s) !! "rec.wav" = None.
Proof. vm_compute. auto. Qed.

(** ** Frame rules: what a computation keeps *)

Section Preserves.

Variable P : App -> Prop.

Lemma preserves_ret {A} (a : A) : preserves P (ret a).
Proof. intros s H. exact H. Qed.

Lemma preserves_raise {A} (e : exn) : preserves P (@raise A e).
Proof. intros s H. exact H. Qed.

Lemma preserves_bind {A B} (m : M A) (k : A -> M B) :
  preserves P m -> (forall a, preserves P (k a)) -> preserves P (bind m k).
Proof.
  intros Hm Hk s H. unfold bind. specialize (Hm s H).
  destruct (m s) as [[a|e] s1]; simpl in *.
  - apply Hk, Hm.
  - exact Hm.
Qed.

Lemma preserves_try_except {A} (m : M A) (h : exn -> M A) :
  preserves P m -> (forall e, preserves P (h e)) -> preserves P (try_except m h).
Proof.
  intros Hm Hh s H. unfold try_except. specialize (Hm s H).
  destruct (m s) as [[a|e] s1]; simpl in *.
  - exact Hm.
  - apply Hh, Hm.
Qed.

Lemma preserves_try_finally {A} (m : M A) (fin : M unit) :
  preserves P m -> preserves P fin -> preserves P (try_finally m fin).
Proof.
  intros Hm Hf s H. unfold try_finally. specialize (Hm s H).
  destruct (m s) as [r s1]; simpl in *. specialize (Hf s1 Hm).
  destruct (fin s1) as [[u|e] s2]; simpl in *; exact Hf.
Qed.

Lemma preserves_get_self : preserves P get_self.
Proof. intros s H. exact H. Qed.

Lemma preserves_get_world : preserves P get_world.
Proof. intros s H. exact H. Qed.

Lemma preserves_modify_world (f : World -> World) : preserves P (modify_world f).
Proof. intros s H. exact H. Qed.

Lemma preserves_emit (e : effect) : preserves P (emit e).
Proof. apply preserves_modify_world. Qed.

Lemma preserves_may_raise (o : option exn) : preserves P (may_raise o).
Proof. destruct o; [apply preserves_raise | apply preserves_ret]. Qed.

Lemma preserves_lift {A} (o : outcome A) : preserves P (lift o).
Proof. destruct o; [apply preserves_ret | apply preserves_raise]. Qed.

Lemma preserves_when (b : bool) (m : M unit) : preserves P m -> preserves P (when b m).
Proof. intros Hm. destruct b; [exact Hm | apply preserves_ret]. Qed.

Lemma preserves_modify_self (f : App -> App) :
  (forall a, P a -> P (f a)) -> preserves P (modify_self f).
Proof. intros Hf s H. apply Hf, H. Qed.

End Preserves.

(** Splits a computation along its structure; what remains are the writes
    to the application object. *)
Ltac frame_step :=
  first
    [ apply preserves_ret | apply preserves_raise | apply preserves_get_self
    | apply preserves_get_world | apply preserves_emit | apply preserves_modify_world
    | apply preserves_may_raise | apply preserves_lift
    | apply preserves_when
    | apply preserves_bind; [| intros ?]
    | apply preserves_try_except; [| intros ?]
    | apply preserves_try_finally
    | match goal with
      | |- preserves _ (if ?b then _ else _) => destruct b
      | |- preserves _ (match ?x with _ => _ end) => destruct x
      | |- preserves _ (let '(_, _) := ?x in _) => destruct x
      end ].

Ltac frame := repeat frame_step.

Section Invariant.

(** A property of the application object that only looks at the settings,
    the recording flag and [files_ok], that writing a recognized settings
    key keeps, that [start_recording] keeps and that clearing the recording
    flag keeps, is kept by every callback. *)
Variable P : App -> Prop.

Hypothesis P_reads :
  forall a b, settings a = settings b -> is_recording a = is_recording b ->
    files_ok a = files_ok b -> P a -> P b.
Hypothesis P_setitem :
  forall key v, In key DEFAULT_SETTINGS_keys -> preserves P (settings_setitem key v).
Hypothesis P_start : preserves P start_recording.
Hypothesis P_stop : forall a, P a -> P (set_is_recording false a).

Local Ltac other_write :=
  apply preserves_modify_self; intros ? ?;
  eapply P_reads; [| | | eassumption]; reflexivity.

Local Ltac key_write := apply P_setitem; simpl; tauto.

Local Ltac kept := repeat (first [assumption | frame_step]); try other_write; try key_write.

Lemma update_status_keeps state message : preserves P (update_status state message).
Proof. unfold update_status. kept. Qed.

Lemma update_transcription_keeps text : preserves P (update_transcription text).
Proof. unfold update_transcription. kept. Qed.

Lemma _update_status_ui_keeps state message : preserves P (_update_status_ui state message).
Proof. unfold _update_status_ui. kept. Qed.

Lemma _update_transcription_ui_keeps text : preserves P (_update_transcription_ui text).
Proof. unfold _update_transcription_ui. kept. Qed.

Lemma drain_keeps fuel : preserves P (drain fuel).
Proof.
  induction fuel as [|fuel IH]; simpl; [apply preserves_ret |].
  unfold get_nowait. kept; auto using _update_status_ui_keeps, _update_transcription_ui_keeps.
Qed.

Lemma poll_updates_keeps : preserves P poll_updates.
Proof.
  unfold poll_updates.
  apply preserves_bind; [apply preserves_get_self | intros a].
  apply preserves_bind; [apply drain_keeps | intros _; kept].
Qed.

Lemma save_settings_keeps env : preserves P (save_settings env).
Proof. unfold save_settings. kept. Qed.

Lemma start_keyboard_listener_keeps env : preserves P (start_keyboard_listener env).
Proof. unfold start_keyboard_listener. kept; apply update_status_keeps. Qed.

Lemma stop_recording_keeps : preserves P stop_recording.
Proof.
  unfold stop_recording. kept.
  all: apply preserves_modify_self; intros ? ?; now apply P_stop.
Qed.

Lemma type_text_keeps env text : preserves P (type_text env text).
Proof. unfold type_text. kept. Qed.

Lemma transcribe_keeps env path : preserves P (transcribe env path).
Proof. unfold transcribe. kept. Qed.

Lemma process_recording_keeps env : preserves P (process_recording env).
Proof.
  unfold process_recording, guarded_transcription, remove_temp, wav_write_file, remove_file.
  kept; auto using update_status_keeps, update_transcription_keeps, type_text_keeps,
         transcribe_keeps.
Qed.

Lemma is_hotkey_pressed_keeps k : preserves P (is_hotkey_pressed k).
Proof. unfold is_hotkey_pressed. kept. Qed.

Lemma handle_keeps env ev : preserves P (handle env ev).
Proof.
  destruct ev; simpl.
  - unfold on_key_press.
    apply preserves_bind; [kept | intros _].
    apply preserves_bind; [apply is_hotkey_pressed_keeps | intros pressed].
    destruct pressed; [| apply preserves_ret].
    apply preserves_bind; [apply preserves_get_self | intros a].
    destruct (negb (is_recording a)); [exact P_start | apply stop_recording_keeps].
  - unfold on_key_release. kept.
  - unfold toggle_recording.
    apply preserves_bind; [apply preserves_get_self | intros a].
    destruct (is_recording a); [apply stop_recording_keeps | exact P_start].
  - unfold audio_callback. kept.
  - apply poll_updates_keeps.
  - apply process_recording_keeps.
  - unfold on_hotkey_changed, restart_keyboard_listener, stop_keyboard_listener.
    kept; auto using save_settings_keeps, _update_status_ui_keeps, start_keyboard_listener_keeps.
  - unfold on_sound_changed. kept; apply save_settings_keeps.
  - unfold on_delay_changed. kept; apply save_settings_keeps.
  - unfold on_minimized_changed. kept; apply save_settings_keeps.
  - unfold on_startup_changed. kept; apply save_settings_keeps.
  - unfold quit_app, stop_keyboard_listener.
    apply preserves_bind; [apply preserves_get_self | intros a].
    apply preserves_bind;
      [apply preserves_when, preserves_modify_self; intros ? ?; now apply P_stop | intros _].
    kept; apply save_settings_keeps.
Qed.

Lemma merge_loaded_keeps loaded keys :
  (forall k, In k keys -> In k DEFAULT_SETTINGS_keys) ->
  preserves P (merge_loaded loaded keys).
Proof.
  induction keys as [|key rest IH]; intros Hsub; simpl; [apply preserves_ret |].
  apply preserves_bind; [apply preserves_lift | intros present].
  apply preserves_bind; [| intros _; apply IH; intros k Hk; apply Hsub; now right].
  destruct present; [| apply preserves_ret].
  apply preserves_bind; [apply preserves_lift | intros v].
  apply P_setitem, Hsub. now left.
Qed.

Lemma load_settings_keeps env : preserves P (load_settings env).
Proof.
  unfold load_settings.
  apply preserves_try_except; [| intros e; apply preserves_emit].
  apply preserves_bind; [apply preserves_get_world | intros w].
  destruct (fs w !! script_path SETTINGS_FILE); [| apply preserves_ret].
  apply preserves_bind; [apply preserves_may_raise | intros _].
  apply preserves_bind; [apply preserves_lift | intros loaded].
  apply merge_loaded_keeps. auto.
Qed.

Lemma check_files_exist_keeps : preserves P check_files_exist.
Proof. unfold check_files_exist. kept. Qed.

Lemma create_gui_keeps env : preserves P (create_gui env).
Proof.
  unfold create_gui.
  apply preserves_bind; [kept | intros _].
  apply preserves_bind; [kept | intros _].
  apply preserves_bind; [apply preserves_get_self | intros a0].
  apply preserves_bind; [apply preserves_lift | intros _].
  apply preserves_bind; [apply preserves_may_raise | intros _].
  apply preserves_bind; [apply preserves_may_raise | intros _].
  apply preserves_bind; [apply preserves_may_raise | intros _].
  apply preserves_bind; [apply poll_updates_keeps | intros _].
  apply preserves_bind; [apply preserves_get_self | intros a].
  apply preserves_when, update_status_keeps.
Qed.

Lemma run_keeps env : preserves P (run env).
Proof.
  unfold run.
  apply preserves_bind; [apply create_gui_keeps | intros _].
  apply preserves_bind; [kept | intros _].
  apply start_keyboard_listener_keeps.
Qed.

Lemma run_events_keeps cs s : P (fst s) -> P (fst (run_events cs s)).
Proof.
  revert s. induction cs as [|[env ev] cs IH]; intros s H; simpl; [exact H |].
  apply IH. apply (handle_keeps env ev s H).
Qed.

End Invariant.

(** ** Short and empty recordings *)

Lemma too_short_duration (a : App) :
  too_short (concat (audio_data a)) = true <-> (duration a < 0.5)%Q.
Proof.
  unfold too_short, duration. rewrite negb_true_iff.
  split; intros H.
  - apply Qnot_le_lt. intros Hle. apply Qle_bool_iff in Hle. congruence.
  - apply not_true_is_false. intros Hle. apply Qle_bool_iff in Hle.
    exact (Qlt_not_le _ _ H Hle).
Qed.

(** C2: a recording with no chunk, or with less than half a second of
    audio, is dropped by [process_recording]: it returns normally, the log
    gains nothing but the hiding of the indicator (so the recognizer is not
    invoked), and the status is put back to ready, through the queue. *)
Theorem short_recording_is_skipped (env : Env) (s : State) :
  audio_data (fst s) = [] \/ (duration (fst s) < 0.5)%Q ->
  let s' := exec (process_recording env) s in
  result (process_recording env) s = Normal tt
  /\ log (snd s') = log (snd s) ++ (if ghost_indicator (fst s) then [AfterHide] else [])
  /\ calls is_recognizer_call (snd s') = calls is_recognizer_call (snd s)
  /\ fs (snd s') = fs (snd s)
  /\ current_status (fst s') = STATUS_READY
  /\ update_queue (fst s') = update_queue (fst s) ++ [UStatus STATUS_READY ""].
Proof.
  destruct s as [a w]. simpl. intros H.
  assert (Hskip : (length (audio_data a) =? 0)%nat = true
                  \/ ((length (audio_data a) =? 0)%nat = false
                      /\ too_short (concat (audio_data a)) = true)).
  { destruct H as [H|H].
    - left. now rewrite H.
    - destruct (length (audio_data a) =? 0)%nat; [now left | right].
      split; [reflexivity | now apply too_short_duration]. }
  unfold exec, result, process_recording, bind, get_self. simpl.
  destruct Hskip as [-> | [-> ->]]; destruct (ghost_indicator a); simpl;
    unfold calls; simpl; rewrite ?filter_app, ?app_nil_r; simpl;
    repeat split; try reflexivity.
Qed.

Lemma short_recording_is_skipped_witness :
  let s := with_audio quarter_second started in
  let s' := exec (process_recording calm) s in
  (duration (fst s) < 0.5)%Q
  /\ calls is_recognizer_call (snd s') = calls is_recognizer_call (snd s)
  /\ current_status (fst s') = STATUS_READY.
Proof.
  split; [reflexivity |].
  pose proof (short_recording_is_skipped calm (with_audio quarter_second started)) as H.
  destruct H as (_ & _ & Hc & _ & Hs & _); [right; reflexivity | exact (conj Hc Hs)].
Defined.

(** ** The update queue *)

Lemma enqueue_appends (u : update) (a : App) (w : World) :
  exists a', enqueue u (a, w) = (Normal tt, (a', w))
             /\ update_queue a' = update_queue a ++ [u] /\ root a' = root a.
Proof.
  destruct u; cbv [enqueue update_status update_transcription bind modify_self fst snd];
    eexists; (split; [reflexivity | split; reflexivity]).
Qed.

Lemma enqueue_all_appends (us : list update) (a : App) (w : World) :
  exists a', enqueue_all us (a, w) = (Normal tt, (a', w))
             /\ update_queue a' = update_queue a ++ us /\ root a' = root a.
Proof.
  revert a. induction us as [|u us IH]; intros a; simpl.
  - exists a. now rewrite app_nil_r.
  - destruct (enqueue_appends u a w) as (a1 & E1 & Q1 & R1).
    destruct (IH a1) as (a2 & E2 & Q2 & R2).
    exists a2. unfold bind. rewrite E1, E2, Q2, Q1, <- app_assoc, R2, R1. auto.
Qed.

(** A UI handler returns normally, touches neither the queue nor the world,
    and does not read the queue. *)
Lemma apply_update_runs (u : update) (a : App) (w : World) :
  exists a', apply_update u (a, w) = (Normal tt, (a', w))
             /\ update_queue a' = update_queue a /\ root a' = root a
             /\ forall q, apply_update u (set_update_queue q a, w)
                          = (Normal tt, (set_update_queue q a', w)).
Proof.
  destruct u;
    cbv [apply_update _update_status_ui _update_transcription_ui bind get_self
         modify_self fst snd];
    eexists; (split; [reflexivity |]);
    (split; [reflexivity |]); (split; [reflexivity |]); intros q; reflexivity.
Qed.

Lemma apply_in_order_emptied (us : list update) (a : App) (w : World) :
  exists a', apply_in_order us (set_update_queue [] a, w) = (Normal tt, (a', w))
             /\ update_queue a' = [] /\ root a' = root a.
Proof.
  revert a. induction us as [|u us IH]; intros a; simpl.
  - eexists. repeat split.
  - destruct (apply_update_runs u a w) as (a1 & _ & _ & R1 & E1).
    unfold bind. rewrite E1. destruct (IH a1) as (a2 & E2 & Q2 & R2).
    exists a2. rewrite E2, R2, R1. auto.
Qed.

(** The loop pops and applies the entries first to last, until the queue
    is empty. *)
Lemma drain_applies (fuel : nat) (a : App) (w : World) :
  (length (update_queue a) < fuel)%nat ->
  drain fuel (a, w) = apply_in_order (update_queue a) (set_update_queue [] a, w).
Proof.
  revert a. induction fuel as [|fuel IH]; intros a Hlt; [lia |].
  simpl. unfold bind at 1. unfold get_nowait, bind at 1, get_self. simpl.
  destruct (update_queue a) as [|u q] eqn:Eq; simpl.
  - destruct a; simpl in *; subst; reflexivity.
  - unfold bind at 1. simpl.
    destruct (apply_update_runs u a w) as (a1 & _ & Q1 & _ & E1).
    assert (Hset : forall q', set_update_queue q' (set_update_queue q a) = set_update_queue q' a)
      by (intros; reflexivity).
    change (match u with
            | UStatus state message =>
                bind (_update_status_ui state message) (fun _ => drain fuel)
            | UTranscription text =>
                bind (_update_transcription_ui text) (fun _ => drain fuel)
            end (set_update_queue q a, w)
            = bind (apply_update u) (fun _ => apply_in_order q) (set_update_queue [] a, w)).
    replace (match u with
             | UStatus state message =>
                 bind (_update_status_ui state message) (fun _ => drain fuel)
             | UTranscription text =>
                 bind (_update_transcription_ui text) (fun _ => drain fuel)
             end)
      with (bind (apply_update u) (fun _ => drain fuel)) by (destruct u; reflexivity).
    unfold bind. rewrite !E1.
    rewrite IH; simpl.
    + reflexivity.
    + simpl in Hlt. lia.
Qed.

(** C3: whatever updates are enqueued, in whatever mix of status and
    transcription entries, one call of [poll_updates] runs the UI handler
    of every queued entry, oldest first, in the order of the [put] calls, and
    leaves the queue empty: the poll is the sequence of the handlers on the
    queue contents followed by the rescheduling of the timer.  For the
    queue [A; B] this is the handler of [A], then the handler of [B]. *)
Theorem poll_applies_in_enqueue_order (us : list update) (s : State) :
  let s1 := exec (enqueue_all us) s in
  let emptied := (set_update_queue [] (fst s1), snd s1) in
  update_queue (fst s1) = update_queue (fst s) ++ us
  /\ poll_updates s1
     = bind (apply_in_order (update_queue (fst s) ++ us))
            (fun _ => when (root (fst s)) (emit AfterPoll)) emptied
  /\ result poll_updates s1 = Normal tt
  /\ update_queue (fst (exec poll_updates s1)) = [].
Proof.
  destruct s as [a w]. simpl.
  destruct (enqueue_all_appends us a w) as (a1 & E1 & Q1 & R1).
  unfold exec. rewrite E1. simpl.
  split; [exact Q1 |].
  assert (Hpoll : poll_updates (a1, w)
                  = bind (apply_in_order (update_queue a ++ us))
                         (fun _ => when (root a) (emit AfterPoll))
                         (set_update_queue [] a1, w)).
  { change (poll_updates (a1, w))
      with (bind (drain (S (length (update_queue a1))))
                 (fun _ => when (root a1) (emit AfterPoll)) (a1, w)).
    unfold bind. rewrite drain_applies by lia.
    rewrite Q1, R1. reflexivity. }
  split; [exact Hpoll |].
  unfold result. rewrite Hpoll. unfold bind.
  destruct (apply_in_order_emptied (update_queue a ++ us) a1 w) as (a2 & E2 & Q2 & R2).
  rewrite E2. destruct (root a); simpl; auto.
Qed.

(** The order is observable: an error followed by ready leaves the ready
    hint on screen, and the two in the other order leave the error. *)
Example poll_order_matters :
  let A := UStatus STATUS_ERROR "boom" in
  let B := UStatus STATUS_READY "" in
  status_label_text (ui (fst (exec poll_updates (exec (enqueue_all [A; B]) started)))) = "Ready"%string
  /\ status_label_text (ui (fst (exec poll_updates (exec (enqueue_all [B; A]) started)))) = "Error"%string.
Proof. vm_compute. auto. Qed.

(** ** Loading the settings *)

Lemma merge_loaded_dict (m : gmap string pyval) (keys : list string) (a : App) (w : World) :
  exists st, merge_loaded (PDict m) keys (a, w) = (Normal tt, (set_settings st a, w))
    /\ forall k, st !! k = if decide (k ∈ keys)
                           then match m !! k with Some v => Some v | None => settings a !! k end
                           else settings a !! k.
Proof.
  revert a. induction keys as [|key rest IH]; intros a.
  - exists (settings a). split; [now destruct a |].
    intros k. case_decide as Hk; [| reflexivity]. now apply not_elem_of_nil in Hk.
  - simpl. unfold bind at 1. simpl.
    destruct (m !! key) as [v|] eqn:Ekey.
    + rewrite bool_decide_eq_true_2 by eauto.
      destruct (IH (set_settings (<[key:=v]> (settings a)) a)) as (st & E & Hst).
      exists st. split; [unfold bind; simpl; exact E |].
      intros k. rewrite Hst. simpl.
      destruct (decide (k = key)) as [->|Hne].
      * rewrite Ekey, lookup_insert_eq.
        rewrite (decide_True (P := key ∈ key :: rest)) by set_solver.
        now case_decide.
      * rewrite lookup_insert_ne by congruence.
        destruct (decide (k ∈ rest));
          [rewrite decide_True by set_solver | rewrite decide_False by set_solver];
          reflexivity.
    + rewrite bool_decide_eq_false_2 by (intros [? ?]; congruence).
      destruct (IH a) as (st & E & Hst).
      exists st. split; [unfold bind; simpl; exact E |].
      intros k. rewrite Hst.
      destruct (decide (k = key)) as [->|Hne].
      * rewrite Ekey.
        rewrite (decide_True (P := key ∈ key :: rest)) by set_solver.
        now case_decide.
      * destruct (decide (k ∈ rest));
          [rewrite decide_True by set_solver | rewrite decide_False by set_solver];
          reflexivity.
Qed.

Lemma load_settings_dict (env : Env) (m : gmap string pyval) (a : App) (w : World) :
  fs w !! script_path SETTINGS_FILE = Some (Json (PDict m)) ->
  open_settings env = None ->
  exists st, load_settings env (a, w) = (Normal tt, (set_settings st a, w))
    /\ forall k, st !! k = if decide (k ∈ DEFAULT_SETTINGS_keys)
                           then match m !! k with Some v => Some v | None => settings a !! k end
                           else settings a !! k.
Proof.
  intros Hfile Hopen.
  destruct (merge_loaded_dict m DEFAULT_SETTINGS_keys a w) as (st & E & Hst).
  exists st. split; [| exact Hst].
  unfold load_settings, try_except, bind at 1, get_world. cbn [fst snd].
  rewrite Hfile. unfold bind at 1. rewrite Hopen. cbn [may_raise ret].
  unfold bind at 1. cbn [json_load lift ret]. rewrite E. reflexivity.
Qed.

(** [__init__] ends with the settings [load_settings] produced from the
    defaults. *)
Lemma init_settings (env : Env) (s : State) :
  settings (fst (exec (init env) s))
  = settings (fst (exec (load_settings env) (new_app, snd s))).
Proof.
  assert (Hc : preserves
                 (fun a => settings a = settings (fst (exec (load_settings env) (new_app, snd s))))
                 (bind check_files_exist (fun ok => modify_self (set_files_ok ok)))).
  { apply preserves_bind; [| intros ok; apply preserves_modify_self; auto].
    unfold check_files_exist. frame; apply preserves_modify_self; auto. }
  unfold init, exec in *. unfold bind at 1. simpl. unfold bind at 1.
  destruct (load_settings env (new_app, snd s)) as [[u|e] s1] eqn:E.
  - exact (Hc s1 eq_refl).
  - reflexivity.
Qed.

Lemma recognized_keys_list (k : string) : k ∈ DEFAULT_SETTINGS_keys <-> k ∈ recognized_keys.
Proof. unfold DEFAULT_SETTINGS_keys, recognized_keys. simpl. set_solver. Qed.

Lemma dom_DEFAULT_SETTINGS : dom DEFAULT_SETTINGS = recognized_keys.
Proof.
  unfold DEFAULT_SETTINGS, recognized_keys. rewrite dom_list_to_map_L. simpl. set_solver.
Qed.

Lemma DEFAULT_SETTINGS_unknown (k : string) : k ∉ recognized_keys -> DEFAULT_SETTINGS !! k = None.
Proof. intros Hk. apply not_elem_of_dom. now rewrite dom_DEFAULT_SETTINGS. Qed.

Lemma DEFAULT_SETTINGS_known (k : string) : k ∈ recognized_keys -> is_Some (DEFAULT_SETTINGS !! k).
Proof. intros Hk. apply elem_of_dom. now rewrite dom_DEFAULT_SETTINGS. Qed.

(** The settings after [__init__] on a world whose settings file is the
    JSON object [m], key by key. *)
Lemma init_settings_lookup (env : Env) (s : State) (m : gmap string pyval) (k : string) :
  fs (snd s) !! script_path SETTINGS_FILE = Some (Json (PDict m)) ->
  open_settings env = None ->
  settings (fst (exec (init env) s)) !! k
  = if decide (k ∈ recognized_keys)
    then match m !! k with Some v => Some v | None => DEFAULT_SETTINGS !! k end
    else None.
Proof.
  intros Hfile Hopen. rewrite init_settings.
  destruct (load_settings_dict env m new_app (snd s) Hfile Hopen) as (st & E & Hst).
  unfold exec. rewrite E. simpl. rewrite Hst. simpl.
  destruct (decide (k ∈ DEFAULT_SETTINGS_keys)) as [Hin|Hout].
  - rewrite decide_True by now apply recognized_keys_list. reflexivity.
  - rewrite decide_False by (now rewrite <- recognized_keys_list).
    apply DEFAULT_SETTINGS_unknown. now rewrite <- recognized_keys_list.
Qed.

(** C4: when the settings file is a JSON object, the settings after
    start-up hold, for each of the five recognized keys, the value of the
    file when the file has the key and the default when it does not, and
    hold no other key; two files that agree on the recognized keys give the
    same settings, so an unrecognized key has no effect. *)
Theorem load_merges_file_with_defaults (env : Env) (s : State) (m : gmap string pyval) :
  fs (snd s) !! script_path SETTINGS_FILE = Some (Json (PDict m)) ->
  open_settings env = None ->
  let st := settings (fst (exec (init env) s)) in
  (forall k, k ∈ recognized_keys ->
     st !! k = match m !! k with Some v => Some v | None => DEFAULT_SETTINGS !! k end)
  /\ (forall k, k ∉ recognized_keys -> st !! k = None)
  /\ (forall (s' : State) (m' : gmap string pyval),
        fs (snd s') !! script_path SETTINGS_FILE = Some (Json (PDict m')) ->
        (forall k, k ∈ recognized_keys -> m' !! k = m !! k) ->
        settings (fst (exec (init env) s')) = st).
Proof.
  intros Hfile Hopen st. subst st. repeat split.
  - intros k Hk. rewrite (init_settings_lookup env s m k Hfile Hopen). now rewrite decide_True.
  - intros k Hk. rewrite (init_settings_lookup env s m k Hfile Hopen). now rewrite decide_False.
  - intros s' m' Hfile' Hagree. apply map_eq. intros k.
    rewrite (init_settings_lookup env s' m' k Hfile' Hopen),
            (init_settings_lookup env s m k Hfile Hopen).
    case_decide as Hk; [| reflexivity]. now rewrite Hagree.
Qed.

Lemma load_merges_file_with_defaults_witness :
  let s := (new_app, world_with_settings partial_file) in
  let st := settings (fst (exec (init calm) s)) in
  st !! "hotkey" = Some (PStr "F9")
  /\ st !! "sound_enabled" = Some (PBool true)
  /\ st !! "theme" = None.
Proof.
  pose proof (load_merges_file_with_defaults calm (new_app, world_with_settings partial_file)
                partial_file) as H.
  destruct H as (Hin & Hout & _); [reflexivity | reflexivity |].
  split; [| split].
  - rewrite Hin by (unfold recognized_keys; set_solver). reflexivity.
  - rewrite Hin by (unfold recognized_keys; set_solver). reflexivity.
  - apply Hout. unfold recognized_keys. set_solver.
Defined.

(** ** Saving and reloading the settings *)

Lemma save_settings_writes (env : Env) (a : App) (w : World) :
  open_settings env = None ->
  save_settings env (a, w)
  = (Normal tt, (a, set_fs (<[script_path SETTINGS_FILE := Json (PDict (settings a))]> (fs w)) w)).
Proof. intros Hopen. unfold save_settings, try_except, bind. rewrite Hopen. reflexivity. Qed.

Lemma save_settings_fails (env : Env) (a : App) (w : World) (e : exn) :
  open_settings env = Some e ->
  fst (snd (save_settings env (a, w))) = a /\ fs (snd (snd (save_settings env (a, w)))) = fs w.
Proof. intros Hopen. unfold save_settings, try_except, bind. rewrite Hopen. split; reflexivity. Qed.

Lemma reload_lookup (env_save env_load : Env) (st : gmap string pyval) (a : App) (w : World)
    (k : string) :
  open_settings env_save = None ->
  open_settings env_load = None ->
  reload env_save env_load st a w !! k
  = if decide (k ∈ recognized_keys)
    then match st !! k with Some v => Some v | None => DEFAULT_SETTINGS !! k end
    else None.
Proof.
  intros Hs Hl. unfold reload, exec at 2. rewrite save_settings_writes by exact Hs.
  apply init_settings_lookup; [| exact Hl]. simpl. apply lookup_insert_eq.
Qed.

(** C7: write the settings [st] with [save_settings] and start the
    application again on the file.  Each recognized key that [st] holds
    comes back with the value it had, so a mapping with exactly the five
    keys comes back whole; saving and reloading what came back gives the
    same mapping again; and [load_settings] on the running application,
    right after the save, leaves its settings as they are.  The file
    operations are those that succeed. *)
Theorem save_load_round_trip (env1 env2 env3 env4 : Env) (st : gmap string pyval)
    (a a' : App) (w w' : World) :
  open_settings env1 = None -> open_settings env2 = None ->
  open_settings env3 = None -> open_settings env4 = None ->
  let once := reload env1 env2 st a w in
  let twice := reload env3 env4 once a' w' in
  (forall k, k ∈ recognized_keys -> is_Some (st !! k) -> once !! k = st !! k)
  /\ (dom st = recognized_keys -> once = st)
  /\ twice = once
  /\ settings (fst (exec (load_settings env2) (exec (save_settings env1) (set_settings st a, w))))
     = st.
Proof.
  intros H1 H2 H3 H4 once twice.
  assert (Honce : forall k, once !! k
            = if decide (k ∈ recognized_keys)
              then match st !! k with Some v => Some v | None => DEFAULT_SETTINGS !! k end
              else None) by (intros k; now apply reload_lookup).
  split; [| split; [| split]].
  - intros k Hk [v Hv]. rewrite Honce, decide_True, Hv by exact Hk. reflexivity.
  - intros Hdom. apply map_eq. intros k. rewrite Honce.
    case_decide as Hk.
    + rewrite <- Hdom in Hk. apply elem_of_dom in Hk as [v Hv]. now rewrite Hv.
    + symmetry. apply not_elem_of_dom. now rewrite Hdom.
  - apply map_eq. intros k. unfold twice. rewrite reload_lookup by assumption.
    case_decide as Hk.
    + rewrite Honce, decide_True by exact Hk.
      destruct (st !! k) as [v|]; [reflexivity |].
      destruct (DEFAULT_SETTINGS_known k Hk) as [d Hd]. now rewrite Hd.
    + rewrite Honce. now rewrite decide_False.
  - unfold exec. rewrite save_settings_writes by exact H1.
    cbn [snd]. change (settings (set_settings st a)) with st.
    destruct (load_settings_dict env2 st (set_settings st a)
                (set_fs (<[script_path SETTINGS_FILE := Json (PDict st)]> (fs w)) w))
      as (st' & E & Hst'); [apply lookup_insert_eq | exact H2 |].
    rewrite E. simpl. apply map_eq. intros k. rewrite Hst'. simpl.
    case_decide; [destruct (st !! k) |]; reflexivity.
Qed.

Lemma save_load_round_trip_witness :
  let st := <["hotkey" := PStr "F9"]> DEFAULT_SETTINGS in
  let once := reload calm calm st new_app installed_world in
  once = st /\ reload calm calm once new_app installed_world = once.
Proof.
  pose proof (save_load_round_trip calm calm calm calm (<["hotkey" := PStr "F9"]> DEFAULT_SETTINGS)
                new_app new_app installed_world installed_world
                eq_refl eq_refl eq_refl eq_refl) as (_ & Hwhole & Hagain & _).
  split; [| exact Hagain].
  apply Hwhole. rewrite dom_insert_L, dom_DEFAULT_SETTINGS. unfold recognized_keys. set_solver.
Defined.

(** ** The hotkey after a change *)

(** What [on_hotkey_changed] does after the assignment keeps the settings. *)
Lemma on_hotkey_changed_settings (env : Env) (choice : string) (s : State) :
  settings (fst (exec (on_hotkey_changed env choice) s))
  = <["hotkey" := PStr choice]> (settings (fst s)).
Proof.
  assert (Hrest : preserves (fun b => settings b = <["hotkey" := PStr choice]> (settings (fst s)))
            (save_settings env ;;
             a <- get_self ;;
             _update_status_ui (current_status a) "" ;;
             restart_keyboard_listener env)).
  { unfold save_settings, _update_status_ui, restart_keyboard_listener,
      stop_keyboard_listener, start_keyboard_listener, update_status.
    frame; apply preserves_modify_self; intros b Hb; exact Hb. }
  exact (Hrest (set_settings (<["hotkey" := PStr choice]> (settings (fst s))) (fst s), snd s)
               eq_refl).
Qed.

Lemma on_hotkey_changed_file (env : Env) (choice : string) (s : State) :
  open_settings env = None ->
  fs (snd (exec (on_hotkey_changed env choice) s)) !! script_path SETTINGS_FILE
  = Some (Json (PDict (<["hotkey" := PStr choice]> (settings (fst s))))).
Proof.
  intros Hopen. destruct s as [a w].
  unfold exec, on_hotkey_changed. unfold bind at 1. cbn [settings_setitem modify_self fst snd].
  unfold bind at 1. rewrite save_settings_writes by exact Hopen.
  cbv [bind get_self fst snd _update_status_ui modify_self restart_keyboard_listener
       stop_keyboard_listener emit modify_world start_keyboard_listener try_except
       update_status].
  destruct (start_stream env), (start_listener env); simpl; apply lookup_insert_eq.
Qed.

(** With F9 stored as the hotkey, the predicate holds of F9 and of no
    other member of [Key]. *)
Lemma is_hotkey_pressed_F9 (s : State) :
  settings (fst s) !! "hotkey" = Some (PStr "F9") ->
  is_hotkey_pressed (Key "f9") s = (Normal true, s)
  /\ is_hotkey_pressed (Key "f8") s = (Normal false, s).
Proof.
  intros H. unfold is_hotkey_pressed, bind, get_self, settings_get. simpl.
  rewrite H. split; reflexivity.
Qed.

(** C8: after [on_hotkey_changed] ran with the choice F9, the key-match
    predicate answers true to an F9 press and false to an F8 press; and when
    the settings file could be written, an application started afresh on
    that file answers the same. *)
Theorem hotkey_F9_after_change (env env' : Env) (s : State) :
  let s1 := exec (on_hotkey_changed env "F9") s in
  result (is_hotkey_pressed (Key "f9")) s1 = Normal true
  /\ result (is_hotkey_pressed (Key "f8")) s1 = Normal false
  /\ (open_settings env = None -> open_settings env' = None ->
      let s2 := startup env' (snd s1) in
      result (is_hotkey_pressed (Key "f9")) s2 = Normal true
      /\ result (is_hotkey_pressed (Key "f8")) s2 = Normal false).
Proof.
  intros s1.
  assert (H1 : settings (fst s1) !! "hotkey" = Some (PStr "F9")).
  { unfold s1. rewrite on_hotkey_changed_settings. apply lookup_insert_eq. }
  destruct (is_hotkey_pressed_F9 s1 H1) as [E9 E8].
  unfold result. rewrite E9, E8. split; [reflexivity | split; [reflexivity |]].
  intros Hopen Hopen'. set (s2 := startup env' (snd s1)).
  assert (H2 : settings (fst s2) !! "hotkey" = Some (PStr "F9")).
  { assert (Hrun : forall st, preserves (fun b => settings b = st) (run env'))
      by (intros st; apply run_keeps; intros ? ? Hs _ _ Hb; congruence).
    unfold s2, startup, exec. unfold bind.
    pose proof (init_settings_lookup env' (new_app, snd s1) _ "hotkey"
                  (on_hotkey_changed_file env "F9" s Hopen) Hopen') as Hinit.
    unfold exec in Hinit.
    rewrite decide_True, lookup_insert_eq in Hinit by (unfold recognized_keys; set_solver).
    destruct (init env' (new_app, snd s1)) as [[u|e] s0] eqn:Einit; cbn [fst snd] in *.
    - now rewrite (Hrun (settings (fst s0)) s0 eq_refl).
    - exact Hinit. }
  destruct (is_hotkey_pressed_F9 s2 H2) as [F9 F8]. rewrite F9, F8. split; reflexivity.
Qed.

Lemma hotkey_F9_after_change_witness :
  let s1 := exec (on_hotkey_changed calm "F9") started in
  let s2 := startup calm (snd s1) in
  result (is_hotkey_pressed (Key "f9")) s2 = Normal true
  /\ result (is_hotkey_pressed (Key "f8")) s2 = Normal false.
Proof.
  exact (proj2 (proj2 (hotkey_F9_after_change calm calm started)) eq_refl eq_refl).
Defined.

(** The listener follows the predicate: after the change, F9 arms the
    recording and F8 does not. *)
Example listener_follows_F9 :
  let s1 := exec (on_hotkey_changed calm "F9") started in
  is_recording (fst (exec (on_key_press (Key "f9")) s1)) = true
  /\ is_recording (fst (exec (on_key_press (Key "f8")) s1)) = false.
Proof. vm_compute. auto. Qed.

(** ** The keys of the settings mapping *)

Lemma five_keys_reads (a b : App) :
  settings a = settings b -> is_recording a = is_recording b -> files_ok a = files_ok b ->
  five_keys a -> five_keys b.
Proof. unfold five_keys. intros -> _ _ H. exact H. Qed.

Lemma five_keys_setitem (key : string) (v : pyval) :
  In key DEFAULT_SETTINGS_keys -> preserves five_keys (settings_setitem key v).
Proof.
  intros Hkey. apply preserves_modify_self. unfold five_keys. intros a Ha. simpl.
  rewrite dom_insert_L, Ha.
  assert (key ∈ recognized_keys) by (apply recognized_keys_list, list_elem_of_In, Hkey).
  set_solver.
Qed.

Lemma five_keys_start_recording : preserves five_keys start_recording.
Proof.
  unfold start_recording, update_status.
  frame; apply preserves_modify_self; intros a Ha; exact Ha.
Qed.

Lemma five_keys_startup (env : Env) (w : World) : five_keys (fst (startup env w)).
Proof.
  unfold startup, init.
  assert (H : preserves five_keys
                (bind (load_settings env)
                   (fun _ => bind (bind check_files_exist (fun ok => modify_self (set_files_ok ok)))
                               (fun _ => run env)))).
  { apply preserves_bind; [apply load_settings_keeps, five_keys_setitem | intros _].
    apply preserves_bind; [| intros _; apply run_keeps, five_keys_reads].
    apply preserves_bind; [apply check_files_exist_keeps, five_keys_reads | intros ok].
    apply preserves_modify_self. intros a Ha. exact Ha. }
  specialize (H (new_app, w) dom_DEFAULT_SETTINGS).
  unfold exec, bind in *. simpl in *.
  destruct (load_settings env (new_app, w)) as [[u|e] s1]; [| exact H].
  destruct (check_files_exist s1) as [[ok|e] s2]; exact H.
Qed.

(** C10: from start-up on and after any sequence of callbacks, with any
    outcomes of the outside calls, the settings mapping has exactly the five
    recognized keys; so what a successful [save_settings] writes is a JSON
    object with exactly these keys, and a failed one writes nothing. *)
Theorem settings_hold_the_five_keys (env : Env) (w : World) (cs : list (Env * event)) :
  let s := run_events cs (startup env w) in
  dom (settings (fst s)) = recognized_keys
  /\ forall env',
       let w' := snd (exec (save_settings env') s) in
       match open_settings env' with
       | None => exists m, fs w' !! script_path SETTINGS_FILE = Some (Json (PDict m))
                           /\ dom m = recognized_keys
       | Some _ => fs w' = fs (snd s)
       end.
Proof.
  intros s.
  assert (H : five_keys (fst s)).
  { apply run_events_keeps;
      [ exact five_keys_reads | exact five_keys_setitem | exact five_keys_start_recording
      | intros a Ha; exact Ha | apply five_keys_startup ]. }
  split; [exact H |].
  intros env'. destruct s as [a w0]. unfold exec.
  destruct (open_settings env') as [e|] eqn:Hopen; cbn zeta.
  - apply (save_settings_fails env' a w0 e Hopen).
  - rewrite save_settings_writes by exact Hopen. simpl.
    exists (settings a). split; [apply lookup_insert_eq | exact H].
Qed.

(** A run that loads a file with an unknown key, changes two settings and
    saves: the file then holds the five keys and not the unknown one. *)
Example unknown_key_is_not_persisted :
  let s := run_events [(calm, HotkeyChosen "F9"); (calm, SoundSwitched false)]
             (startup calm (world_with_settings partial_file)) in
  match fs (snd s) !! script_path SETTINGS_FILE with
  | Some (Json (PDict m)) =>
      m !! "theme" = None /\ m !! "hotkey" = Some (PStr "F9")
      /\ m !! "sound_enabled" = Some (PBool false)
  | _ => False
  end.
Proof. vm_compute. auto. Qed.

(** ** Recording without the required files *)

Lemma start_recording_refused (s : State) :
  files_ok (fst s) = false -> start_recording s = (Normal tt, s).
Proof.
  intros H. destruct s as [a w]. unfold start_recording, bind, get_self. simpl in *.
  now rewrite H.
Qed.

(** The predicate only reads. *)
Lemma is_hotkey_pressed_pure (k : key) (s : State) : snd (is_hotkey_pressed k s) = s.
Proof.
  destruct s as [a w]. unfold is_hotkey_pressed, bind, get_self. simpl.
  destruct (settings_get a "hotkey" (PStr "F8")); try reflexivity.
  repeat match goal with |- context [if ?b then _ else _] => destruct b end; reflexivity.
Qed.

(** What [on_key_press] does once the modifier flags are updated. *)
Lemma trigger_disarmed (k : key) (a : App) (w : World) :
  disarmed a ->
  snd (bind (is_hotkey_pressed k)
         (fun pressed : bool =>
            if pressed
            then bind get_self
                   (fun a => if negb (is_recording a) then start_recording else stop_recording)
            else ret tt) (a, w)) = (a, w).
Proof.
  intros [Hfiles Hrec]. unfold bind at 1.
  pose proof (is_hotkey_pressed_pure k (a, w)) as Hpure.
  destruct (is_hotkey_pressed k (a, w)) as [[pressed|e] s1]; simpl in Hpure; subst s1;
    [| reflexivity].
  destruct pressed; [| reflexivity].
  unfold bind, get_self. simpl. rewrite Hrec. simpl.
  now rewrite start_recording_refused.
Qed.

Lemma on_key_press_disarmed (k : key) (s : State) :
  disarmed (fst s) ->
  let s' := exec (on_key_press k) s in
  disarmed (fst s') /\ audio_data (fst s') = audio_data (fst s)
  /\ update_queue (fst s') = update_queue (fst s)
  /\ current_status (fst s') = current_status (fst s) /\ snd s' = snd s.
Proof.
  destruct s as [a w]. cbn [fst snd]. intros Hd.
  assert (E : exists a', exec (on_key_press k) (a, w) = (a', w)
                /\ disarmed a' /\ audio_data a' = audio_data a
                /\ update_queue a' = update_queue a
                /\ current_status a' = current_status a).
  { unfold exec, on_key_press. unfold bind at 1.
    destruct (is_Key k "ctrl_l" || is_Key k "ctrl_r");
      [| destruct (is_Key k "shift_l" || is_Key k "shift_r" || is_Key k "shift");
         [| destruct (is_Key k "alt_l" || is_Key k "alt_r" || is_Key k "alt_gr")]];
      cbn [modify_self ret fst snd]; rewrite trigger_disarmed by exact Hd;
      eexists; (split; [reflexivity |]); repeat split; apply Hd. }
  destruct E as (a' & -> & Hd' & Ha & Hq & Hc). cbn [fst snd]. auto.
Qed.

Lemma disarmed_reads (a b : App) :
  settings a = settings b -> is_recording a = is_recording b -> files_ok a = files_ok b ->
  disarmed a -> disarmed b.
Proof. unfold disarmed. intros _ <- <- H. exact H. Qed.

Lemma disarmed_run_events (cs : list (Env * event)) (s : State) :
  disarmed (fst s) -> disarmed (fst (run_events cs s)).
Proof.
  apply run_events_keeps.
  - exact disarmed_reads.
  - intros key v _. apply preserves_modify_self. intros a Ha. exact Ha.
  - intros s0 [Hf Hr]. rewrite start_recording_refused by exact Hf. now split.
  - intros a [Hf _]. now split.
Qed.

(** C9: with [files_ok] false, [start_recording] returns at once and
    changes nothing, neither the application object nor the world.  So from
    a state that is not recording, the tray entry changes nothing, a key
    press (the hotkey or any other key) leaves the recording flag clear,
    the buffer and the queue as they were and the world untouched, and no
    sequence of callbacks ever sets the recording flag. *)
Theorem start_recording_refused_without_files (s : State) :
  files_ok (fst s) = false ->
  start_recording s = (Normal tt, s)
  /\ (is_recording (fst s) = false ->
      exec toggle_recording s = s
      /\ (forall k, let s' := exec (on_key_press k) s in
                    is_recording (fst s') = false
                    /\ audio_data (fst s') = audio_data (fst s)
                    /\ update_queue (fst s') = update_queue (fst s)
                    /\ snd s' = snd s)
      /\ (forall cs, is_recording (fst (run_events cs s)) = false
                     /\ files_ok (fst (run_events cs s)) = false)).
Proof.
  intros Hfiles. split; [now apply start_recording_refused |].
  intros Hrec. assert (Hd : disarmed (fst s)) by now split.
  split; [| split].
  - destruct s as [a w]. unfold exec, toggle_recording, bind, get_self. simpl in *.
    rewrite Hrec. now rewrite start_recording_refused.
  - intros k. destruct (on_key_press_disarmed k s Hd) as ([_ Hr] & Ha & Hq & _ & Hw). auto.
  - intros cs. destruct (disarmed_run_events cs s Hd) as [Hf Hr]. auto.
Qed.

Lemma merge_loaded_world (loaded : pyval) (keys : list string) (s : State) :
  snd (snd (merge_loaded loaded keys s)) = snd s.
Proof.
  revert s. induction keys as [|key rest IH]; intros [a w]; [reflexivity |].
  simpl. unfold bind at 1.
  destruct (py_contains loaded key) as [present|e]; [| reflexivity]. simpl.
  unfold bind at 1. destruct present.
  - unfold bind at 1. destruct (py_getitem loaded key) as [v|e]; [| reflexivity]. simpl.
    apply IH.
  - simpl. apply IH.
Qed.

Lemma load_settings_fs (env : Env) (s : State) :
  fs (snd (snd (load_settings env s))) = fs (snd s).
Proof.
  destruct s as [a w]. unfold load_settings, try_except. unfold bind at 1.
  cbn [get_world fst snd].
  destruct (fs w !! script_path SETTINGS_FILE) as [content|]; [| reflexivity].
  unfold bind at 1. destruct (open_settings env); [reflexivity |]. cbn [may_raise ret].
  unfold bind at 1. destruct (json_load content) as [loaded|e]; [| reflexivity].
  cbn [lift ret].
  pose proof (merge_loaded_world loaded DEFAULT_SETTINGS_keys (a, w)) as Hw.
  destruct (merge_loaded loaded DEFAULT_SETTINGS_keys (a, w)) as [[u|e] [a1 w1]];
    simpl in *; now subst.
Qed.

(** When the recognizer or the model is missing at start-up, the
    application starts disarmed, and stays so. *)
Lemma startup_without_files (env : Env) (w : World) (cs : list (Env * event)) :
  fs w !! script_path WHISPER_EXE = None \/ fs w !! script_path MODEL_PATH = None ->
  disarmed (fst (startup env w)) /\ disarmed (fst (run_events cs (startup env w))).
Proof.
  intros Hmissing.
  assert (Hstart : disarmed (fst (startup env w))).
  { unfold startup, exec, init. unfold bind at 1 2. cbn [modify_self fst snd].
    unfold bind at 1.
    pose proof (load_settings_fs env (new_app, w)) as Hfs.
    pose proof (load_settings_keeps disarmed) as Hrec.
    specialize (Hrec (fun key v _ => preserves_modify_self _ _ (fun a Ha => Ha)) env
                  (new_app, w) (conj eq_refl eq_refl)).
    destruct (load_settings env (new_app, w)) as [[u|e] [a1 w1]]; simpl in Hfs, Hrec.
    - assert (Hcheck : exists msg, check_files_exist (a1, w1)
                                   = (Normal false, (set_error_message msg a1, w1))).
      { unfold check_files_exist, bind, get_world, path_exists. simpl. rewrite Hfs.
        destruct Hmissing as [H|H]; rewrite H.
        - rewrite bool_decide_eq_false_2 by (intros [? ?]; discriminate). simpl.
          destruct (negb _); eexists; reflexivity.
        - rewrite (bool_decide_eq_false_2 (is_Some None)) by (intros [? ?]; discriminate).
          destruct (negb _); eexists; reflexivity. }
      destruct Hcheck as [msg Hcheck].
      unfold bind at 1. rewrite Hcheck. cbn [modify_self fst snd].
      apply (run_keeps disarmed disarmed_reads env). split; [reflexivity | apply Hrec].
    - exact Hrec. }
  split; [exact Hstart | now apply disarmed_run_events].
Qed.

Lemma start_recording_refused_without_files_witness :
  let s := startup calm world_without_model in
  files_ok (fst s) = false
  /\ is_recording (fst (exec (on_key_press (Key "f8")) s)) = false
  /\ exec toggle_recording s = s.
Proof.
  split; [reflexivity |].
  destruct (start_recording_refused_without_files (startup calm world_without_model) eq_refl)
    as [_ H].
  destruct (H eq_refl) as (Ht & Hk & _).
  split; [apply (Hk (Key "f8")) | exact Ht].
Defined.

(** ** Transcription and its cleanup *)

(** Past its two guards, [process_recording] is its [try] statement run
    from the transcribing state, followed by the return to ready. *)
Lemma process_recording_long (env : Env) (s : State) :
  reaches_transcription (fst s) ->
  process_recording env s
  = bind (try_finally
            (guarded_transcription env (fst s) (mktemp env) (concat (audio_data (fst s))))
            (remove_temp env (mktemp env)))
         (fun left =>
            match left with
            | Return => ret tt
            | FallThrough =>
                bind (update_status STATUS_READY "")
                     (fun _ => when (ghost_indicator (fst s)) (emit AfterHide))
            end)
         (transcribing_state s).
Proof.
  destruct s as [a w]. cbn [fst snd]. intros [Hne Hdur].
  assert (G1 : (length (audio_data a) =? 0)%nat = false)
    by (destruct (audio_data a); [congruence | reflexivity]).
  assert (G2 : too_short (concat (audio_data a)) = false).
  { apply not_true_is_false. intros Hshort. apply too_short_duration in Hshort.
    exact (Qlt_not_le _ _ Hshort Hdur). }
  unfold process_recording. unfold bind at 1. cbn [get_self fst snd].
  rewrite G1, G2. unfold bind at 1 2.
  unfold transcribing_state. cbn [fst snd].
  destruct (ghost_indicator a); cbn [update_status when]; unfold bind at 1;
    cbn [modify_self emit modify_world ret fst snd]; rewrite ?app_nil_r.
  - reflexivity.
  - now destruct w.
Qed.

(** The [except] clause never raises, so the guarded block always ends
    normally. *)
Lemma guarded_transcription_ends (env : Env) (a : App) (temp_wav : string)
    (recording : list sample) (s : State) :
  exists left s1, guarded_transcription env a temp_wav recording s = (Normal left, s1).
Proof.
  unfold guarded_transcription, try_except.
  match goal with |- context [match ?body s with _ => _ end] => destruct (body s) as [[f|e] s1] end.
  - eauto.
  - unfold bind, update_status, modify_self. simpl. destruct (ghost_indicator a); simpl; eauto.
Qed.

(** The [finally] clause either ends with the file gone, changing
    nothing else, or raises what [os.remove] raised. *)
Lemma remove_temp_runs (env : Env) (temp_wav : string) (a : App) (w : World) :
  match remove_temp env temp_wav (a, w) with
  | (Normal _, (a', w')) =>
      a' = a /\ fs w' !! temp_wav = None /\ log w' = log w /\ clipboard w' = clipboard w
  | (Raised e, s') => os_remove env = Some e /\ s' = (a, w)
  end.
Proof.
  unfold remove_temp, bind, get_world, path_exists. simpl.
  destruct (bool_decide (is_Some (fs w !! temp_wav))) eqn:Hex; simpl.
  - unfold remove_file, bind. destruct (os_remove env); simpl; [auto |].
    repeat split. apply lookup_delete_eq.
  - repeat split. apply bool_decide_eq_false in Hex.
    destruct (fs w !! temp_wav) eqn:E; [exfalso; apply Hex; eauto | reflexivity].
Qed.

(** What follows the [try] statement leaves the files alone. *)
Lemma back_to_ready_fs (g : bool) (left : flow) (s : State) :
  let k := match left with
           | Return => ret tt
           | FallThrough => bind (update_status STATUS_READY "") (fun _ => when g (emit AfterHide))
           end in
  fst (k s) = Normal tt /\ fs (snd (snd (k s))) = fs (snd s).
Proof. destruct left, g; split; reflexivity. Qed.

(** C5: whenever [process_recording] gets to write the temporary wave
    file, the file named by [mktemp] does not exist once the call has
    returned, whatever happened to the write, to the recognizer and to the
    paste; and the call does return when [os.remove] does not raise. *)
Theorem temp_file_is_removed (env : Env) (s : State) :
  reaches_transcription (fst s) ->
  let s' := exec (process_recording env) s in
  (result (process_recording env) s = Normal tt -> fs (snd s') !! mktemp env = None)
  /\ (os_remove env = None ->
      result (process_recording env) s = Normal tt /\ fs (snd s') !! mktemp env = None).
Proof.
  intros Hreach. unfold exec, result. rewrite process_recording_long by exact Hreach.
  unfold bind, try_finally.
  destruct (guarded_transcription_ends env (fst s) (mktemp env)
              (concat (audio_data (fst s))) (transcribing_state s)) as (left & [a1 w1] & ->).
  pose proof (remove_temp_runs env (mktemp env) a1 w1) as Hfin.
  destruct (remove_temp env (mktemp env) (a1, w1)) as [[u|e] [a2 w2]].
  - destruct Hfin as (_ & Hgone & _). cbv beta iota.
    destruct (back_to_ready_fs (ghost_indicator (fst s)) left (a2, w2)) as [Hn Hfs].
    cbv zeta in Hn, Hfs. unfold bind in Hn, Hfs. rewrite Hfs, Hn.
    split; [intros _; exact Hgone | intros _; split; [reflexivity | exact Hgone]].
  - destruct Hfin as [Hrm _]. cbv beta iota. cbn [fst snd].
    split; [discriminate | intros Hok; congruence].
Qed.

Lemma temp_file_is_removed_witness :
  let s := with_audio half_second started in
  reaches_transcription (fst s)
  /\ result (process_recording calm) s = Normal tt
  /\ fs (snd (exec (process_recording calm) s)) !! mktemp calm = None.
Proof.
  assert (Hreach : reaches_transcription (fst (with_audio half_second started)))
    by (split; [discriminate | vm_compute; discriminate]).
  split; [exact Hreach |].
  exact (proj2 (temp_file_is_removed calm (with_audio half_second started) Hreach) eq_refl).
Defined.

(** ** A recognizer run that yields no text *)

Lemma lstrip_blank (t : string) : PyStr.all_chars PyStr.is_space_char t = true -> PyStr.lstrip t = "".
Proof.
  induction t as [|c t IH]; simpl; [reflexivity |].
  intros H. apply andb_true_iff in H as [-> Ht]. now apply IH.
Qed.

(** Empty or whitespace-only output strips to the empty string. *)
Lemma strip_blank (t : string) : t = "" \/ PyStr.isspace t = true -> PyStr.strip t = "".
Proof.
  intros [-> | H]; [reflexivity |].
  unfold PyStr.isspace in H. apply andb_true_iff in H as [_ H].
  unfold PyStr.strip. now rewrite lstrip_blank.
Qed.

(** With the wave file written and a recognizer that fails or prints
    nothing, the guarded block only writes the file and calls the
    recognizer. *)
Lemma guarded_without_text (env : Env) (a : App) (temp_wav : string) (recording : list sample)
    (s : State) (returncode : Z) (stdout : string) :
  wav_write env = WavWritten ->
  subprocess_run env = Normal (returncode, stdout) ->
  returncode <> 0%Z \/ PyStr.strip stdout = "" ->
  guarded_transcription env a temp_wav recording s
  = (Normal FallThrough,
     (fst s, set_log (log (snd s) ++ [recognizer_call temp_wav])
               (set_fs (<[temp_wav := Wav SAMPLE_RATE recording]> (fs (snd s))) (snd s)))).
Proof.
  intros Hwav Hrun Hnone. destruct s as [a0 w0].
  unfold guarded_transcription, try_except, wav_write_file, transcribe, recognizer_call.
  rewrite Hwav.
  cbv [bind try_except modify_world emit lift ret fst snd]. rewrite Hrun.
  destruct (returncode =? 0)%Z eqn:Hrc; cbn [negb].
  - destruct Hnone as [Hnz | ->]; [apply Z.eqb_eq in Hrc; contradiction | reflexivity].
  - reflexivity.
Qed.

(** The whole call in that case: nothing is copied, nothing is typed, the
    clipboard keeps its contents, no error status is raised; and when the
    temporary file can be deleted the call ends with the status back to
    ready, having enqueued transcribing and then ready. *)
Lemma process_recording_without_text (env : Env) (s : State) (returncode : Z) (stdout : string) :
  reaches_transcription (fst s) ->
  wav_write env = WavWritten ->
  subprocess_run env = Normal (returncode, stdout) ->
  returncode <> 0%Z \/ PyStr.strip stdout = "" ->
  let s' := exec (process_recording env) s in
  calls is_clipboard_copy (snd s') = calls is_clipboard_copy (snd s)
  /\ calls is_keystroke (snd s') = calls is_keystroke (snd s)
  /\ calls is_recognizer_call (snd s')
     = calls is_recognizer_call (snd s) ++ [recognizer_call (mktemp env)]
  /\ clipboard (snd s') = clipboard (snd s)
  /\ current_status (fst s') <> STATUS_ERROR
  /\ (forall message, UStatus STATUS_ERROR message ∈ update_queue (fst s') ->
        UStatus STATUS_ERROR message ∈ update_queue (fst s))
  /\ (os_remove env = None ->
      result (process_recording env) s = Normal tt
      /\ current_status (fst s') = STATUS_READY
      /\ update_queue (fst s')
         = update_queue (fst s) ++ [UStatus STATUS_TRANSCRIBING ""; UStatus STATUS_READY ""]).
Proof.
  intros Hreach Hwav Hrun Hnone. unfold exec, result.
  rewrite process_recording_long by exact Hreach.
  unfold bind, try_finally.
  rewrite (guarded_without_text env _ _ _ _ returncode stdout Hwav Hrun Hnone).
  destruct s as [a w]. unfold transcribing_state. cbn [fst snd].
  unfold remove_temp, bind, get_world, path_exists. cbn [fst snd set_log set_fs fs].
  rewrite lookup_insert_eq.
  rewrite bool_decide_eq_true_2 by eauto. cbn [when].
  unfold remove_file, bind, calls.
  destruct (os_remove env) as [e|]; destruct (ghost_indicator a);
    cbn; rewrite ?filter_app, ?app_nil_r; cbn; rewrite ?app_nil_r;
    (repeat split; try reflexivity; try discriminate;
     try (intros message Hin; set_solver); try (now rewrite <- app_assoc)).
Qed.

(** C6: when the wave file was written and the recognizer exits with
    code 0 and prints nothing, or only whitespace, [process_recording] puts
    nothing on the clipboard and presses no key, and, the temporary file
    being deleted without error, it returns with the status set back to
    ready, through the queue. *)
Theorem blank_output_pastes_nothing (env : Env) (s : State) (stdout : string) :
  reaches_transcription (fst s) ->
  wav_write env = WavWritten ->
  subprocess_run env = Normal (0%Z, stdout) ->
  stdout = "" \/ PyStr.isspace stdout = true ->
  let s' := exec (process_recording env) s in
  calls is_clipboard_copy (snd s') = calls is_clipboard_copy (snd s)
  /\ calls is_keystroke (snd s') = calls is_keystroke (snd s)
  /\ clipboard (snd s') = clipboard (snd s)
  /\ (os_remove env = None ->
      result (process_recording env) s = Normal tt
      /\ current_status (fst s') = STATUS_READY
      /\ update_queue (fst s')
         = update_queue (fst s) ++ [UStatus STATUS_TRANSCRIBING ""; UStatus STATUS_READY ""]).
Proof.
  intros Hreach Hwav Hrun Hblank.
  destruct (process_recording_without_text env s 0%Z stdout Hreach Hwav Hrun
              (or_intror (strip_blank stdout Hblank)))
    as (Hcopy & Hkeys & _ & Hclip & _ & _ & Hready).
  auto.
Qed.

Lemma half_second_reaches : reaches_transcription (fst (with_audio half_second started)).
Proof. split; [discriminate | vm_compute; discriminate]. Qed.

Lemma blank_output_pastes_nothing_witness :
  let s := with_audio half_second started in
  let s' := exec (process_recording blank_recognizer) s in
  calls is_clipboard_copy (snd s') = calls is_clipboard_copy (snd s)
  /\ calls is_keystroke (snd s') = calls is_keystroke (snd s)
  /\ current_status (fst s') = STATUS_READY.
Proof.
  destruct (blank_output_pastes_nothing blank_recognizer (with_audio half_second started) "  "
              half_second_reaches eq_refl eq_refl (or_intror eq_refl))
    as (Hcopy & Hkeys & _ & Hready).
  destruct (Hready eq_refl) as (_ & Hstatus & _).
  exact (conj Hcopy (conj Hkeys Hstatus)).
Defined.

(** [type_text] itself does nothing on empty or whitespace-only text. *)
Lemma type_text_blank (env : Env) (text : string) (s : State) :
  text = "" \/ PyStr.isspace text = true -> type_text env text s = (Normal tt, s).
Proof. intros [-> | H]; unfold type_text; [| rewrite H, orb_true_r]; reflexivity. Qed.

(** C1, as the specification states it, fails: with a recognizer that exits
    with code 1, half a second of audio and every other outside call
    succeeding, [process_recording] ends with the status ready, not error,
    and there is no error entry in the update queue. *)
Lemma nonzero_exit_is_not_reported_as_error :
  let s' := exec (process_recording failing_recognizer) (with_audio half_second started) in
  subprocess_run failing_recognizer = Normal (1%Z, "")
  /\ current_status (fst s') = STATUS_READY
  /\ current_status (fst s') <> STATUS_ERROR
  /\ update_queue (fst s') = [UStatus STATUS_TRANSCRIBING ""; UStatus STATUS_READY ""]
  /\ ~ (exists message, UStatus STATUS_ERROR message ∈ update_queue (fst s')).
Proof.
  assert (Hq : update_queue
                 (fst (exec (process_recording failing_recognizer)
                         (with_audio half_second started)))
               = [UStatus STATUS_TRANSCRIBING ""; UStatus STATUS_READY ""])
    by (vm_compute; reflexivity).
  cbv zeta. rewrite Hq.
  split; [reflexivity |]. split; [vm_compute; reflexivity |].
  split; [vm_compute; discriminate |]. split; [reflexivity |].
  intros [message Hin]. set_solver.
Qed.

(** [transcribe] never raises and only calls the recognizer: a failure of
    the call is printed and gives [None], as a non-zero exit code does. *)
Lemma transcribe_runs (env : Env) (audio_file : string) (a : App) (w : World) :
  transcribe env audio_file (a, w)
  = match subprocess_run env with
    | Normal (returncode, stdout) =>
        (Normal (if (returncode =? 0)%Z then Some (PyStr.strip stdout) else None),
         (a, set_log (log w ++ [recognizer_call audio_file]) w))
    | Raised e =>
        (Normal None,
         (a, set_log (log w ++ [recognizer_call audio_file;
                                Print ("Transcription error: " ++ str_of_exn e)%string]) w))
    end.
Proof.
  unfold transcribe, recognizer_call, try_except.
  destruct (subprocess_run env) as [[returncode stdout] | e];
    cbv [bind modify_world emit lift ret raise fst snd set_log log fs clipboard].
  - now destruct (returncode =? 0)%Z.
  - now rewrite <- app_assoc.
Qed.

(** C1, amended: when the wave file was written and the recognizer exits
    with a non-zero code, whatever it printed, [transcribe] returns [None];
    [process_recording] then puts nothing on the clipboard and presses no
    key, and it reports no error: the status does not become error and no
    error entry is enqueued; the temporary file being deleted without error,
    it returns with the status set back to ready. *)
Theorem nonzero_exit_pastes_nothing (env : Env) (s : State) (returncode : Z) (stdout : string) :
  reaches_transcription (fst s) ->
  wav_write env = WavWritten ->
  subprocess_run env = Normal (returncode, stdout) ->
  returncode <> 0%Z ->
  let s' := exec (process_recording env) s in
  (forall audio_file s0, result (transcribe env audio_file) s0 = Normal None)
  /\ calls is_clipboard_copy (snd s') = calls is_clipboard_copy (snd s)
  /\ calls is_keystroke (snd s') = calls is_keystroke (snd s)
  /\ clipboard (snd s') = clipboard (snd s)
  /\ current_status (fst s') <> STATUS_ERROR
  /\ (forall message, UStatus STATUS_ERROR message ∈ update_queue (fst s') ->
        UStatus STATUS_ERROR message ∈ update_queue (fst s))
  /\ (os_remove env = None ->
      result (process_recording env) s = Normal tt
      /\ current_status (fst s') = STATUS_READY
      /\ update_queue (fst s')
         = update_queue (fst s) ++ [UStatus STATUS_TRANSCRIBING ""; UStatus STATUS_READY ""]).
Proof.
  intros Hreach Hwav Hrun Hrc.
  destruct (process_recording_without_text env s returncode stdout Hreach Hwav Hrun
              (or_introl Hrc))
    as (Hcopy & Hkeys & _ & Hclip & Hstatus & Hqueue & Hready).
  split; [| auto 10].
  intros audio_file [a0 w0]. unfold result. rewrite transcribe_runs, Hrun.
  apply Z.eqb_neq in Hrc. now rewrite Hrc.
Qed.

(** The recognizer of the witness prints a text and exits with code 1: only
    the exit code keeps the text from being pasted. *)
Lemma nonzero_exit_pastes_nothing_witness :
  let s := with_audio half_second started in
  let s' := exec (process_recording talking_failing_recognizer) s in
  subprocess_run talking_failing_recognizer = Normal (1%Z, "hello"%string)
  /\ result (transcribe talking_failing_recognizer "rec.wav") s = Normal None
  /\ calls is_clipboard_copy (snd s') = calls is_clipboard_copy (snd s)
  /\ calls is_keystroke (snd s') = calls is_keystroke (snd s)
  /\ current_status (fst s') = STATUS_READY.
Proof.
  destruct (nonzero_exit_pastes_nothing talking_failing_recognizer
              (with_audio half_second started)
              1%Z "hello" half_second_reaches eq_refl eq_refl ltac:(discriminate))
    as (Hnone & Hcopy & Hkeys & _ & _ & _ & Hready).
  destruct (Hready eq_refl) as (_ & Hstatus & _).
  split; [reflexivity |].
  exact (conj (Hnone "rec.wav"%string _) (conj Hcopy (conj Hkeys Hstatus))).
Defined.

(** * Further properties *)

(** ** Loading from a file that is no settings object *)

Lemma merge_loaded_not_dict (loaded : pyval) (keys : list string) (s : State) :
  (forall m, loaded <> PDict m) -> snd (merge_loaded loaded keys s) = s.
Proof.
  intros Hnd. induction keys as [|key rest IH]; [reflexivity |].
  simpl. unfold bind at 1.
  destruct loaded as [| b | z | q | t | l | m]; try reflexivity.
  - simpl. unfold bind at 1. destruct (PyStr.contains t key); [reflexivity | exact IH].
  - simpl. unfold bind at 1.
    destruct (existsb _ l); [reflexivity | exact IH].
  - now destruct (Hnd m).
Qed.

Lemma load_settings_never_raises (env : Env) (s : State) :
  result (load_settings env) s = Normal tt.
Proof.
  unfold result, load_settings, try_except.
  match goal with |- context [match ?body s with _ => _ end] => destruct (body s) as [[[]|e] s1] end;
    reflexivity.
Qed.

(** Without a settings object to merge, [load_settings] at most prints. *)
Lemma load_settings_without_object (env : Env) (a : App) (w : World) :
  settings_object env w = None ->
  exists l, load_settings env (a, w) = (Normal tt, (a, set_log l w))
            /\ (fs w !! script_path SETTINGS_FILE = None -> l = log w).
Proof.
  destruct w as [files clip l0]. unfold settings_object, load_settings, try_except.
  unfold bind at 1. cbn [get_world fst snd fs].
  destruct (files !! script_path SETTINGS_FILE) as [content|];
    [| intros _; eexists; split; reflexivity].
  unfold bind at 1. destruct (open_settings env) as [e|];
    [intros _; eexists; split; [reflexivity | discriminate] |].
  cbn [may_raise ret]. unfold bind at 1.
  destruct content as [v | rate data |]; cbn [json_load lift ret raise];
    try (intros _; eexists; split; [reflexivity | discriminate]).
  destruct v as [| b | z | q | t | l | m]; try discriminate; intros _;
    match goal with
    | |- context [merge_loaded ?v ?ks ?st] =>
        pose proof (merge_loaded_not_dict v ks st ltac:(discriminate)) as Hm;
        destruct (merge_loaded v ks st) as [[[]|e] s1]; cbn [snd] in Hm; subst s1
    end; eexists; (split; [reflexivity | discriminate]).
Qed.

(** X1: [load_settings] never raises.  When there is no settings object to
    merge (the file is missing, cannot be opened, is not JSON, or holds a
    JSON value that is not an object) the application keeps the settings
    it had and the files stay as they are; with the file missing nothing at
    all happens, not even a message. *)
Theorem load_settings_tolerates_bad_files (env : Env) (s : State) :
  let s' := exec (load_settings env) s in
  result (load_settings env) s = Normal tt
  /\ (settings_object env (snd s) = None ->
      fst s' = fst s /\ fs (snd s') = fs (snd s) /\ clipboard (snd s') = clipboard (snd s))
  /\ (fs (snd s) !! script_path SETTINGS_FILE = None -> s' = s).
Proof.
  split; [apply load_settings_never_raises |].
  destruct s as [a w]. cbn [fst snd]. split.
  - intros Hnone. destruct (load_settings_without_object env a w Hnone) as (l & E & _).
    unfold exec. rewrite E. repeat split.
  - intros Habsent.
    assert (Hnone : settings_object env w = None).
    { unfold settings_object. rewrite Habsent. now destruct (open_settings env). }
    destruct (load_settings_without_object env a w Hnone) as (l & E & Hl).
    unfold exec. rewrite E, (Hl Habsent). now destruct w.
Qed.

Lemma load_settings_tolerates_bad_files_witness :
  let w := set_fs (<[script_path SETTINGS_FILE := Json (PStr "hotkey")]> (fs installed_world))
             installed_world in
  let s := (set_settings partial_file new_app, w) in
  fst (exec (load_settings calm) s) = fst s.
Proof.
  exact (proj1 (proj1 (proj2 (load_settings_tolerates_bad_files calm
    (set_settings partial_file new_app,
     set_fs (<[script_path SETTINGS_FILE := Json (PStr "hotkey")]> (fs installed_world))
       installed_world))) eq_refl)).
Defined.

(** ** The settings card *)

(** A callback of the settings card, step by step: the assignment, the
    save, and what follows the save, which touches neither the settings nor
    the files. *)
Lemma settings_event_runs (env : Env) (ev : event) (a : App) (w : World) :
  is_settings_event ev = true ->
  let st := match assigned ev with
            | Some (k, v) => <[k := v]> (settings a)
            | None => settings a
            end in
  exists a' w',
    step (a, w) (env, ev) = (a', w')
    /\ settings a' = st
    /\ is_recording a' = is_recording a /\ audio_data a' = audio_data a
    /\ files_ok a' = files_ok a
    /\ fs w' = match open_settings env with
               | None => <[script_path SETTINGS_FILE := Json (PDict st)]> (fs w)
               | Some _ => fs w
               end.
Proof.
  intros Hev.
  destruct ev; try discriminate Hev; clear Hev;
    unfold step, exec, handle; cbn [fst snd assigned];
    unfold on_hotkey_changed, on_sound_changed, on_delay_changed, on_minimized_changed,
      on_startup_changed, restart_keyboard_listener, stop_keyboard_listener,
      start_keyboard_listener, save_settings, settings_setitem, _update_status_ui,
      update_status;
    try destruct (find_delay delay_var PASTE_DELAY_OPTIONS);
    destruct (open_settings env); try destruct (start_stream env);
    try destruct (start_listener env);
    cbv [bind try_except may_raise raise ret modify_self modify_world emit get_self fst snd];
    do 2 eexists; (split; [reflexivity |]); cbn; repeat split.
Qed.

(** X2: each callback of the settings card (hotkey, sound, paste delay,
    start minimized, run on startup) assigns its one settings entry and
    nothing else of the settings, does not touch the recording flag or the
    buffer, and saves at once: when the settings file can be opened it then
    holds exactly the settings in memory, and when it cannot the files stay
    as they were while the new value stays in force in memory. *)
Theorem settings_callback_assigns_and_saves (env : Env) (ev : event) (s : State) :
  is_settings_event ev = true ->
  let s' := step s (env, ev) in
  settings (fst s') = match assigned ev with
                      | Some (k, v) => <[k := v]> (settings (fst s))
                      | None => settings (fst s)
                      end
  /\ is_recording (fst s') = is_recording (fst s)
  /\ audio_data (fst s') = audio_data (fst s)
  /\ match open_settings env with
     | None => fs (snd s') = <[script_path SETTINGS_FILE := Json (PDict (settings (fst s')))]>
                                (fs (snd s))
     | Some _ => fs (snd s') = fs (snd s)
     end.
Proof.
  intros Hev. destruct s as [a w].
  destruct (settings_event_runs env ev a w Hev) as (a' & w' & E & Hst & Hr & Ha & _ & Hfs).
  cbv zeta. rewrite E. cbn [fst snd]. rewrite Hst, Hfs.
  repeat split; try assumption. now destruct (open_settings env).
Qed.

Lemma settings_callback_assigns_and_saves_witness :
  let s' := step started (calm, SoundSwitched false) in
  settings (fst s') = <["sound_enabled" := PBool false]> (settings (fst started))
  /\ fs (snd s') !! script_path SETTINGS_FILE = Some (Json (PDict (settings (fst s')))).
Proof.
  destruct (settings_callback_assigns_and_saves calm (SoundSwitched false) started eq_refl)
    as (Hst & _ & _ & Hfs).
  split; [exact Hst |]. cbn [open_settings calm quiet_env] in Hfs. rewrite Hfs.
  apply lookup_insert_eq.
Defined.

(** X3: the paste-delay choice round-trips.  Choosing any of the five
    labels of [PASTE_DELAY_OPTIONS] stores that option's delay, and for the
    delay so stored [create_gui] selects the same label again. *)
Theorem delay_choice_round_trip (env : Env) (s : State) (label : string) (val : Q) :
  In (label, val) PASTE_DELAY_OPTIONS ->
  let s' := exec (on_delay_changed env label) s in
  settings (fst s') !! "paste_delay" = Some (PFloat val)
  /\ current_delay_label (fst s') = Normal label.
Proof.
  intros Hin. destruct s as [a w].
  destruct (settings_event_runs env (DelayChosen label) a w eq_refl)
    as (a' & w' & E & Hst & _).
  change (step (a, w) (env, DelayChosen label)) with (exec (on_delay_changed env label) (a, w)) in E.
  cbv zeta. rewrite E. cbn [fst]. unfold current_delay_label, settings_get. rewrite Hst.
  simpl in Hin.
  repeat (destruct Hin as [Hin | Hin];
          [injection Hin as <- <-;
           match goal with |- context [assigned ?ev] =>
             let r := eval vm_compute in (assigned ev) in change (assigned ev) with r
           end;
           cbv beta iota; rewrite lookup_insert_eq; split; reflexivity |]).
  destruct Hin.
Qed.

Lemma delay_choice_round_trip_witness :
  let s' := exec (on_delay_changed calm "Slow (0.25s)") started in
  settings (fst s') !! "paste_delay" = Some (PFloat 0.25%Q)
  /\ current_delay_label (fst s') = Normal "Slow (0.25s)"%string.
Proof.
  apply (delay_choice_round_trip calm started "Slow (0.25s)" 0.25%Q).
  simpl. tauto.
Defined.

Lemma py_dict_find_none (d : list (Q * string)) (x : Q) :
  (forall q label, In (q, label) d -> ~ (q == x)%Q) -> py_dict_find d x = None.
Proof.
  induction d as [|[q label] d IH]; intros Hno; [reflexivity |]. simpl.
  destruct (Qeq_bool q x) eqn:E.
  - apply Qeq_bool_iff in E. destruct (Hno q label (or_introl eq_refl) E).
  - apply IH. intros q' l' Hin. apply (Hno q' l'). now right.
Qed.

(** The keys of the delay map are the five delays, as floats, each with
    its label. *)
Lemma delay_map_options :
  delay_map PASTE_DELAY_OPTIONS
  = map (fun kv => (double_of (snd kv), fst kv)) PASTE_DELAY_OPTIONS.
Proof. vm_compute. reflexivity. Qed.

(** X4: a stored paste delay that is a number equal, as a float, to none
    of the five options is shown by [create_gui] under the label
    "Normal (0.15s)", which is not the label of any option;
    [on_delay_changed] does not know that label, so choosing it leaves the
    stored delay as it is. *)
Theorem odd_delay_gets_the_fallback_label (env : Env) (s : State) (x : Q) :
  py_number (settings_get (fst s) "paste_delay" (PFloat 0.15%Q)) = Some x ->
  (forall label val, In (label, val) PASTE_DELAY_OPTIONS -> ~ (double_of val == x)%Q) ->
  current_delay_label (fst s) = Normal "Normal (0.15s)"%string
  /\ settings (fst (exec (on_delay_changed env "Normal (0.15s)") s)) = settings (fst s).
Proof.
  intros Hnum Hodd. split.
  - unfold current_delay_label, py_dict_get. rewrite Hnum.
    rewrite py_dict_find_none.
    + now destruct (settings_get (fst s) "paste_delay" (PFloat 0.15%Q)).
    + rewrite delay_map_options. intros q label Hin.
      apply in_map_iff in Hin as ([label' val] & E & Hin). cbn [fst snd] in E.
      injection E as <- <-. exact (Hodd label' val Hin).
  - destruct s as [a w].
    destruct (settings_event_runs env (DelayChosen "Normal (0.15s)") a w eq_refl)
      as (a' & w' & E & Hst & _).
    change (step (a, w) (env, DelayChosen "Normal (0.15s)"))
      with (exec (on_delay_changed env "Normal (0.15s)") (a, w)) in E.
    rewrite E. exact Hst.
Qed.

Lemma odd_delay_gets_the_fallback_label_witness :
  let s := (set_settings (<["paste_delay" := PFloat 0.3%Q]> DEFAULT_SETTINGS) (fst started),
            snd started) in
  current_delay_label (fst s) = Normal "Normal (0.15s)"%string
  /\ settings (fst (exec (on_delay_changed calm "Normal (0.15s)") s)) = settings (fst s).
Proof.
  apply (odd_delay_gets_the_fallback_label calm _ (double_of 0.3%Q)); [reflexivity |].
  intros label val Hin. simpl in Hin.
  repeat (destruct Hin as [Hin | Hin];
          [injection Hin as <- <-; vm_compute; discriminate |]).
  destruct Hin.
Defined.

(** Two literals of one float are one key: a delay stored as
    0.150000000000000001 is the float 0.15 and gets its label. *)
Example same_float_same_label :
  current_delay_label
    (set_settings (<["paste_delay" := PFloat 0.150000000000000001%Q]> DEFAULT_SETTINGS)
       (fst started))
  = Normal "Default (0.15s)"%string.
Proof. vm_compute. reflexivity. Qed.

(** ** Start-up, and quitting *)

Lemma merge_loaded_app (loaded : pyval) (keys : list string) (a : App) (w : World) :
  exists st, fst (snd (merge_loaded loaded keys (a, w))) = set_settings st a.
Proof.
  revert a. induction keys as [|key rest IH]; intros a.
  - exists (settings a). now destruct a.
  - simpl. unfold bind at 1.
    destruct (py_contains loaded key) as [present|e];
      [| exists (settings a); now destruct a].
    cbn [lift ret]. unfold bind at 1. destruct present.
    + unfold bind at 1. destruct (py_getitem loaded key) as [v|e];
        [| exists (settings a); now destruct a].
      cbn [lift ret settings_setitem modify_self fst snd].
      destruct (IH (set_settings (<[key:=v]> (settings a)) a)) as [st Hst].
      exists st. exact Hst.
    + cbn [ret]. apply IH.
Qed.

(** [load_settings] changes the settings and may print; nothing else. *)
Lemma load_settings_app (env : Env) (a : App) (w : World) :
  exists st l, load_settings env (a, w) = (Normal tt, (set_settings st a, set_log l w)).
Proof.
  assert (Hself : a = set_settings (settings a) a) by now destruct a.
  destruct w as [files clip l0]. unfold load_settings, try_except.
  unfold bind at 1. cbn [get_world fst snd fs].
  destruct (files !! script_path SETTINGS_FILE) as [content|];
    [| exists (settings a), l0; now rewrite <- Hself].
  unfold bind at 1. destruct (open_settings env) as [e|];
    [exists (settings a); eexists; now rewrite <- Hself |].
  cbn [may_raise ret]. unfold bind at 1.
  destruct (json_load content) as [loaded|e];
    [| exists (settings a); eexists; now rewrite <- Hself].
  cbn [lift ret].
  destruct (merge_loaded_app loaded DEFAULT_SETTINGS_keys a (mkWorld files clip l0)) as [st Hst].
  pose proof (merge_loaded_world loaded DEFAULT_SETTINGS_keys (a, mkWorld files clip l0)) as Hw.
  destruct (merge_loaded loaded DEFAULT_SETTINGS_keys (a, mkWorld files clip l0))
    as [[[]|e] [a1 w1]]; cbn [fst snd] in *; subst a1 w1; exists st; eexists; reflexivity.
Qed.

(** [__init__] as a whole. *)
Lemma init_runs (env : Env) (s : State) :
  exists st l,
    init env s = (Normal tt, (initialized st (missing_files (snd s)), set_log l (snd s))).
Proof.
  destruct s as [a0 w]. cbn [snd].
  destruct (load_settings_app env new_app w) as (st & l & E).
  exists st, l. unfold init. unfold bind at 1. cbn [modify_self fst snd].
  unfold bind at 1. rewrite E.
  unfold missing_files, initialized, check_files_exist, path_exists.
  destruct w as [files clip l0].
  cbv [bind get_world fst snd fs set_log].
  destruct (bool_decide (is_Some (files !! script_path WHISPER_EXE)));
    destruct (bool_decide (is_Some (files !! script_path MODEL_PATH))); reflexivity.
Qed.

Lemma poll_updates_applies (a : App) (w : World) :
  poll_updates (a, w)
  = bind (apply_in_order (update_queue a)) (fun _ => when (root a) (emit AfterPoll))
      (set_update_queue [] a, w).
Proof.
  change (poll_updates (a, w))
    with (bind (drain (S (length (update_queue a))))
               (fun _ => when (root a) (emit AfterPoll)) (a, w)).
  unfold bind. now rewrite drain_applies by lia.
Qed.

(** One error status in the queue: the poll shows it. *)
Lemma poll_shows_the_error (a : App) (w : World) (message : string) :
  update_queue a = [UStatus STATUS_ERROR message] ->
  let shown := ui (fst (exec poll_updates (a, w))) in
  status_label_text shown = "Error"%string /\ transcription_text shown = Literal message.
Proof.
  intros Hq. unfold exec. rewrite poll_updates_applies, Hq.
  cbn [apply_in_order apply_update].
  unfold bind, _update_status_ui, bind, get_self, modify_self. cbn [fst snd ret].
  destruct (root a); split; reflexivity.
Qed.

Lemma poll_updates_empty (a : App) (w : World) :
  update_queue a = [] ->
  poll_updates (a, w)
  = (Normal tt, (a, if root a then set_log (log w ++ [AfterPoll]) w else w)).
Proof.
  intros Hq. unfold poll_updates. unfold bind at 1. cbn [get_self fst snd].
  rewrite Hq. cbn [length drain]. unfold bind at 1 2. unfold get_nowait, bind at 1.
  cbn [get_self fst snd]. rewrite Hq. cbn [ret].
  now destruct (root a).
Qed.

Lemma start_keyboard_listener_ends (env : Env) (a : App) (w : World) :
  start_keyboard_listener env (a, w)
  = (Normal tt,
     (match listener_failure env with
      | Some e =>
          set_update_queue
            (update_queue a ++ [UStatus STATUS_ERROR ("Failed to start: " ++ str_of_exn e)%string])
            (set_current_status STATUS_ERROR a)
      | None => a
      end,
      set_log (log w ++ StartStream
                        :: match start_stream env with Some _ => [] | None => [StartListener] end)
        w)).
Proof.
  unfold start_keyboard_listener, try_except, listener_failure, update_status.
  destruct (start_stream env) as [e1 |]; [| destruct (start_listener env) as [e2 |]];
    cbv [bind emit modify_world modify_self may_raise raise ret fst snd
         set_log log fs clipboard];
    rewrite <- ?app_assoc; reflexivity.
Qed.

(** [create_gui] on a freshly initialized application: it stops at the
    settings card when the stored settings cannot be shown, and otherwise
    polls and reports missing files. *)
Lemma create_gui_ends (env : Env) (a : App) (w : World) :
  update_queue a = [] ->
  create_gui env (a, w)
  = match gui_failure env a with
    | Some e => (Raised e, (set_ui initial_ui (set_root true a), w))
    | None =>
        (Normal tt,
         ((if files_ok a
           then set_ui initial_ui (set_root true a)
           else set_update_queue [UStatus STATUS_ERROR (error_message a)]
                  (set_current_status STATUS_ERROR (set_ui initial_ui (set_root true a)))),
          set_log (log w ++ [AfterPoll]) w))
    end.
Proof.
  intros Hq. unfold create_gui, gui_failure. unfold bind at 1 2. cbn [modify_self fst snd].
  unfold bind at 1. cbn [get_self fst snd].
  change (current_delay_label (set_ui initial_ui (set_root true a)))
    with (current_delay_label a).
  change (settings_get (set_ui initial_ui (set_root true a))) with (settings_get a).
  unfold bind at 1. destruct (current_delay_label a) as [label | e]; [| reflexivity].
  cbn [lift ret]. unfold bind at 1.
  destruct (boolean_var env (settings_get a "sound_enabled" (PBool true))); [reflexivity |].
  cbn [may_raise ret]. unfold bind at 1.
  destruct (boolean_var env (settings_get a "start_minimized" (PBool false))); [reflexivity |].
  cbn [may_raise ret]. unfold bind at 1.
  destruct (boolean_var env (settings_get a "run_on_startup" (PBool false))); [reflexivity |].
  cbn [may_raise ret]. unfold bind at 1. rewrite poll_updates_empty by exact Hq.
  cbn [root set_ui set_root]. unfold bind, get_self. cbn [fst snd files_ok set_ui set_root].
  destruct (files_ok a); cbn [negb when ret update_status]; [reflexivity |].
  unfold update_status, bind, modify_self. cbn [fst snd].
  change (update_queue (set_current_status STATUS_ERROR (set_ui initial_ui (set_root true a))))
    with (update_queue a).
  change (error_message (set_ui initial_ui (set_root true a))) with (error_message a).
  now rewrite Hq.
Qed.

(** The whole start: [__init__], then [run] up to the main loop. *)
Lemma start_ends (env : Env) (w : World) :
  exists st l,
    let a0 := initialized st (missing_files w) in
    start env (new_app, w)
    = match gui_failure env a0 with
      | Some e => (Raised e, (set_ui initial_ui (set_root true a0), set_log l w))
      | None =>
          start_keyboard_listener env
            (set_ghost_indicator true
               (if files_ok a0
                then set_ui initial_ui (set_root true a0)
                else set_update_queue [UStatus STATUS_ERROR (error_message a0)]
                       (set_current_status STATUS_ERROR
                          (set_ui initial_ui (set_root true a0)))),
             set_log (log (set_log l w) ++ [AfterPoll]) (set_log l w))
      end.
Proof.
  destruct (init_runs env (new_app, w)) as (st & l & E). exists st, l. cbv zeta.
  unfold start. unfold bind at 1. rewrite E. cbn [snd]. unfold run. unfold bind at 1.
  rewrite create_gui_ends by (unfold initialized; now destruct (missing_files w)).
  now destruct (gui_failure env (initialized st (missing_files w))).
Qed.

(** X5: at start-up [files_ok] tells whether both required files exist,
    the application is not recording, and when a file is missing the error
    message names the missing files.  When the settings card cannot show the
    stored settings (an unhashable paste delay, or a switch value Tk
    refuses) the start ends by that exception with nothing reported: the
    status is ready, the queue is empty and no indicator exists.  Otherwise
    the start returns; when a file is missing an error status carrying the
    message is the first entry of the update queue and (the listener
    starting normally) the next timer tick puts "Error" and that message on
    screen; when none is missing and the listener starts normally the status
    is ready and the queue is empty. *)
Theorem startup_checks_the_files (env : Env) (w : World) :
  let s := startup env w in
  files_ok (fst s) = bool_decide (missing_files w = [])
  /\ is_recording (fst s) = false
  /\ (missing_files w <> [] ->
      error_message (fst s) = ("Missing: " ++ PyStr.join ", " (missing_files w))%string)
  /\ match gui_failure env (fst s) with
     | Some e =>
         result (start env) (new_app, w) = Raised e
         /\ current_status (fst s) = STATUS_READY
         /\ update_queue (fst s) = []
         /\ ghost_indicator (fst s) = false
     | None =>
         result (start env) (new_app, w) = Normal tt
         /\ (missing_files w <> [] ->
             exists rest,
               update_queue (fst s) = UStatus STATUS_ERROR (error_message (fst s)) :: rest)
         /\ (start_stream env = None -> start_listener env = None ->
             if bool_decide (missing_files w = [])
             then current_status (fst s) = STATUS_READY /\ update_queue (fst s) = []
             else let shown := ui (fst (exec poll_updates s)) in
                  status_label_text shown = "Error"%string
                  /\ transcription_text shown = Literal (error_message (fst s)))
     end.
Proof.
  destruct (start_ends env w) as (st & l & E). cbv zeta in E.
  change (startup env w) with (exec (start env) (new_app, w)).
  cbv zeta. unfold exec, result. rewrite E. clear E.
  set (a0 := initialized st (missing_files w)).
  assert (Hq0 : update_queue a0 = []) by (unfold a0, initialized; now destruct (missing_files w)).
  assert (Hrec0 : is_recording a0 = false)
    by (unfold a0, initialized; now destruct (missing_files w)).
  assert (Hok0 : files_ok a0 = bool_decide (missing_files w = []))
    by (unfold a0, initialized; now destruct (missing_files w)).
  assert (Hmsg0 : missing_files w <> [] ->
            error_message a0 = ("Missing: " ++ PyStr.join ", " (missing_files w))%string)
    by (unfold a0, initialized; destruct (missing_files w); [congruence | reflexivity]).
  assert (Hst0 : current_status a0 = STATUS_READY)
    by (unfold a0, initialized; now destruct (missing_files w)).
  assert (Hgi0 : ghost_indicator a0 = false)
    by (unfold a0, initialized; now destruct (missing_files w)).
  destruct (gui_failure env a0) as [e |] eqn:Hgui.
  - cbn [fst snd].
    change (gui_failure env (set_ui initial_ui (set_root true a0))) with (gui_failure env a0).
    rewrite Hgui. cbn [files_ok is_recording error_message current_status update_queue
                       ghost_indicator set_ui set_root].
    auto 10.
  - rewrite start_keyboard_listener_ends. cbn [fst snd].
    set (a1 := set_ghost_indicator true
                 (if files_ok a0
                  then set_ui initial_ui (set_root true a0)
                  else set_update_queue [UStatus STATUS_ERROR (error_message a0)]
                         (set_current_status STATUS_ERROR
                            (set_ui initial_ui (set_root true a0))))).
    assert (Hq1 : update_queue a1
                  = if files_ok a0 then [] else [UStatus STATUS_ERROR (error_message a0)])
      by (unfold a1; destruct (files_ok a0); [exact Hq0 | reflexivity]).
    assert (Hkeep : files_ok a1 = files_ok a0 /\ is_recording a1 = is_recording a0
                    /\ error_message a1 = error_message a0 /\ settings a1 = settings a0)
      by (unfold a1; destruct (files_ok a0) eqn:Ef; cbn; auto).
    destruct Hkeep as (Hok1 & Hrec1 & Hmsg1 & Hset1).
    set (a2 := match listener_failure env with
               | Some e =>
                   set_update_queue
                     (update_queue a1
                      ++ [UStatus STATUS_ERROR ("Failed to start: " ++ str_of_exn e)%string])
                     (set_current_status STATUS_ERROR a1)
               | None => a1
               end).
    assert (Hkeep2 : files_ok a2 = files_ok a1 /\ is_recording a2 = is_recording a1
                     /\ error_message a2 = error_message a1 /\ settings a2 = settings a1)
      by (unfold a2; destruct (listener_failure env); cbn; auto).
    destruct Hkeep2 as (Hok2 & Hrec2 & Hmsg2 & Hset2).
    assert (Hgui2 : gui_failure env a2 = None).
    { rewrite <- Hgui. unfold gui_failure, current_delay_label, settings_get.
      now rewrite Hset2, Hset1. }
    rewrite Hgui2, Hok2, Hok1, Hrec2, Hrec1, Hmsg2, Hmsg1.
    split; [exact Hok0 |]. split; [exact Hrec0 |]. split; [exact Hmsg0 |].
    split; [reflexivity |]. split.
    + intros Hmiss.
      assert (Hnok : files_ok a0 = false)
        by (rewrite Hok0; now apply bool_decide_eq_false_2).
      unfold a2. destruct (listener_failure env);
        cbn [update_queue set_update_queue set_current_status]; rewrite Hq1, Hnok;
        cbn [app]; eauto.
    + intros Hs Hl.
      assert (Hnone : listener_failure env = None)
        by (unfold listener_failure; now rewrite Hs).
      unfold a2. rewrite Hnone.
      case_bool_decide as Hmiss.
      * assert (Hokt : files_ok a0 = true) by exact Hok0.
        rewrite Hq1, Hokt. split; [| reflexivity].
        unfold a1. rewrite Hokt. exact Hst0.
      * assert (Hnok : files_ok a0 = false) by exact Hok0.
        rewrite <- Hmsg1. apply poll_shows_the_error. now rewrite Hq1, Hnok, Hmsg1.
Qed.

Lemma startup_checks_the_files_witness :
  let s := startup calm world_without_model in
  files_ok (fst s) = false
  /\ error_message (fst s) = "Missing: ggml-tiny.bin"%string
  /\ transcription_text (ui (fst (exec poll_updates s))) = Literal "Missing: ggml-tiny.bin".
Proof.
  destruct (startup_checks_the_files calm world_without_model) as (Hok & _ & Hmsg & Hgui).
  assert (Hno : gui_failure calm (fst (startup calm world_without_model)) = None)
    by (vm_compute; reflexivity).
  rewrite Hno in Hgui. destruct Hgui as (_ & _ & Hshow).
  split; [exact Hok |].
  pose proof (Hmsg ltac:(discriminate)) as Hm.
  split; [exact Hm |].
  destruct (Hshow eq_refl eq_refl) as [_ Htext].
  rewrite Htext, Hm. reflexivity.
Defined.

(** A settings file whose paste delay is a list stops the start at the
    settings card, although a required file is missing: no error status is
    ever enqueued. *)
Example unhashable_delay_stops_the_start :
  let w := set_fs (delete (script_path MODEL_PATH) (fs world_with_odd_delay))
             world_with_odd_delay in
  missing_files w = [MODEL_PATH]
  /\ (exists e, result (start calm) (new_app, w) = Raised e)
  /\ update_queue (fst (startup calm w)) = [].
Proof. vm_compute. eauto. Qed.

Lemma quit_app_runs (env : Env) (a : App) (w : World) :
  exists a' w',
    exec (quit_app env) (a, w) = (a', w')
    /\ settings a' = settings a /\ is_recording a' = false
    /\ fs w' = match open_settings env with
               | None => <[script_path SETTINGS_FILE := Json (PDict (settings a))]> (fs w)
               | Some _ => fs w
               end.
Proof.
  unfold exec, quit_app, stop_keyboard_listener, save_settings.
  destruct (is_recording a) eqn:Hr; destruct (root a) eqn:Hroot; destruct (open_settings env) eqn:Ho;
    cbv [bind try_except may_raise raise ret when modify_self modify_world emit get_self fst snd];
    rewrite ?Hr, ?Hroot; cbn; do 2 eexists; (split; [reflexivity |]); cbn; auto.
Qed.

(** The settings after a start on a world whose settings file is the JSON
    object [m]. *)
Lemma startup_settings_lookup (env : Env) (w : World) (m : gmap string pyval) (k : string) :
  fs w !! script_path SETTINGS_FILE = Some (Json (PDict m)) ->
  open_settings env = None ->
  settings (fst (startup env w)) !! k
  = if decide (k ∈ recognized_keys)
    then match m !! k with Some v => Some v | None => DEFAULT_SETTINGS !! k end
    else None.
Proof.
  intros Hfile Hopen.
  assert (Hrun : forall st, preserves (fun b => settings b = st) (run env))
    by (intros st; apply run_keeps; intros ? ? Hs _ _ Hb; congruence).
  pose proof (init_settings_lookup env (new_app, w) m k Hfile Hopen) as Hinit.
  unfold startup, exec in *. unfold bind.
  destruct (init env (new_app, w)) as [[u|e] s0]; cbn [fst snd] in *.
  - now rewrite (Hrun (settings (fst s0)) s0 eq_refl).
  - exact Hinit.
Qed.

(** X6: the settings survive quitting and starting again.  Whatever
    happened since start-up, when [quit_app] can write the settings file and
    the next start can read it, the application starts with the settings it
    had when it quit; and [quit_app] leaves no recording going on. *)
Theorem settings_survive_quit_and_restart (env env_quit env' : Env) (w : World)
    (cs : list (Env * event)) :
  open_settings env_quit = None ->
  open_settings env' = None ->
  let s := run_events cs (startup env w) in
  let s' := exec (quit_app env_quit) s in
  settings (fst (startup env' (snd s'))) = settings (fst s)
  /\ is_recording (fst s') = false.
Proof.
  intros Hq Ho s.
  assert (Hfive : five_keys (fst s)).
  { apply run_events_keeps;
      [ exact five_keys_reads | exact five_keys_setitem | exact five_keys_start_recording
      | intros a Ha; exact Ha | apply five_keys_startup ]. }
  destruct s as [a w0]. cbn [fst] in *.
  destruct (quit_app_runs env_quit a w0) as (a' & w' & E & _ & Hrec & Hfs).
  cbv zeta. rewrite E. cbn [fst snd]. split; [| exact Hrec].
  rewrite Hq in Hfs. apply map_eq. intros k.
  rewrite (startup_settings_lookup env' w' (settings a) k) by
    (try exact Ho; rewrite Hfs; apply lookup_insert_eq).
  unfold five_keys in Hfive. case_decide as Hk.
  - rewrite <- Hfive in Hk. apply elem_of_dom in Hk as [v Hv]. now rewrite Hv.
  - symmetry. apply not_elem_of_dom. now rewrite Hfive.
Qed.

Lemma settings_survive_quit_and_restart_witness :
  let s := run_events [(calm, HotkeyChosen "F9"); (calm, DelayChosen "Slow (0.25s)")] started in
  settings (fst (startup calm (snd (exec (quit_app calm) s)))) = settings (fst s).
Proof.
  exact (proj1 (settings_survive_quit_and_restart calm calm calm installed_world
                  [(calm, HotkeyChosen "F9"); (calm, DelayChosen "Slow (0.25s)")]
                  eq_refl eq_refl)).
Defined.

(** ** Hotkeys *)

Lemma key_eqb_eq (k : key) (name : string) : key_eqb k (Key name) = true <-> k = Key name.
Proof.
  destruct k as [n | c]; simpl.
  - rewrite String.eqb_eq. split; congruence.
  - split; discriminate.
Qed.

Lemma has_char_eq (k : key) (c : string) : has_char k c = true <-> k = KeyCode (Some c).
Proof.
  destruct k as [n | [ch|]]; simpl; try (split; discriminate).
  rewrite String.eqb_eq. split; congruence.
Qed.

(** X7: [get_hotkey_key] and [is_hotkey_pressed] agree on every hotkey the
    settings card offers.  With such a hotkey stored, [get_hotkey_key]
    returns a target without raising, and, the modifier keys being held, a
    key event satisfies [is_hotkey_pressed] exactly when it is that target:
    the member of [Key] for a function key, the key with that character for
    a combination. *)
Theorem get_hotkey_key_is_the_key_matched (h : string) (a : App) (w : World) (k : key) :
  In h HOTKEY_OPTIONS ->
  settings a !! "hotkey" = Some (PStr h) ->
  exists target,
    get_hotkey_key (a, w) = (Normal target, (a, w))
    /\ (result (is_hotkey_pressed k) (with_modifiers true a, w) = Normal true <-> hits target k).
Proof.
  intros Hin Hh.
  unfold get_hotkey_key, result, is_hotkey_pressed, bind, get_self, settings_get.
  cbn [fst snd with_modifiers settings set_alt_pressed set_shift_pressed set_ctrl_pressed
       ctrl_pressed shift_pressed alt_pressed].
  rewrite Hh. cbn [default from_option id].
  simpl in Hin.
  repeat (destruct Hin as [<- | Hin];
          [repeat match goal with
                  | |- context [PyStr.startswith ?x "F" && PyStr.isdigit (PyStr.tail ?x)] =>
                      let r := eval vm_compute in
                                 (PyStr.startswith x "F" && PyStr.isdigit (PyStr.tail x)) in
                      change (PyStr.startswith x "F" && PyStr.isdigit (PyStr.tail x)) with r
                  | |- context [getattr_Key (PyStr.lower ?x) ?d] =>
                      let r := eval vm_compute in (getattr_Key (PyStr.lower x) d) in
                      change (getattr_Key (PyStr.lower x) d) with r
                  | |- context [String.eqb ?x ?y] =>
                      let r := eval vm_compute in (String.eqb x y) in
                      change (String.eqb x y) with r
                  end;
           cbv beta iota; cbn [ret fst andb hits];
           eexists; split; [reflexivity |]; cbn [hits];
           first [ rewrite <- key_eqb_eq | rewrite <- has_char_eq ];
           split; congruence |]).
  destruct Hin.
Qed.

Lemma get_hotkey_key_is_the_key_matched_witness :
  exists target,
    get_hotkey_key (fst (exec (on_hotkey_changed calm "Ctrl+Alt+V") started), installed_world)
    = (Normal target, (fst (exec (on_hotkey_changed calm "Ctrl+Alt+V") started), installed_world))
    /\ hits target (KeyCode (Some "v")).
Proof.
  destruct (get_hotkey_key_is_the_key_matched "Ctrl+Alt+V"
              (fst (exec (on_hotkey_changed calm "Ctrl+Alt+V") started)) installed_world
              (KeyCode (Some "v")) ltac:(simpl; tauto) eq_refl) as (target & E & Hiff).
  exists target. split; [exact E |]. apply Hiff. reflexivity.
Defined.

Lemma lower_F (h : string) :
  PyStr.startswith h "F" = true -> exists t, PyStr.lower h = String "f" t.
Proof.
  destruct h as [|c t]; [discriminate |]. unfold PyStr.startswith. cbn [String.prefix].
  destruct (Ascii.ascii_dec "F" c) as [<- | Hne]; [| discriminate].
  intros _. eexists. reflexivity.
Qed.

(** The target of a function-key hotkey is no modifier key. *)
Lemma function_target_no_modifier (h : string) :
  PyStr.startswith h "F" = true ->
  exists n, getattr_Key (PyStr.lower h) (Key "f8") = Key n
            /\ n ∈ Key_members
            /\ forall m, In m ["ctrl_l"; "ctrl_r"; "shift_l"; "shift_r"; "shift";
                               "alt_l"; "alt_r"; "alt_gr"]%string ->
                         is_Key (Key n) m = false.
Proof.
  intros HF. destruct (lower_F h HF) as [t Ht]. unfold getattr_Key. rewrite Ht.
  case_bool_decide as Hmem.
  - exists (String "f" t). split; [reflexivity | split; [exact Hmem |]].
    intros m Hm. simpl in Hm.
    repeat (destruct Hm as [<- | Hm]; [reflexivity |]). destruct Hm.
  - exists "f8"%string.
    split; [reflexivity | split; [apply (bool_decide_unpack _); vm_compute; exact I |]].
    intros m Hm. simpl in Hm.
    repeat (destruct Hm as [<- | Hm]; [reflexivity |]). destruct Hm.
Qed.

(** X8: with a function-key hotkey stored (an F followed by digits),
    pressing the key it stands for does exactly what the tray entry does:
    [on_key_press] of that key and [toggle_recording] end in the same state.
    The key is the member of [Key] the hotkey names (F1 to F24), and F8
    when it names none. *)
Theorem hotkey_press_is_the_tray_toggle (h : string) (s : State) :
  settings (fst s) !! "hotkey" = Some (PStr h) ->
  PyStr.startswith h "F" = true ->
  PyStr.isdigit (PyStr.tail h) = true ->
  let target := getattr_Key (PyStr.lower h) (Key "f8") in
  result (is_hotkey_pressed target) s = Normal true
  /\ on_key_press target s = toggle_recording s.
Proof.
  intros Hh HF Hd target. destruct s as [a w]. cbn [fst] in Hh.
  destruct (function_target_no_modifier h HF) as (n & Hn & _ & Hmod).
  assert (Hpressed : is_hotkey_pressed target (a, w) = (Normal true, (a, w))).
  { unfold is_hotkey_pressed, bind, get_self, settings_get. cbn [fst snd].
    rewrite Hh. cbn [default from_option id]. rewrite HF, Hd. cbn [andb ret].
    subst target. rewrite Hn. cbn [key_eqb]. now rewrite String.eqb_refl. }
  split; [unfold result; now rewrite Hpressed |].
  unfold on_key_press, toggle_recording. subst target. rewrite Hn in *.
  rewrite !Hmod by (simpl; tauto). cbn [orb].
  unfold bind at 1. cbn [ret]. unfold bind at 1. rewrite Hpressed.
  unfold bind, get_self. cbn [fst snd]. now destruct (is_recording a).
Qed.

Lemma hotkey_press_is_the_tray_toggle_witness :
  let s := exec (on_hotkey_changed calm "F21") started in
  on_key_press (Key "f21") s = toggle_recording s.
Proof.
  exact (proj2 (hotkey_press_is_the_tray_toggle "F21" (exec (on_hotkey_changed calm "F21") started)
                  eq_refl eq_refl eq_refl)).
Defined.

(** The function keys go up to F24: F24 names its own key, F25 names none
    and falls back to F8. *)
Example function_keys_end_at_F24 :
  getattr_Key (PyStr.lower "F24") (Key "f8") = Key "f24"
  /\ getattr_Key (PyStr.lower "F25") (Key "f8") = Key "f8".
Proof. split; vm_compute; reflexivity. Qed.

Lemma is_hotkey_pressed_dead (k : key) (a : App) (w : World) :
  dead_hotkey (settings_get a "hotkey" (PStr "F8")) ->
  snd (is_hotkey_pressed k (a, w)) = (a, w)
  /\ fst (is_hotkey_pressed k (a, w)) <> Normal true
  /\ ((forall h, settings_get a "hotkey" (PStr "F8") <> PStr h) ->
      exists e, fst (is_hotkey_pressed k (a, w)) = Raised e).
Proof.
  unfold is_hotkey_pressed, bind, get_self. cbn [fst snd].
  destruct (settings_get a "hotkey" (PStr "F8")) as [| b | z | q | h | l | m];
    cbn [dead_hotkey]; intros Hdead;
    try (split; [reflexivity | split; [discriminate | intros; eexists; reflexivity]]).
  destruct Hdead as (-> & HR & HD & HV).
  apply String.eqb_neq in HR, HD, HV. rewrite HR, HD, HV.
  split; [reflexivity | split; [discriminate | intros Hne; now destruct (Hne h)]].
Qed.

Lemma key_event_dead (env : Env) (ev : event) (a : App) (w : World) :
  is_key_event ev = true ->
  dead_hotkey (settings_get a "hotkey" (PStr "F8")) ->
  exists a', step (a, w) (env, ev) = (a', w) /\ same_but_modifiers a' a.
Proof.
  intros Hev Hdead. destruct ev; try discriminate Hev; clear Hev;
    unfold step, exec, handle; cbn [fst snd].
  - unfold on_key_press. unfold bind at 1.
    destruct (is_Key k "ctrl_l" || is_Key k "ctrl_r");
      [| destruct (is_Key k "shift_l" || is_Key k "shift_r" || is_Key k "shift");
         [| destruct (is_Key k "alt_l" || is_Key k "alt_r" || is_Key k "alt_gr")]];
      cbn [modify_self ret fst snd]; unfold bind at 1;
      match goal with
      | |- context [is_hotkey_pressed k (?b, w)] =>
          destruct (is_hotkey_pressed_dead k b w Hdead) as (Hs & Hn & _);
          destruct (is_hotkey_pressed k (b, w)) as [[[|]|e] s1]; cbn [fst snd] in *;
          subst s1; try congruence; eexists; split; reflexivity
      end.
  - unfold on_key_release.
    destruct (is_Key k "ctrl_l" || is_Key k "ctrl_r");
      [| destruct (is_Key k "shift_l" || is_Key k "shift_r" || is_Key k "shift");
         [| destruct (is_Key k "alt_l" || is_Key k "alt_r" || is_Key k "alt_gr")]];
      eexists; split; reflexivity.
Qed.

(** X9: a stored hotkey that is not a string, or that is neither an F
    followed by digits nor one of the three combinations, leaves the
    keyboard without effect: no sequence of key presses and releases changes
    anything of the application but the three modifier flags, nor anything
    of the world, so no recording starts.  When the stored value is not a
    string, every key press ends by the exception of [startswith]. *)
Theorem dead_hotkey_disables_the_keyboard (cs : list (Env * event)) (s : State) :
  dead_hotkey (settings_get (fst s) "hotkey" (PStr "F8")) ->
  (forall c, In c cs -> is_key_event (snd c) = true) ->
  same_but_modifiers (fst (run_events cs s)) (fst s)
  /\ snd (run_events cs s) = snd s
  /\ ((forall h, settings_get (fst s) "hotkey" (PStr "F8") <> PStr h) ->
      forall k, exists e, result (on_key_press k) s = Raised e).
Proof.
  intros Hdead Hkeys. split; [| split].
  - revert s Hdead. induction cs as [|[env ev] cs IH]; intros [a w] Hdead; [reflexivity |].
    simpl. cbn [fst snd] in *.
    destruct (key_event_dead env ev a w (Hkeys (env, ev) (or_introl eq_refl)) Hdead)
      as (a' & E & Hsame).
    rewrite E. unfold same_but_modifiers in *. rewrite <- Hsame.
    apply IH; [intros c Hc; apply Hkeys; now right |].
    cbn [fst]. replace (settings_get a' "hotkey" (PStr "F8"))
      with (settings_get a "hotkey" (PStr "F8")); [exact Hdead |].
    unfold settings_get. apply (f_equal settings) in Hsame. cbn in Hsame. now rewrite Hsame.
  - revert s Hdead. induction cs as [|[env ev] cs IH]; intros [a w] Hdead; [reflexivity |].
    simpl. cbn [fst snd] in *.
    destruct (key_event_dead env ev a w (Hkeys (env, ev) (or_introl eq_refl)) Hdead)
      as (a' & E & Hsame).
    rewrite E. rewrite IH; [reflexivity | intros c Hc; apply Hkeys; now right |].
    cbn [fst]. replace (settings_get a' "hotkey" (PStr "F8"))
      with (settings_get a "hotkey" (PStr "F8")); [exact Hdead |].
    unfold settings_get. apply (f_equal settings) in Hsame. cbn in Hsame. now rewrite Hsame.
  - intros Hns k. destruct s as [a w]. cbn [fst] in *.
    unfold result, on_key_press. unfold bind at 1.
    destruct (is_Key k "ctrl_l" || is_Key k "ctrl_r");
      [| destruct (is_Key k "shift_l" || is_Key k "shift_r" || is_Key k "shift");
         [| destruct (is_Key k "alt_l" || is_Key k "alt_r" || is_Key k "alt_gr")]];
      cbn [modify_self ret fst snd]; unfold bind at 1;
      match goal with
      | |- context [is_hotkey_pressed k (?b, w)] =>
          destruct (is_hotkey_pressed_dead k b w Hdead) as (_ & _ & Hr);
          destruct (Hr Hns) as [e He];
          destruct (is_hotkey_pressed k (b, w)) as [[p|e'] s1]; cbn [fst] in He;
          [discriminate He | eexists; reflexivity]
      end.
Qed.

Lemma dead_hotkey_disables_the_keyboard_witness :
  let s := (set_settings (<["hotkey" := PInt 8]> DEFAULT_SETTINGS) (fst started), snd started) in
  let cs := [(calm, KeyPressed (Key "f8")); (calm, KeyReleased (Key "f8"))] in
  same_but_modifiers (fst (run_events cs s)) (fst s) /\ snd (run_events cs s) = snd s.
Proof.
  destruct (dead_hotkey_disables_the_keyboard
              [(calm, KeyPressed (Key "f8")); (calm, KeyReleased (Key "f8"))]
              (set_settings (<["hotkey" := PInt 8]> DEFAULT_SETTINGS) (fst started), snd started))
    as (Hsame & Hworld & _).
  - exact I.
  - intros c Hc. simpl in Hc. destruct Hc as [<- | [<- | []]]; reflexivity.
  - exact (conj Hsame Hworld).
Defined.

(** ** A recording session *)

Lemma deliver_while_recording (env : Env) (blocks : list chunk) (a : App) (w : World) :
  is_recording a = true ->
  run_events (deliver env blocks) (a, w) = (set_audio_data (audio_data a ++ blocks) a, w).
Proof.
  revert a. induction blocks as [|c blocks IH]; intros a Hr.
  - simpl. rewrite app_nil_r. now destruct a.
  - simpl. unfold step at 1, exec, handle, audio_callback, bind, get_self. cbn [fst snd].
    rewrite Hr. cbn [when modify_self fst snd]. rewrite IH by exact Hr.
    cbn [audio_data set_audio_data]. now rewrite <- app_assoc.
Qed.

Lemma deliver_while_idle (env : Env) (blocks : list chunk) (s : State) :
  is_recording (fst s) = false -> run_events (deliver env blocks) s = s.
Proof.
  destruct s as [a w]. cbn [fst]. intros Hr.
  induction blocks as [|c blocks IH]; [reflexivity |].
  simpl. unfold step at 1, exec, handle, audio_callback, bind, get_self. cbn [fst snd].
  rewrite Hr. exact IH.
Qed.

Lemma start_recording_runs (a : App) (w : World) :
  files_ok a = true ->
  exists l, start_recording (a, w)
            = (Normal tt,
               (set_update_queue (update_queue a ++ [UStatus STATUS_RECORDING ""])
                  (set_current_status STATUS_RECORDING
                     (set_audio_data [] (set_is_recording true a))),
                set_log (log w ++ l) w))
            /\ calls is_beep (set_log l w)
               = (if truthy (settings_get a "sound_enabled" (PBool true))
                  then [Beep START_BEEP] else [])
            /\ calls is_worker_start (set_log l w) = [].
Proof.
  intros Hf. unfold start_recording, update_status, bind, get_self. cbn [fst snd].
  rewrite Hf. cbn [negb].
  destruct (ghost_indicator a), (truthy (settings_get a "sound_enabled" (PBool true)));
    cbn [when modify_self fst snd]; unfold emit, modify_world, ret, set_log;
    cbn [log fs clipboard fst snd].
  - exists [AfterShow "recording"; Beep START_BEEP].
    rewrite <- app_assoc. repeat split; reflexivity.
  - exists [AfterShow "recording"]. repeat split; reflexivity.
  - exists [Beep START_BEEP]. repeat split; reflexivity.
  - exists []. rewrite app_nil_r. destruct w. repeat split; reflexivity.
Qed.

Lemma stop_recording_runs (a : App) (w : World) :
  is_recording a = true ->
  exists l, stop_recording (a, w)
            = (Normal tt, (set_is_recording false a, set_log (log w ++ l) w))
            /\ calls is_beep (set_log l w)
               = (if truthy (settings_get a "sound_enabled" (PBool true))
                  then [Beep STOP_BEEP] else [])
            /\ calls is_worker_start (set_log l w) = [StartWorker].
Proof.
  intros Hr. unfold stop_recording, bind, get_self. cbn [fst snd].
  rewrite Hr. cbn [negb].
  destruct (truthy (settings_get a "sound_enabled" (PBool true)));
    cbn [when modify_self fst snd]; unfold emit, modify_world, ret, set_log;
    cbn [log fs clipboard fst snd].
  - exists [Beep STOP_BEEP; StartWorker].
    rewrite <- app_assoc. repeat split; reflexivity.
  - exists [StartWorker]. repeat split; reflexivity.
Qed.

Lemma calls_append (p : effect -> bool) (w : World) (l : list effect) :
  calls p (set_log (log w ++ l) w) = calls p w ++ calls p (set_log l w).
Proof. unfold calls. cbn [log set_log]. apply filter_app. Qed.

(** X10: a recording session collects exactly the audio delivered during
    it.  With the required files in place, [start_recording] sets the flag
    and empties the buffer, whatever it held; the blocks delivered then are
    appended in order; [stop_recording] clears the flag and starts one
    worker thread; and blocks delivered after the stop are dropped. *)
Theorem recording_collects_the_blocks (env : Env) (s : State) (blocks late : list chunk) :
  files_ok (fst s) = true ->
  let s1 := exec start_recording s in
  let s2 := run_events (deliver env blocks) s1 in
  let s3 := exec stop_recording s2 in
  let s4 := run_events (deliver env late) s3 in
  is_recording (fst s1) = true /\ audio_data (fst s1) = []
  /\ current_status (fst s1) = STATUS_RECORDING
  /\ audio_data (fst s2) = blocks
  /\ is_recording (fst s3) = false
  /\ audio_data (fst s4) = blocks
  /\ calls is_worker_start (snd s4) = calls is_worker_start (snd s) ++ [StartWorker].
Proof.
  intros Hf. destruct s as [a w]. cbn [fst] in Hf.
  destruct (start_recording_runs a w Hf) as (l1 & E1 & _ & Hw1).
  cbv zeta. unfold exec. rewrite E1. cbn [snd].
  rewrite deliver_while_recording by reflexivity.
  match goal with |- context [stop_recording (?b, ?v)] =>
    destruct (stop_recording_runs b v eq_refl) as (l2 & E2 & _ & Hw2)
  end.
  unfold exec. rewrite E2. cbn [snd].
  rewrite deliver_while_idle by reflexivity. cbn [fst snd].
  repeat split.
  rewrite !calls_append. cbn [set_log log] in *.
  unfold calls in *. cbn [log set_log] in *. now rewrite Hw1, Hw2, app_nil_r.
Qed.

Lemma recording_collects_the_blocks_witness :
  let s2 := run_events (deliver calm half_second) (exec start_recording started) in
  audio_data (fst s2) = half_second
  /\ audio_data (fst (run_events (deliver calm quarter_second) (exec stop_recording s2)))
     = half_second.
Proof.
  destruct (recording_collects_the_blocks calm started half_second quarter_second eq_refl)
    as (_ & _ & _ & H2 & _ & H4 & _).
  exact (conj H2 H4).
Defined.

Lemma on_sound_changed_runs (env : Env) (b : bool) (a : App) (w : World) :
  exists l, exec (on_sound_changed env b) (a, w)
            = (set_settings (<["sound_enabled" := PBool b]> (settings a)) a,
               set_log (log w ++ l)
                 (set_fs (match open_settings env with
                          | None => <[script_path SETTINGS_FILE :=
                                        Json (PDict (<["sound_enabled" := PBool b]> (settings a)))]>
                                      (fs w)
                          | Some _ => fs w
                          end) w))
            /\ calls is_beep (set_log l w) = [].
Proof.
  unfold exec, on_sound_changed, save_settings, settings_setitem.
  destruct (open_settings env);
    cbv [bind try_except may_raise raise ret modify_self modify_world emit get_self fst snd].
  - eexists. split; [reflexivity | reflexivity].
  - exists []. rewrite app_nil_r. destruct w. split; reflexivity.
Qed.

(** X11: the sound switch decides the tones of a session.  After
    [on_sound_changed] stored the switch position, starting and then
    stopping a recording plays the start tone followed by the stop tone when
    the switch is on, and plays no tone when it is off. *)
Theorem sound_switch_controls_the_tones (env : Env) (sound_var : bool) (s : State) :
  files_ok (fst s) = true ->
  let s0 := exec (on_sound_changed env sound_var) s in
  let s2 := exec stop_recording (exec start_recording s0) in
  calls is_beep (snd s2)
  = calls is_beep (snd s) ++ (if sound_var then [Beep START_BEEP; Beep STOP_BEEP] else []).
Proof.
  intros Hf. destruct s as [a w]. cbn [fst snd] in *.
  destruct (on_sound_changed_runs env sound_var a w) as (l0 & E0 & H0).
  cbv zeta. rewrite E0.
  match goal with |- context [exec start_recording (?b, ?v)] =>
    destruct (start_recording_runs b v Hf) as (l1 & E1 & H1 & _)
  end.
  unfold exec at 2. rewrite E1. cbn [snd].
  match goal with |- context [exec stop_recording (?b, ?v)] =>
    destruct (stop_recording_runs b v eq_refl) as (l2 & E2 & H2 & _)
  end.
  unfold exec. rewrite E2. cbn [snd].
  unfold settings_get in H1, H2. cbn [settings set_settings set_update_queue
    set_current_status set_audio_data set_is_recording] in H1, H2.
  rewrite lookup_insert_eq in H1, H2. cbn [default from_option truthy] in H1, H2.
  unfold calls in *. cbn [log set_log] in *.
  rewrite !filter_app, H0, H1, H2, app_nil_r, <- app_assoc.
  now destruct sound_var.
Qed.

Lemma sound_switch_controls_the_tones_witness :
  calls is_beep (snd (exec stop_recording
                        (exec start_recording (exec (on_sound_changed calm false) started))))
  = calls is_beep (snd started).
Proof.
  rewrite (sound_switch_controls_the_tones calm false started eq_refl).
  apply app_nil_r.
Defined.

(** ** Stripping *)

Lemma lstrip_head (s : string) :
  PyStr.lstrip s = "" \/
  exists c r, PyStr.lstrip s = String c r /\ PyStr.is_space_char c = false.
Proof.
  induction s as [|c s IH]; [now left |].
  cbn [PyStr.lstrip]. destruct (PyStr.is_space_char c) eqn:E; [exact IH |].
  right. now exists c, s.
Qed.

Lemma rstrip_head (c : ascii) (r : string) :
  PyStr.is_space_char c = false -> exists r', PyStr.rstrip (String c r) = String c r'.
Proof.
  intros Hc. cbn [PyStr.rstrip]. destruct (PyStr.rstrip r); [rewrite Hc |]; eauto.
Qed.

Lemma rstrip_idempotent (s : string) : PyStr.rstrip (PyStr.rstrip s) = PyStr.rstrip s.
Proof.
  induction s as [|c s IH]; [reflexivity |].
  cbn [PyStr.rstrip]. destruct (PyStr.rstrip s) as [|c' r] eqn:E.
  - destruct (PyStr.is_space_char c) eqn:Hc; [reflexivity |].
    cbn [PyStr.rstrip]. now rewrite Hc.
  - cbn [PyStr.rstrip] in *. now rewrite IH.
Qed.

(** What [strip] returns is empty or starts with a character that is no
    blank. *)
Lemma strip_head (s : string) :
  PyStr.strip s = "" \/
  exists c r, PyStr.strip s = String c r /\ PyStr.is_space_char c = false.
Proof.
  unfold PyStr.strip. destruct (lstrip_head s) as [-> | (c & r & -> & Hc)]; [now left |].
  right. destruct (rstrip_head c r Hc) as [r' ->]. now exists c, r'.
Qed.

Lemma strip_idempotent (s : string) : PyStr.strip (PyStr.strip s) = PyStr.strip s.
Proof.
  destruct (strip_head s) as [E | (c & r & E & Hc)]; [now rewrite E |].
  unfold PyStr.strip at 1. rewrite E. cbn [PyStr.lstrip]. rewrite Hc, <- E.
  unfold PyStr.strip. apply rstrip_idempotent.
Qed.

Lemma strip_not_blank (s : string) :
  PyStr.strip s <> "" ->
  PyStr.nonempty (PyStr.strip s) = true /\ PyStr.isspace (PyStr.strip s) = false.
Proof.
  intros Hne. destruct (strip_head s) as [E | (c & r & E & Hc)]; [contradiction |].
  rewrite E. unfold PyStr.isspace. cbn [PyStr.nonempty PyStr.all_chars]. now rewrite Hc.
Qed.

(** [type_text] on a text that is not blank. *)
Lemma type_text_runs (env : Env) (text : string) (a : App) (w : World) :
  PyStr.nonempty text = true -> PyStr.isspace text = false ->
  let t := PyStr.strip text in
  let delay := settings_get a "paste_delay" (PFloat 0.15%Q) in
  type_text env text (a, w)
  = match pyperclip_copy env, time_sleep env with
    | Some e, _ =>
        (Raised e, (a, set_log (log w ++ [ClipboardPaste; ClipboardCopy t]) w))
    | None, Some e =>
        (Raised e, (a, mkWorld (fs w) t (log w ++ [ClipboardPaste; ClipboardCopy t; Sleep delay])))
    | None, None =>
        (Normal tt, (a, mkWorld (fs w) t (log w ++ paste_effects t delay)))
    end.
Proof.
  intros Hne Hsp. unfold type_text. rewrite Hne, Hsp. cbn [negb orb].
  unfold paste_effects, paste_keys.
  destruct (pyperclip_paste env), (pyperclip_copy env), (time_sleep env);
    cbv [bind try_except may_raise modify_world emit get_world get_self ret raise fst snd
         set_log set_clipboard log fs clipboard];
    rewrite <- ?app_assoc; reflexivity.
Qed.

(** ** The ways a transcription ends *)

(** Once the guarded block has ended, a successful cleanup deletes the
    temporary file and, unless the block returned, the status goes back to
    ready and the indicator is asked to hide. *)
Lemma process_recording_ends (env : Env) (s : State) (left : flow) (a1 : App) (w1 : World) :
  reaches_transcription (fst s) ->
  guarded_transcription env (fst s) (mktemp env) (concat (audio_data (fst s)))
    (transcribing_state s) = (Normal left, (a1, w1)) ->
  os_remove env = None ->
  process_recording env s
  = (Normal tt,
     (match left with
      | Return => a1
      | FallThrough =>
          set_update_queue (update_queue a1 ++ [UStatus STATUS_READY ""])
            (set_current_status STATUS_READY a1)
      end,
      mkWorld (delete (mktemp env) (fs w1)) (clipboard w1)
        (log w1 ++ match left with
                   | Return => []
                   | FallThrough => indicator (fst s) AfterHide
                   end))).
Proof.
  intros Hreach Hg Hrm. rewrite process_recording_long by exact Hreach.
  unfold bind at 1. unfold try_finally. rewrite Hg.
  unfold remove_temp, bind, get_world, path_exists, indicator. cbn [fst snd].
  destruct (bool_decide (is_Some (fs w1 !! mktemp env))) eqn:Hex; cbn [when].
  - unfold remove_file, bind. rewrite Hrm.
    destruct left, (ghost_indicator (fst s));
      cbv [may_raise ret modify_world modify_self update_status when emit bind fst snd
           set_fs set_log fs clipboard log];
      rewrite ?app_nil_r; reflexivity.
  - apply bool_decide_eq_false in Hex.
    assert (Hnone : fs w1 !! mktemp env = None)
      by (destruct (fs w1 !! mktemp env); [exfalso; apply Hex; eauto | reflexivity]).
    rewrite (delete_id _ _ Hnone).
    destruct left, (ghost_indicator (fst s)), w1 as [f c l];
      cbv [ret modify_world modify_self update_status when emit bind fst snd
           set_fs set_log fs clipboard log];
      rewrite ?app_nil_r; reflexivity.
Qed.

(** When the temporary file is there and [os.remove] raises, the exception
    leaves [process_recording] with the state the guarded block ended in. *)
Lemma process_recording_cleanup_fails (env : Env) (s : State) (left : flow) (a1 : App)
    (w1 : World) (e : exn) :
  reaches_transcription (fst s) ->
  guarded_transcription env (fst s) (mktemp env) (concat (audio_data (fst s)))
    (transcribing_state s) = (Normal left, (a1, w1)) ->
  os_remove env = Some e ->
  is_Some (fs w1 !! mktemp env) ->
  process_recording env s = (Raised e, (a1, w1)).
Proof.
  intros Hreach Hg Hrm Hex. rewrite process_recording_long by exact Hreach.
  unfold bind at 1. unfold try_finally. rewrite Hg.
  unfold remove_temp, bind, get_world, path_exists. cbn [fst snd].
  rewrite bool_decide_eq_true_2 by exact Hex. cbn [when].
  unfold remove_file, bind. now rewrite Hrm.
Qed.

(** The guarded block when the recognizer prints a text and the paste
    goes through. *)
Lemma guarded_pastes (env : Env) (a0 : App) (temp_wav : string) (recording : list sample)
    (a : App) (w : World) (stdout : string) :
  recognizer_prints env stdout ->
  PyStr.strip stdout <> "" ->
  pyperclip_copy env = None -> time_sleep env = None ->
  let t := PyStr.strip stdout in
  guarded_transcription env a0 temp_wav recording (a, w)
  = (Normal FallThrough,
     (set_update_queue (update_queue a ++ [UTranscription t]) (set_last_transcription t a),
      mkWorld (<[temp_wav := Wav SAMPLE_RATE recording]> (fs w)) t
        (log w ++ recognizer_call temp_wav
                  :: paste_effects t (settings_get a "paste_delay" (PFloat 0.15%Q))))).
Proof.
  intros [Hwav Hrun] Hne Hcopy Hsleep t.
  destruct (strip_not_blank stdout Hne) as [Hn Hs].
  unfold guarded_transcription, try_except, wav_write_file. rewrite Hwav.
  unfold bind at 1. cbn [modify_world fst snd]. unfold bind at 1.
  rewrite transcribe_runs, Hrun. cbn [Z.eqb]. fold t. fold t in Hn, Hs. rewrite Hn.
  unfold bind at 1. unfold bind at 1. unfold update_transcription at 1.
  cbv [bind modify_self fst snd].
  rewrite (type_text_runs env t _ _ Hn Hs), Hcopy, Hsleep.
  cbv zeta. subst t. rewrite strip_idempotent.
  unfold settings_get. cbn [settings set_update_queue set_last_transcription
                            set_log set_fs fs clipboard log ret].
  now rewrite <- app_assoc.
Qed.

(** The guarded block when the recognizer prints a text and the paste
    fails: the transcription is recorded, then the error. *)
Lemma guarded_paste_fails (env : Env) (a0 : App) (temp_wav : string) (recording : list sample)
    (a : App) (w : World) (stdout : string) (e : exn) :
  recognizer_prints env stdout ->
  PyStr.strip stdout <> "" ->
  paste_fails env e ->
  let t := PyStr.strip stdout in
  guarded_transcription env a0 temp_wav recording (a, w)
  = (Normal Return,
     (set_update_queue (update_queue a ++ [UTranscription t; UStatus STATUS_ERROR (str_of_exn e)])
        (set_current_status STATUS_ERROR (set_last_transcription t a)),
      mkWorld (<[temp_wav := Wav SAMPLE_RATE recording]> (fs w))
        (match pyperclip_copy env with Some _ => clipboard w | None => t end)
        (log w ++ [recognizer_call temp_wav; ClipboardPaste; ClipboardCopy t]
               ++ match pyperclip_copy env with
                  | Some _ => []
                  | None => [Sleep (settings_get a "paste_delay" (PFloat 0.15%Q))]
                  end
               ++ indicator a0 AfterHide))).
Proof.
  intros [Hwav Hrun] Hne Hfail t.
  destruct (strip_not_blank stdout Hne) as [Hn Hs].
  unfold guarded_transcription, try_except, wav_write_file. rewrite Hwav.
  unfold bind at 1. cbn [modify_world fst snd]. unfold bind at 1.
  rewrite transcribe_runs, Hrun. cbn [Z.eqb]. fold t. fold t in Hn, Hs. rewrite Hn.
  unfold bind at 1. unfold bind at 1. unfold update_transcription at 1.
  cbv [bind modify_self fst snd].
  rewrite (type_text_runs env t _ _ Hn Hs).
  cbv zeta. subst t. rewrite strip_idempotent. unfold indicator.
  destruct Hfail as [-> | [-> ->]]; destruct (ghost_indicator a0);
    unfold settings_get, update_status;
    cbv [bind modify_self modify_world emit when ret fst snd set_log set_fs fs clipboard log];
    cbn [settings set_update_queue set_last_transcription set_current_status update_queue];
    rewrite <- ?app_assoc; cbn [app]; rewrite ?app_nil_r; reflexivity.
Qed.

(** The guarded block when the recognizer cannot be launched. *)
Lemma guarded_launch_fails (env : Env) (a0 : App) (temp_wav : string) (recording : list sample)
    (a : App) (w : World) (e : exn) :
  wav_write env = WavWritten ->
  subprocess_run env = Raised e ->
  guarded_transcription env a0 temp_wav recording (a, w)
  = (Normal FallThrough,
     (a, mkWorld (<[temp_wav := Wav SAMPLE_RATE recording]> (fs w)) (clipboard w)
           (log w ++ [recognizer_call temp_wav;
                      Print ("Transcription error: " ++ str_of_exn e)%string]))).
Proof.
  intros Hwav Hrun.
  unfold guarded_transcription, try_except, wav_write_file. rewrite Hwav.
  unfold bind at 1. cbn [modify_world fst snd]. unfold bind at 1.
  rewrite transcribe_runs, Hrun. reflexivity.
Qed.

(** The guarded block when the wave file cannot be written. *)
Lemma guarded_write_fails (env : Env) (a0 : App) (temp_wav : string) (recording : list sample)
    (a : App) (w : World) (e : exn) (file_left : bool) :
  wav_write env = WavFailed e file_left ->
  guarded_transcription env a0 temp_wav recording (a, w)
  = (Normal Return,
     (set_update_queue (update_queue a ++ [UStatus STATUS_ERROR (str_of_exn e)])
        (set_current_status STATUS_ERROR a),
      mkWorld (if file_left then <[temp_wav := Opaque]> (fs w) else fs w) (clipboard w)
        (log w ++ indicator a0 AfterHide))).
Proof.
  intros Hwav. unfold guarded_transcription, try_except, wav_write_file, indicator.
  rewrite Hwav.
  destruct file_left, (ghost_indicator a0), w as [f c l];
    cbv [bind modify_self modify_world emit when ret raise update_status fst snd
         set_log set_fs fs clipboard log];
    rewrite ?app_nil_r; reflexivity.
Qed.

(** X12: when the wave file is written, the recognizer exits with code 0
    and prints a text that is not blank, and the copy, the sleep and the
    removal of the temporary file succeed, [process_recording] returns
    normally; the stripped text is recorded as the last transcription and
    left on the clipboard (the old contents are read but never put back);
    the queue gains transcribing, the transcription and ready, in that
    order; and the outside calls are, in order: the indicator asked to show
    transcribing, the recognizer, the clipboard read, the copy of the text,
    the sleep of the stored paste delay, control down, v down, v up, control
    up, and the indicator asked to hide. *)
Theorem transcription_is_pasted (env : Env) (s : State) (stdout : string) :
  reaches_transcription (fst s) ->
  recognizer_prints env stdout ->
  PyStr.strip stdout <> "" ->
  paste_succeeds env ->
  let t := PyStr.strip stdout in
  let s' := exec (process_recording env) s in
  result (process_recording env) s = Normal tt
  /\ update_queue (fst s')
     = update_queue (fst s)
       ++ [UStatus STATUS_TRANSCRIBING ""; UTranscription t; UStatus STATUS_READY ""]
  /\ last_transcription (fst s') = t
  /\ current_status (fst s') = STATUS_READY
  /\ clipboard (snd s') = t
  /\ log (snd s')
     = log (snd s) ++ indicator (fst s) (AfterShow "transcribing")
       ++ recognizer_call (mktemp env)
          :: paste_effects t (settings_get (fst s) "paste_delay" (PFloat 0.15%Q))
       ++ indicator (fst s) AfterHide.
Proof.
  intros Hreach Hprints Hne (Hcopy & Hsleep & Hrm) t s'. subst s'. unfold exec, result.
  rewrite (process_recording_ends env s FallThrough _ _ Hreach
             (guarded_pastes env _ _ _ _ _ stdout Hprints Hne Hcopy Hsleep) Hrm).
  destruct s as [a w]. unfold indicator, settings_get.
  cbn [fst snd update_queue last_transcription current_status clipboard log settings
       set_update_queue set_last_transcription set_current_status set_log].
  rewrite <- !app_assoc.
  repeat split.
Qed.

Lemma transcription_is_pasted_witness :
  let s' := exec (process_recording calm) (with_audio half_second started) in
  clipboard (snd s') = "hello"%string /\ last_transcription (fst s') = "hello"%string.
Proof.
  destruct (transcription_is_pasted calm (with_audio half_second started) "hello"
              half_second_reaches (conj eq_refl eq_refl) ltac:(vm_compute; discriminate)
              (conj eq_refl (conj eq_refl eq_refl)))
    as (_ & _ & Hlast & _ & Hclip & _).
  exact (conj Hclip Hlast).
Defined.

(** X13: when the recognizer printed a text and the paste fails, by
    [pyperclip.copy] or by [time.sleep] after it, [process_recording] still
    records the transcription and enqueues it, then reports the error: the
    queue gains transcribing, the transcription and an error status with the
    text of the exception, the status is error, and no key is pressed.  The
    clipboard keeps its contents when the copy failed and holds the text when
    the sleep failed.  The temporary file is gone and the call returns. *)
Theorem paste_failure_is_reported (env : Env) (s : State) (stdout : string) (e : exn) :
  reaches_transcription (fst s) ->
  recognizer_prints env stdout ->
  PyStr.strip stdout <> "" ->
  paste_fails env e ->
  os_remove env = None ->
  let t := PyStr.strip stdout in
  let s' := exec (process_recording env) s in
  result (process_recording env) s = Normal tt
  /\ update_queue (fst s')
     = update_queue (fst s)
       ++ [UStatus STATUS_TRANSCRIBING ""; UTranscription t;
           UStatus STATUS_ERROR (str_of_exn e)]
  /\ current_status (fst s') = STATUS_ERROR
  /\ last_transcription (fst s') = t
  /\ calls is_keystroke (snd s') = calls is_keystroke (snd s)
  /\ calls is_clipboard_copy (snd s') = calls is_clipboard_copy (snd s) ++ [ClipboardCopy t]
  /\ clipboard (snd s')
     = match pyperclip_copy env with Some _ => clipboard (snd s) | None => t end
  /\ fs (snd s') !! mktemp env = None.
Proof.
  intros Hreach Hprints Hne Hfail Hrm t s'. subst s'. unfold exec, result.
  rewrite (process_recording_ends env s Return _ _ Hreach
             (guarded_paste_fails env _ _ _ _ _ stdout e Hprints Hne Hfail) Hrm).
  destruct s as [a w]. unfold indicator, calls.
  cbn [fst snd update_queue last_transcription current_status clipboard log fs
       set_update_queue set_last_transcription set_current_status set_log set_fs].
  rewrite <- !app_assoc, !filter_app, lookup_delete_eq.
  destruct (ghost_indicator a), (pyperclip_copy env); cbn; rewrite ?app_nil_r; repeat split.
Qed.

Lemma paste_failure_is_reported_witness :
  let env := mkEnv None "rec.wav" WavWritten (Normal (0%Z, "hello")) None
               (Some (Exception "no clipboard")) None None None None (fun _ => None) in
  let s' := exec (process_recording env) (with_audio half_second started) in
  current_status (fst s') = STATUS_ERROR /\ calls is_keystroke (snd s') = [].
Proof.
  destruct (paste_failure_is_reported
              (mkEnv None "rec.wav" WavWritten (Normal (0%Z, "hello")) None
                 (Some (Exception "no clipboard")) None None None None (fun _ => None))
              (with_audio half_second started) "hello" (Exception "no clipboard")
              half_second_reaches (conj eq_refl eq_refl) ltac:(vm_compute; discriminate)
              (or_introl eq_refl) eq_refl)
    as (_ & _ & Hstatus & _ & Hkeys & _).
  split; [exact Hstatus | exact Hkeys].
Defined.

(** X14: when the recognizer cannot be launched ([subprocess.run]
    raises), [transcribe] prints the exception and [process_recording] goes
    on as if nothing had been said: apart from the requests to the
    indicator the outside calls are the recognizer call and that one
    message, the queue gains transcribing and ready, the status ends ready
    and the clipboard is untouched.  No error status is reported. *)
Theorem launch_failure_is_only_printed (env : Env) (s : State) (e : exn) :
  reaches_transcription (fst s) ->
  wav_write env = WavWritten ->
  subprocess_run env = Raised e ->
  os_remove env = None ->
  let s' := exec (process_recording env) s in
  result (process_recording env) s = Normal tt
  /\ log (snd s')
     = log (snd s) ++ indicator (fst s) (AfterShow "transcribing")
       ++ [recognizer_call (mktemp env);
           Print ("Transcription error: " ++ str_of_exn e)%string]
       ++ indicator (fst s) AfterHide
  /\ update_queue (fst s')
     = update_queue (fst s) ++ [UStatus STATUS_TRANSCRIBING ""; UStatus STATUS_READY ""]
  /\ current_status (fst s') = STATUS_READY
  /\ clipboard (snd s') = clipboard (snd s).
Proof.
  intros Hreach Hwav Hrun Hrm s'. subst s'. unfold exec, result.
  rewrite (process_recording_ends env s FallThrough _ _ Hreach
             (guarded_launch_fails env _ _ _ _ _ e Hwav Hrun) Hrm).
  destruct s as [a w]. unfold indicator.
  cbn [fst snd update_queue current_status clipboard log
       set_update_queue set_current_status set_log].
  rewrite <- !app_assoc. repeat split.
Qed.

Lemma launch_failure_is_only_printed_witness :
  let env := mkEnv None "rec.wav" WavWritten (Raised (Exception "not found")) None None None
               None None None (fun _ => None) in
  let s' := exec (process_recording env) (with_audio half_second started) in
  current_status (fst s') = STATUS_READY.
Proof.
  exact (proj1 (proj2 (proj2 (proj2
    (launch_failure_is_only_printed
       (mkEnv None "rec.wav" WavWritten (Raised (Exception "not found")) None None None
          None None None (fun _ => None))
       (with_audio half_second started) (Exception "not found")
       half_second_reaches eq_refl eq_refl eq_refl))))).
Defined.

(** X15: when [wav.write] raises, with or without a partial file left
    behind, [process_recording] does not run the recognizer: it makes no
    outside call but the requests to the indicator, enqueues transcribing
    and then an error status with the text of the exception, ends with the
    status error, and the temporary file does not exist when it returns. *)
Theorem write_failure_is_reported (env : Env) (s : State) (e : exn) (file_left : bool) :
  reaches_transcription (fst s) ->
  wav_write env = WavFailed e file_left ->
  os_remove env = None ->
  let s' := exec (process_recording env) s in
  result (process_recording env) s = Normal tt
  /\ log (snd s')
     = log (snd s) ++ indicator (fst s) (AfterShow "transcribing")
       ++ indicator (fst s) AfterHide
  /\ update_queue (fst s')
     = update_queue (fst s)
       ++ [UStatus STATUS_TRANSCRIBING ""; UStatus STATUS_ERROR (str_of_exn e)]
  /\ current_status (fst s') = STATUS_ERROR
  /\ fs (snd s') !! mktemp env = None.
Proof.
  intros Hreach Hwav Hrm s'. subst s'. unfold exec, result.
  rewrite (process_recording_ends env s Return _ _ Hreach
             (guarded_write_fails env _ _ _ _ _ e file_left Hwav) Hrm).
  destruct s as [a w]. unfold indicator.
  cbn [fst snd update_queue current_status clipboard log fs
       set_update_queue set_current_status set_log].
  rewrite <- !app_assoc, app_nil_r, lookup_delete_eq. repeat split.
Qed.

Lemma write_failure_is_reported_witness :
  let env := mkEnv None "rec.wav" (WavFailed (Exception "disk full") true)
               (Normal (0%Z, "hello")) None None None None None None (fun _ => None) in
  let s' := exec (process_recording env) (with_audio half_second started) in
  current_status (fst s') = STATUS_ERROR /\ fs (snd s') !! "rec.wav" = None.
Proof.
  destruct (write_failure_is_reported
              (mkEnv None "rec.wav" (WavFailed (Exception "disk full") true)
                 (Normal (0%Z, "hello")) None None None None None None (fun _ => None))
              (with_audio half_second started) (Exception "disk full") true
              half_second_reaches eq_refl eq_refl)
    as (_ & _ & _ & Hstatus & Hgone).
  exact (conj Hstatus Hgone).
Defined.

(** With the wave file written and a paste that goes through, the guarded
    block falls through whatever the recognizer does: it keeps the status,
    asks nothing of the indicator, and leaves the temporary file. *)
Lemma guarded_falls_through (env : Env) (a0 : App) (temp_wav : string)
    (recording : list sample) (a : App) (w : World) :
  wav_write env = WavWritten ->
  pyperclip_copy env = None -> time_sleep env = None ->
  exists a1 w1,
    guarded_transcription env a0 temp_wav recording (a, w) = (Normal FallThrough, (a1, w1))
    /\ current_status a1 = current_status a
    /\ fs w1 !! temp_wav = Some (Wav SAMPLE_RATE recording)
    /\ calls is_hide w1 = calls is_hide w.
Proof.
  intros Hwav Hcopy Hsleep.
  destruct (subprocess_run env) as [[returncode stdout] | e] eqn:Hrun.
  - destruct (decide (returncode <> 0%Z \/ PyStr.strip stdout = "")) as [Hnone | Htext].
    + rewrite (guarded_without_text env a0 temp_wav recording (a, w) returncode stdout
                 Hwav Hrun Hnone).
      eexists _, _. split; [reflexivity |]. cbn [fst snd]. unfold calls.
      cbn [set_log set_fs fs log]. rewrite lookup_insert_eq, filter_app.
      cbn. rewrite app_nil_r. auto.
    + assert (returncode = 0%Z /\ PyStr.strip stdout <> "") as [-> Hne].
      { split; [destruct (decide (returncode = 0%Z)); [assumption | tauto] | tauto]. }
      rewrite (guarded_pastes env a0 temp_wav recording a w stdout (conj Hwav Hrun) Hne
                 Hcopy Hsleep).
      eexists _, _. split; [reflexivity |]. unfold calls, paste_effects, paste_keys.
      cbn [fs log current_status set_update_queue set_last_transcription].
      rewrite lookup_insert_eq, filter_app. cbn. rewrite app_nil_r. auto.
  - rewrite (guarded_launch_fails env a0 temp_wav recording a w e Hwav Hrun).
    eexists _, _. split; [reflexivity |]. unfold calls.
    cbn [fs log]. rewrite lookup_insert_eq, filter_app. cbn. rewrite app_nil_r. auto.
Qed.

(** X16: when the wave file was written and the paste (if any) went
    through, but [os.remove] raises in the [finally] clause, the exception
    leaves [process_recording]: the status stays transcribing, the
    indicator is not asked to hide, and the temporary file is still there,
    whatever the recognizer did. *)
Theorem failed_cleanup_leaves_transcribing (env : Env) (s : State) (e : exn) :
  reaches_transcription (fst s) ->
  wav_write env = WavWritten ->
  pyperclip_copy env = None -> time_sleep env = None ->
  os_remove env = Some e ->
  let s' := exec (process_recording env) s in
  result (process_recording env) s = Raised e
  /\ current_status (fst s') = STATUS_TRANSCRIBING
  /\ calls is_hide (snd s') = calls is_hide (snd s)
  /\ is_Some (fs (snd s') !! mktemp env).
Proof.
  intros Hreach Hwav Hcopy Hsleep Hrm s'. subst s'. unfold exec, result.
  destruct s as [a w].
  destruct (guarded_falls_through env a (mktemp env) (concat (audio_data a))
              (fst (transcribing_state (a, w))) (snd (transcribing_state (a, w)))
              Hwav Hcopy Hsleep) as (a1 & w1 & Hg & Hstatus & Hfile & Hhide).
  rewrite (process_recording_cleanup_fails env (a, w) FallThrough a1 w1 e Hreach Hg Hrm)
    by (rewrite Hfile; eauto).
  cbn [fst snd]. rewrite Hstatus, Hhide, Hfile.
  unfold transcribing_state, calls.
  cbn [fst snd current_status set_update_queue set_current_status set_log log].
  rewrite filter_app. destruct (ghost_indicator a); cbn; rewrite ?app_nil_r; eauto.
Qed.

Lemma failed_cleanup_leaves_transcribing_witness :
  let env := mkEnv None "rec.wav" WavWritten (Normal (0%Z, "hello")) None None None
               (Some (Exception "in use")) None None (fun _ => None) in
  let s := with_audio half_second started in
  result (process_recording env) s = Raised (Exception "in use")
  /\ current_status (fst (exec (process_recording env) s)) = STATUS_TRANSCRIBING.
Proof.
  destruct (failed_cleanup_leaves_transcribing
              (mkEnv None "rec.wav" WavWritten (Normal (0%Z, "hello")) None None None
                 (Some (Exception "in use")) None None (fun _ => None))
              (with_audio half_second started) (Exception "in use")
              half_second_reaches eq_refl eq_refl eq_refl eq_refl)
    as (Hraised & Hstatus & _).
  exact (conj Hraised Hstatus).
Defined.

Lemma bind_normal {A B} (P : B -> Prop) (m : M A) (k : A -> M B) (s s' : State) (r : B) :
  (forall x s1, k x s1 = (Normal r, s') -> P r) ->
  bind m k s = (Normal r, s') -> P r.
Proof.
  unfold bind. intros Hk. destruct (m s) as [[x | e] s1]; [apply Hk | discriminate].
Qed.

(** The guarded block always ends normally; when it ends by its [return]
    the error status was the last thing set and enqueued and the last
    request to the indicator, if there is one, was to hide. *)
Lemma guarded_transcription_result (env : Env) (a0 : App) (temp_wav : string)
    (recording : list sample) (s : State) :
  exists left a1 w1,
    guarded_transcription env a0 temp_wav recording s = (Normal left, (a1, w1))
    /\ (left = Return ->
        current_status a1 = STATUS_ERROR
        /\ (exists message, last (update_queue a1) = Some (UStatus STATUS_ERROR message))
        /\ (ghost_indicator a0 = true -> last (log w1) = Some AfterHide)).
Proof.
  unfold guarded_transcription, try_except.
  match goal with |- context [match ?body s with _ => _ end] =>
    destruct (body s) as [[left | e] [a1 w1]] eqn:Hbody
  end.
  - exists left, a1, w1. split; [reflexivity |]. intros ->. exfalso.
    apply (bind_normal (fun r => r = FallThrough)) in Hbody; [discriminate |].
    intros _ s1. apply (bind_normal (fun r => r = FallThrough)).
    intros text s2. apply (bind_normal (fun r => r = FallThrough)).
    intros _ s3. unfold ret. congruence.
  - unfold update_status, indicator.
    cbv [bind modify_self fst snd].
    destruct (ghost_indicator a0);
      cbv [when emit modify_world ret fst snd];
      eexists _, _, _; (split; [reflexivity |]); intros _;
      cbn [current_status update_queue log set_update_queue set_current_status set_log];
      rewrite ?last_snoc; eauto.
    split; [reflexivity | split; [eauto | discriminate]].
Qed.

(** A call whose cleanup succeeds returns with the status ready or error,
    that status being the last update enqueued and the last request to the
    indicator being to hide. *)
Lemma process_recording_last_update (env : Env) (s : State) :
  os_remove env = None ->
  let s' := exec (process_recording env) s in
  result (process_recording env) s = Normal tt
  /\ (current_status (fst s') = STATUS_READY \/ current_status (fst s') = STATUS_ERROR)
  /\ (exists message,
        last (update_queue (fst s')) = Some (UStatus (current_status (fst s')) message))
  /\ (ghost_indicator (fst s) = true -> last (log (snd s')) = Some AfterHide).
Proof.
  intros Hrm s'. subst s'. unfold exec, result. destruct s as [a w]. cbn [fst].
  destruct (length (audio_data a) =? 0)%nat eqn:G1;
    [| destruct (too_short (concat (audio_data a))) eqn:G2].
  - unfold process_recording, bind, get_self, update_status. cbn [fst snd]. rewrite G1.
    destruct (ghost_indicator a);
      cbv [when emit modify_world modify_self ret fst snd];
      cbn [current_status update_queue log set_update_queue set_current_status set_log];
      (split; [reflexivity |]); (split; [now left |]);
      (split; [eexists; apply last_snoc |]);
      intros Hg; first [discriminate Hg | apply last_snoc].
  - unfold process_recording, bind, get_self, update_status. cbn [fst snd]. rewrite G1, G2.
    destruct (ghost_indicator a);
      cbv [when emit modify_world modify_self ret fst snd];
      cbn [current_status update_queue log set_update_queue set_current_status set_log];
      (split; [reflexivity |]); (split; [now left |]);
      (split; [eexists; apply last_snoc |]);
      intros Hg; first [discriminate Hg | apply last_snoc].
  - assert (Hreach : reaches_transcription (fst (a, w))).
    { split; cbn [fst].
      - intros Hnil. rewrite Hnil in G1. discriminate.
      - apply Qnot_lt_le. intros Hlt. apply too_short_duration in Hlt. congruence. }
    destruct (guarded_transcription_result env a (mktemp env) (concat (audio_data a))
                (transcribing_state (a, w))) as (left & a1 & w1 & Hg & Hret).
    rewrite (process_recording_ends env (a, w) left a1 w1 Hreach Hg Hrm).
    cbn [fst snd log]. unfold indicator. destruct left.
    + cbn [current_status update_queue set_update_queue set_current_status].
      rewrite last_snoc. split; [reflexivity |]. split; [now left |]. split; [eauto |].
      intros ->. now rewrite last_snoc.
    + destruct (Hret eq_refl) as (Hstatus & Hlast & Hhide).
      rewrite Hstatus, app_nil_r. split; [reflexivity |]. split; [now right |].
      split; [exact Hlast | exact Hhide].
Qed.

(** ** The window after a transcription *)

Lemma apply_update_ui (u : update) (a : App) (w : World) :
  exists v, apply_update u (a, w) = (Normal tt, (set_ui v a, w)).
Proof.
  destruct u;
    cbv [apply_update _update_status_ui _update_transcription_ui bind get_self
         modify_self fst snd];
    eexists; reflexivity.
Qed.

Lemma apply_in_order_ui (us : list update) (a : App) (w : World) :
  exists v, apply_in_order us (a, w) = (Normal tt, (set_ui v a, w)).
Proof.
  revert a. induction us as [|u us IH]; intros a.
  - exists (ui a). now destruct a.
  - cbn [apply_in_order]. unfold bind.
    destruct (apply_update_ui u a w) as [v ->]. destruct (IH (set_ui v a)) as [v' ->].
    now exists v'.
Qed.

Lemma apply_in_order_app (us vs : list update) (s : State) :
  apply_in_order (us ++ vs) s = bind (apply_in_order us) (fun _ => apply_in_order vs) s.
Proof.
  revert s. induction us as [|u us IH]; intros s; [reflexivity |].
  cbn [app apply_in_order]. unfold bind in *.
  destruct (apply_update u s) as [[[] | e] s1]; [apply IH | reflexivity].
Qed.

(** One poll empties the queue and changes nothing else of the application
    but the widgets; the last status in the queue, when it is ready or
    error, decides what they show. *)
Lemma poll_updates_runs (a : App) (w : World) :
  exists v,
    poll_updates (a, w)
    = (Normal tt, (set_ui v (set_update_queue [] a),
                   if root a then set_log (log w ++ [AfterPoll]) w else w))
    /\ forall us state message,
         update_queue a = us ++ [UStatus state message] ->
         (state = STATUS_READY -> v = ready_window a)
         /\ (state = STATUS_ERROR -> v = error_window message).
Proof.
  rewrite poll_updates_applies. unfold bind at 1.
  destruct (apply_in_order_ui (update_queue a) (set_update_queue [] a) w) as [v E].
  rewrite E. exists v. split; [now destruct (root a) |].
  intros us state message Hq. rewrite Hq, apply_in_order_app in E. unfold bind at 1 in E.
  destruct (apply_in_order_ui us (set_update_queue [] a) w) as [v0 E0]. rewrite E0 in E.
  cbn [apply_in_order apply_update] in E. unfold bind at 1 in E.
  unfold _update_status_ui, bind, get_self, modify_self in E. cbn [fst snd ret] in E.
  injection E as <-.
  split; intros ->; reflexivity.
Qed.

(** X17: whatever the recording holds and whatever the outside calls
    do, as long as [os.remove] does not raise, [process_recording] returns
    normally with the status ready or error; that status is the last update
    in the queue and the last outside call, if there is an indicator, is the
    request to hide it.  The next poll then shows "Ready" with the hint for
    the stored hotkey, or "Error" with a message: the transcribed text
    itself is never what the window is left showing. *)
Theorem process_recording_settles (env : Env) (s : State) :
  os_remove env = None ->
  let s1 := exec (process_recording env) s in
  let s2 := exec poll_updates s1 in
  result (process_recording env) s = Normal tt
  /\ (ghost_indicator (fst s) = true -> last (log (snd s1)) = Some AfterHide)
  /\ (exists message,
        last (update_queue (fst s1)) = Some (UStatus (current_status (fst s1)) message))
  /\ ((current_status (fst s2) = STATUS_READY /\ ui (fst s2) = ready_window (fst s))
      \/ (current_status (fst s2) = STATUS_ERROR
          /\ exists message, ui (fst s2) = error_window message)).
Proof.
  intros Hrm s1 s2.
  destruct (process_recording_last_update env s Hrm) as (Hres & Hstatus & [message Hlast] & Hhide).
  fold s1 in Hstatus, Hlast, Hhide.
  split; [exact Hres |]. split; [exact Hhide |]. split; [eauto |].
  assert (Hset : settings (fst s1) = settings (fst s)).
  { apply (process_recording_keeps (fun a => settings a = settings (fst s))
             ltac:(intros; congruence) env s eq_refl). }
  destruct (update_queue (fst s1)) as [|u q] eqn:Hq using rev_ind; [discriminate |].
  clear IHq. rewrite last_snoc in Hlast. injection Hlast as ->.
  subst s2. destruct s1 as [a1 w1]. cbn [fst] in *.
  destruct (poll_updates_runs a1 w1) as (v & E & Hv). unfold exec. rewrite E.
  destruct (Hv q _ message Hq) as [Hready Herror].
  cbn [fst snd current_status ui set_ui set_update_queue].
  destruct Hstatus as [Est | Est]; rewrite Est in *.
  - left. split; [reflexivity |]. rewrite Hready by reflexivity.
    unfold ready_window, settings_get. now rewrite Hset.
  - right. split; [reflexivity |]. exists message. now apply Herror.
Qed.

Lemma process_recording_settles_witness :
  let s1 := exec (process_recording calm) (with_audio half_second started) in
  exists message, last (update_queue (fst s1)) = Some (UStatus (current_status (fst s1)) message).
Proof.
  exact (proj1 (proj2 (proj2 (process_recording_settles calm (with_audio half_second started)
                                eq_refl)))).
Defined.

(** ** The start-up entry of the registry *)

(** X18: [update_startup_registry] touches no value of the Run key but
    "GhostWriter", whatever fails.  When it prints nothing, the value
    exists afterwards exactly when the entry was enabled; when it prints an
    error, the key is as before.  A later call that disables the entry and
    prints nothing leaves the key as it was to begin with, minus that value:
    disabling an entry that is not there is silent. *)
Theorem startup_entry_is_the_only_value_touched (renv renv2 : RegistryEnv) (enabled : bool)
    (run_key : gmap string string) :
  let after := update_startup_registry renv enabled run_key in
  let undone := update_startup_registry renv2 false (fst after) in
  (forall name, name <> "GhostWriter"%string -> fst after !! name = run_key !! name)
  /\ (snd after = [] -> (is_Some (fst after !! "GhostWriter"%string) <-> enabled = true))
  /\ (snd after <> [] -> fst after = run_key)
  /\ (snd after = [] -> snd undone = [] ->
      fst undone = delete "GhostWriter"%string run_key).
Proof.
  assert (Hundo : forall k,
            snd (update_startup_registry renv2 false k) = [] ->
            fst (update_startup_registry renv2 false k) = delete "GhostWriter"%string k).
  { intros k. unfold update_startup_registry.
    destruct (open_key renv2); cbn [fst snd]; [discriminate |].
    destruct (k !! "GhostWriter"%string) eqn:Hv; cbn [fst snd].
    - destruct (delete_value renv2); cbn [fst snd]; [discriminate | reflexivity].
    - intros _. symmetry. now apply delete_id. }
  intros after undone. subst undone.
  split; [| split; [| split]]; [| | | intros Hq Hq2; rewrite (Hundo _ Hq2); revert Hq];
    subst after; unfold update_startup_registry;
    (destruct (open_key renv) as [e0 |]; cbn [fst snd];
     [try discriminate; try tauto |]);
    destruct enabled.
  - destruct (set_value renv); cbn [fst snd]; [tauto |].
    intros name Hne. now rewrite lookup_insert_ne.
  - destruct (run_key !! "GhostWriter"%string); [destruct (delete_value renv) |];
      cbn [fst snd]; try tauto.
    intros name Hne. now rewrite lookup_delete_ne.
  - destruct (set_value renv); cbn [fst snd]; [discriminate |].
    intros _. rewrite lookup_insert_eq. split; eauto.
  - destruct (run_key !! "GhostWriter"%string) eqn:Hv; [destruct (delete_value renv) |];
      cbn [fst snd]; try discriminate; intros _; rewrite ?lookup_delete_eq, ?Hv;
      (split; [intros [? ?] |]; discriminate).
  - destruct (set_value renv); cbn [fst snd]; [reflexivity | intros H; now destruct H].
  - destruct (run_key !! "GhostWriter"%string); [destruct (delete_value renv) |];
      cbn [fst snd]; try reflexivity. intros H; now destruct H.
  - destruct (set_value renv); cbn [fst snd]; [discriminate |].
    intros _. apply delete_insert_eq.
  - destruct (run_key !! "GhostWriter"%string) eqn:Hv; [destruct (delete_value renv) |];
      cbn [fst snd]; try discriminate; intros _; [apply delete_delete_eq | reflexivity].
Qed.

(** ** Changing the hotkey *)

Lemma save_settings_runs (env : Env) (a : App) (w : World) :
  exists w', save_settings env (a, w) = (Normal tt, (a, w'))
             /\ calls is_listener_call w' = calls is_listener_call w
             /\ clipboard w' = clipboard w.
Proof.
  unfold save_settings, try_except, calls.
  destruct (open_settings env);
    cbv [bind may_raise raise ret get_self modify_world emit fst snd];
    eexists; (split; [reflexivity |]); cbn [set_log set_fs log clipboard];
    rewrite ?filter_app; cbn; rewrite ?app_nil_r; auto.
Qed.

Lemma on_hotkey_changed_runs (env : Env) (choice : string) (a : App) (w : World) :
  let a1 := set_settings (<["hotkey" := PStr choice]> (settings a)) a in
  exists w1,
    calls is_listener_call w1 = calls is_listener_call w
    /\ on_hotkey_changed env choice (a, w)
       = start_keyboard_listener env
           (fst (exec (_update_status_ui (current_status a) "") (a1, w1)),
            set_log (log w1 ++ [StopListener]) w1).
Proof.
  intros a1. destruct (save_settings_runs env a1 w) as (w1 & E & Hcalls & _).
  exists w1. split; [exact Hcalls |].
  unfold on_hotkey_changed. unfold bind at 1. cbn [settings_setitem modify_self fst snd].
  fold a1. unfold bind at 1. rewrite E. unfold bind at 1. cbn [get_self fst snd].
  unfold bind at 1. reflexivity.
Qed.

(** X19: [on_hotkey_changed] returns normally.  It refreshes the window
    at once with the current status and an empty message: in the ready state
    the hint then names the new hotkey, and in the error state the error
    text is blanked.  It stops the listener and starts the audio stream,
    and then the key listener only if the stream started.  A failure of
    either start is reported as an error status "Failed to start: ..." in the
    queue; otherwise status and queue are as before. *)
Theorem hotkey_change_refreshes_and_restarts (env : Env) (choice : string) (s : State) :
  let s' := exec (on_hotkey_changed env choice) s in
  result (on_hotkey_changed env choice) s = Normal tt
  /\ (current_status (fst s) = STATUS_READY ->
      ui (fst s') = mkUi "#888888" "Ready" (Some "white") (PressHint (PStr choice)))
  /\ (current_status (fst s) = STATUS_ERROR -> ui (fst s') = error_window "")
  /\ calls is_listener_call (snd s')
     = calls is_listener_call (snd s)
       ++ StopListener :: StartStream
          :: match start_stream env with Some _ => [] | None => [StartListener] end
  /\ match listener_failure env with
     | Some e =>
         current_status (fst s') = STATUS_ERROR
         /\ update_queue (fst s')
            = update_queue (fst s)
              ++ [UStatus STATUS_ERROR ("Failed to start: " ++ str_of_exn e)%string]
     | None =>
         current_status (fst s') = current_status (fst s)
         /\ update_queue (fst s') = update_queue (fst s)
     end.
Proof.
  destruct s as [a w]. cbv zeta. unfold exec, result.
  destruct (on_hotkey_changed_runs env choice a w) as (w1 & Hcalls & ->).
  cbv zeta. rewrite start_keyboard_listener_ends. cbn [fst snd].
  unfold exec, _update_status_ui, bind, get_self, modify_self. cbn [fst snd].
  split; [reflexivity |].
  split; [| split; [| split]].
  - intros ->. destruct (listener_failure env);
      cbn [ui set_ui set_update_queue set_current_status];
      unfold settings_get; cbn [settings set_settings]; rewrite lookup_insert_eq; reflexivity.
  - intros ->. destruct (listener_failure env); reflexivity.
  - unfold calls in *. cbn [log set_log]. rewrite !filter_app, Hcalls, <- app_assoc.
    now destruct (start_stream env).
  - destruct (listener_failure env); split; reflexivity.
Qed.

(** ** One dictation, end to end *)

Lemma start_recording_log (a : App) (w : World) :
  files_ok a = true ->
  start_recording (a, w)
  = (Normal tt,
     (set_update_queue (update_queue a ++ [UStatus STATUS_RECORDING ""])
        (set_current_status STATUS_RECORDING (set_audio_data [] (set_is_recording true a))),
      set_log (log w ++ indicator a (AfterShow "recording") ++ tone a START_BEEP) w)).
Proof.
  intros Hf. unfold start_recording, update_status, bind, get_self, indicator, tone.
  cbn [fst snd]. rewrite Hf. cbn [negb].
  destruct (ghost_indicator a), (truthy (settings_get a "sound_enabled" (PBool true)));
    cbn [when modify_self fst snd]; unfold emit, modify_world, ret, set_log;
    cbn [log fs clipboard fst snd app]; rewrite <- ?app_assoc, ?app_nil_r;
    try reflexivity.
  now destruct w.
Qed.

Lemma stop_recording_log (a : App) (w : World) :
  is_recording a = true ->
  stop_recording (a, w)
  = (Normal tt,
     (set_is_recording false a, set_log (log w ++ tone a STOP_BEEP ++ [StartWorker]) w)).
Proof.
  intros Hr. unfold stop_recording, bind, get_self, tone. cbn [fst snd].
  rewrite Hr. cbn [negb].
  destruct (truthy (settings_get a "sound_enabled" (PBool true)));
    cbn [when modify_self fst snd]; unfold emit, modify_world, ret, set_log;
    cbn [log fs clipboard fst snd app]; rewrite <- ?app_assoc; reflexivity.
Qed.

Lemma dictation_runs (env : Env) (a : App) (w : World) (blocks : list chunk)
    (stdout : string) :
  files_ok a = true ->
  is_recording a = false ->
  reaches_transcription (set_audio_data blocks a) ->
  recognizer_prints env stdout ->
  PyStr.strip stdout <> "" ->
  paste_succeeds env ->
  let t := PyStr.strip stdout in
  run_events (dictation env blocks) (a, w)
  = (set_ui (ready_window a)
       (set_update_queue []
          (set_current_status STATUS_READY
             (set_last_transcription t (set_audio_data blocks (set_is_recording false a))))),
     mkWorld
       (delete (mktemp env) (<[mktemp env := Wav SAMPLE_RATE (concat blocks)]> (fs w))) t
       (log w ++ indicator a (AfterShow "recording") ++ tone a START_BEEP
              ++ tone a STOP_BEEP ++ [StartWorker]
              ++ indicator a (AfterShow "transcribing")
              ++ recognizer_call (mktemp env)
                 :: paste_effects t (settings_get a "paste_delay" (PFloat 0.15%Q))
              ++ indicator a AfterHide
              ++ (if root a then [AfterPoll] else []))).
Proof.
  intros Hf Hidle Hreach Hprints Hne (Hcopy & Hsleep & Hrm) t.
  unfold dictation, run_events. cbn [fold_left]. rewrite fold_left_app. cbn [fold_left].
  (* the tray entry starts the recording *)
  unfold step at 5. cbn [fst snd handle]. unfold exec at 1, toggle_recording, bind at 1, get_self.
  cbn [fst snd]. rewrite Hidle, (start_recording_log a w Hf). cbn [snd].
  (* the blocks arrive *)
  change (fold_left step (deliver env blocks)) with (run_events (deliver env blocks)).
  rewrite deliver_while_recording by reflexivity.
  cbn [audio_data set_audio_data set_update_queue set_current_status set_is_recording app].
  (* the tray entry stops it *)
  unfold step at 3. cbn [fst snd handle]. unfold exec at 1, toggle_recording, bind at 1, get_self.
  cbn [fst snd is_recording set_audio_data]. rewrite stop_recording_log by reflexivity.
  cbn [snd].
  (* the worker runs *)
  unfold step at 2. cbn [fst snd handle]. unfold exec at 1.
  match goal with |- context [process_recording env (?a3, ?w3)] =>
    rewrite (process_recording_ends env (a3, w3) FallThrough _ _ Hreach
               (guarded_pastes env _ _ _ _ _ stdout Hprints Hne Hcopy Hsleep) Hrm)
  end.
  cbn [snd].
  (* the timer ticks *)
  unfold step. cbn [fst snd handle]. unfold exec.
  match goal with |- context [poll_updates (?a4, ?w4)] =>
    destruct (poll_updates_runs a4 w4) as (v & E & Hv); rewrite E;
    destruct (Hv (update_queue a ++ [UStatus STATUS_RECORDING "";
                                     UStatus STATUS_TRANSCRIBING "";
                                     UTranscription (PyStr.strip stdout)])
                STATUS_READY ""%string) as [Hready _];
    [cbn [update_queue set_update_queue set_last_transcription set_current_status
          set_is_recording set_audio_data fst];
     rewrite <- !app_assoc; reflexivity |]
  end.
  rewrite (Hready eq_refl). clear E Hv Hready. subst t.
  unfold ready_window, settings_get, indicator, tone.
  cbn [fst snd settings root ghost_indicator set_ui set_update_queue set_last_transcription
       set_current_status set_is_recording set_audio_data set_log log fs clipboard].
  destruct (root a), (ghost_indicator a),
    (truthy (default (PBool true) (settings a !! "sound_enabled")));
    cbn [clipboard log set_log fs app]; rewrite <- ?app_assoc; cbn [app];
    reflexivity.
Qed.

(** X20: one dictation, end to end.  With the required files in place
    and no recording going on, the tray entry, half a second or more of
    audio blocks, the tray entry again, the worker thread and one timer tick
    (the recognizer printing a text that is not blank and the paste
    succeeding) leave the stripped text on the clipboard, pasted by one
    control-v keystroke after exactly one recognizer call on the temporary
    file, which is gone; the text is the last transcription, the status is
    ready, the window shows the ready hint, the queue is empty, the
    recording flag is off and the buffer holds the blocks delivered. *)
Theorem dictation_end_to_end (env : Env) (s : State) (blocks : list chunk) (stdout : string) :
  files_ok (fst s) = true ->
  is_recording (fst s) = false ->
  reaches_transcription (set_audio_data blocks (fst s)) ->
  recognizer_prints env stdout ->
  PyStr.strip stdout <> "" ->
  paste_succeeds env ->
  let t := PyStr.strip stdout in
  let s' := run_events (dictation env blocks) s in
  clipboard (snd s') = t
  /\ calls is_keystroke (snd s') = calls is_keystroke (snd s) ++ paste_keys
  /\ calls is_recognizer_call (snd s')
     = calls is_recognizer_call (snd s) ++ [recognizer_call (mktemp env)]
  /\ fs (snd s') !! mktemp env = None
  /\ last_transcription (fst s') = t
  /\ current_status (fst s') = STATUS_READY
  /\ ui (fst s') = ready_window (fst s)
  /\ update_queue (fst s') = []
  /\ is_recording (fst s') = false
  /\ audio_data (fst s') = blocks.
Proof.
  intros Hf Hidle Hreach Hprints Hne Hpaste t s'. subst s' t.
  destruct s as [a w]. cbn [fst snd] in *.
  rewrite (dictation_runs env a w blocks stdout Hf Hidle Hreach Hprints Hne Hpaste).
  unfold calls, indicator, tone, paste_effects, paste_keys.
  cbn [fst snd clipboard log fs last_transcription current_status ui update_queue is_recording
       audio_data set_ui set_update_queue set_last_transcription
       set_current_status set_is_recording set_audio_data].
  rewrite lookup_delete_eq, !filter_app.
  destruct (root a), (ghost_indicator a),
    (truthy (settings_get a "sound_enabled" (PBool true)));
    cbn; rewrite ?app_nil_r; repeat split.
Qed.

Lemma dictation_end_to_end_witness :
  let s' := run_events (dictation calm half_second) started in
  clipboard (snd s') = "hello"%string /\ update_queue (fst s') = [].
Proof.
  destruct (dictation_end_to_end calm started half_second "hello" eq_refl eq_refl
              half_second_reaches (conj eq_refl eq_refl) ltac:(vm_compute; discriminate)
              (conj eq_refl (conj eq_refl eq_refl)))
    as (Hclip & _ & _ & _ & _ & _ & _ & Hq & _).
  exact (conj Hclip Hq).
Defined.

(** ** The modifier flags *)

Lemma drain_modifiers (m : bool * bool * bool) (fuel : nat) :
  preserves (fun a => modifiers a = m) (drain fuel).
Proof.
  induction fuel as [|fuel IH]; cbn [drain]; [apply preserves_ret |].
  unfold get_nowait, _update_status_ui, _update_transcription_ui.
  repeat first [ exact IH | frame_step | (apply preserves_modify_self; intros ? H; exact H) ].
Qed.

(** No callback but the two key handlers touches the modifier flags. *)
Lemma handle_modifiers (m : bool * bool * bool) (env : Env) (ev : event) :
  is_key_event ev = false -> preserves (fun a => modifiers a = m) (handle env ev).
Proof.
  intros Hev. destruct ev; try discriminate Hev; cbn [handle];
    unfold toggle_recording, start_recording, stop_recording, audio_callback, poll_updates,
      process_recording, guarded_transcription, remove_temp, remove_file, wav_write_file,
      transcribe, type_text, update_status, update_transcription,
      on_hotkey_changed, on_sound_changed, on_delay_changed, on_minimized_changed,
      on_startup_changed, quit_app, save_settings, settings_setitem, _update_status_ui,
      restart_keyboard_listener, stop_keyboard_listener, start_keyboard_listener,
      update_status;
    repeat first [ apply drain_modifiers | frame_step
                 | (apply preserves_modify_self; intros ? H; exact H) ].
Qed.

Lemma trigger_modifiers (m : bool * bool * bool) (k : key) :
  preserves (fun a => modifiers a = m)
    (bind (is_hotkey_pressed k)
       (fun pressed : bool =>
          if pressed
          then bind get_self
                 (fun a => if negb (is_recording a) then start_recording else stop_recording)
          else ret tt)).
Proof.
  unfold is_hotkey_pressed, start_recording, stop_recording, update_status.
  repeat first [ frame_step | (apply preserves_modify_self; intros ? H; exact H) ].
Qed.

Lemma key_event_modifiers (env : Env) (ev : event) (s : State) :
  modifiers (fst (step s (env, ev)))
  = (flag_after ctrl_keys (ctrl_pressed (fst s)) ev,
     flag_after shift_keys (shift_pressed (fst s)) ev,
     flag_after alt_keys (alt_pressed (fst s)) ev).
Proof.
  destruct (is_key_event ev) eqn:Hev.
  - destruct s as [a w]. destruct ev as [k | k | | | | | | | | | |]; try discriminate Hev;
      unfold step, exec; cbn [fst snd handle flag_after ctrl_keys shift_keys alt_keys existsb].
    + unfold on_key_press. unfold bind at 1.
      assert (Hk : forall n, is_Key k n = match k with Key x => String.eqb x n | _ => false end)
        by (intros n; now destruct k).
      rewrite !Hk.
      destruct k as [x | c].
      * destruct (String.eqb x "ctrl_l") eqn:E1; [apply String.eqb_eq in E1; subst x |];
          [cbn [orb]; apply (trigger_modifiers _ _ (_, w)); reflexivity |].
        destruct (String.eqb x "ctrl_r") eqn:E2; [apply String.eqb_eq in E2; subst x |];
          [cbn [orb]; apply (trigger_modifiers _ _ (_, w)); reflexivity |].
        destruct (String.eqb x "shift_l") eqn:E3; [apply String.eqb_eq in E3; subst x |];
          [cbn [orb]; apply (trigger_modifiers _ _ (_, w)); reflexivity |].
        destruct (String.eqb x "shift_r") eqn:E4; [apply String.eqb_eq in E4; subst x |];
          [cbn [orb]; apply (trigger_modifiers _ _ (_, w)); reflexivity |].
        destruct (String.eqb x "shift") eqn:E5; [apply String.eqb_eq in E5; subst x |];
          [cbn [orb]; apply (trigger_modifiers _ _ (_, w)); reflexivity |].
        destruct (String.eqb x "alt_l") eqn:E6; [apply String.eqb_eq in E6; subst x |];
          [cbn [orb]; apply (trigger_modifiers _ _ (_, w)); reflexivity |].
        destruct (String.eqb x "alt_r") eqn:E7; [apply String.eqb_eq in E7; subst x |];
          [cbn [orb]; apply (trigger_modifiers _ _ (_, w)); reflexivity |].
        destruct (String.eqb x "alt_gr") eqn:E8; [apply String.eqb_eq in E8; subst x |];
          cbn [orb]; apply (trigger_modifiers _ _ (_, w)); reflexivity.
      * cbn [orb]. apply (trigger_modifiers _ _ (_, w)). reflexivity.
    + unfold on_key_release.
      assert (Hk : forall n, is_Key k n = match k with Key x => String.eqb x n | _ => false end)
        by (intros n; now destruct k).
      rewrite !Hk.
      destruct k as [x | c]; [| reflexivity].
      destruct (String.eqb x "ctrl_l") eqn:E1; [apply String.eqb_eq in E1; subst x |];
        [reflexivity |].
      destruct (String.eqb x "ctrl_r") eqn:E2; [apply String.eqb_eq in E2; subst x |];
        [reflexivity |].
      destruct (String.eqb x "shift_l") eqn:E3; [apply String.eqb_eq in E3; subst x |];
        [reflexivity |].
      destruct (String.eqb x "shift_r") eqn:E4; [apply String.eqb_eq in E4; subst x |];
        [reflexivity |].
      destruct (String.eqb x "shift") eqn:E5; [apply String.eqb_eq in E5; subst x |];
        [reflexivity |].
      destruct (String.eqb x "alt_l") eqn:E6; [apply String.eqb_eq in E6; subst x |];
        [reflexivity |].
      destruct (String.eqb x "alt_r") eqn:E7; [apply String.eqb_eq in E7; subst x |];
        [reflexivity |].
      destruct (String.eqb x "alt_gr") eqn:E8; [apply String.eqb_eq in E8; subst x |];
        reflexivity.
  - unfold step, exec. cbn [fst snd].
    rewrite (handle_modifiers (modifiers (fst s)) env ev Hev s eq_refl).
    destruct ev; try discriminate Hev; reflexivity.
Qed.

(** X21: through any sequence of callbacks, the three modifier flags
    depend on the key events only: the control flag is set by a press of
    [ctrl_l] or [ctrl_r] and cleared by a release of either (so releasing
    one control key clears it while the other is held), the shift flag
    follows [shift_l], [shift_r] and [shift], the alt flag follows [alt_l],
    [alt_r] and [alt_gr]; no other key and no other callback changes them. *)
Theorem modifier_flags_follow_the_keys (cs : list (Env * event)) (s : State) :
  let s' := run_events cs s in
  ctrl_pressed (fst s') = fold_left (flag_after ctrl_keys) (map snd cs) (ctrl_pressed (fst s))
  /\ shift_pressed (fst s')
     = fold_left (flag_after shift_keys) (map snd cs) (shift_pressed (fst s))
  /\ alt_pressed (fst s') = fold_left (flag_after alt_keys) (map snd cs) (alt_pressed (fst s)).
Proof.
  cbv zeta. unfold run_events. revert s.
  induction cs as [|[env ev] cs IH]; intros s; [now repeat split |].
  cbn [fold_left map snd].
  pose proof (key_event_modifiers env ev s) as Hstep. unfold modifiers in Hstep.
  injection Hstep as <- <- <-. apply IH.
Qed.

Lemma modifier_flags_follow_the_keys_witness :
  ctrl_pressed (fst (run_events [(calm, KeyPressed (Key "ctrl_l"));
                                 (calm, KeyPressed (Key "ctrl_r"));
                                 (calm, KeyReleased (Key "ctrl_r"))] started)) = false.
Proof.
  exact (proj1 (modifier_flags_follow_the_keys
                  [(calm, KeyPressed (Key "ctrl_l")); (calm, KeyPressed (Key "ctrl_r"));
                   (calm, KeyReleased (Key "ctrl_r"))] started)).
Defined.

(** ** Polling again *)

(** X22: [poll_updates] returns normally and leaves the queue empty; a
    second poll right after it changes nothing of the application.  Each
    poll reschedules itself once when there is a window, and the two make no
    other outside call and touch neither the files nor the clipboard. *)
Theorem poll_twice_is_poll_once (s : State) :
  let s1 := exec poll_updates s in
  let s2 := exec poll_updates s1 in
  result poll_updates s = Normal tt
  /\ update_queue (fst s1) = []
  /\ fst s2 = fst s1
  /\ log (snd s2) = log (snd s) ++ (if root (fst s) then [AfterPoll; AfterPoll] else [])
  /\ fs (snd s2) = fs (snd s) /\ clipboard (snd s2) = clipboard (snd s).
Proof.
  destruct s as [a w]. cbv zeta. unfold exec, result.
  destruct (poll_updates_runs a w) as (v & -> & _). cbn [fst snd].
  rewrite poll_updates_empty by reflexivity. cbn [fst snd root set_ui set_update_queue].
  destruct (root a); cbn [log fs clipboard set_log]; rewrite <- ?app_assoc, ?app_nil_r;
    repeat split.
Qed.

(** ** The window and the status *)

Lemma apply_update_face (u : update) (a : App) (w : World) :
  exists v, apply_update u (a, w) = (Normal tt, (set_ui v a, w))
            /\ face v = face_after (face (ui a)) u.
Proof.
  destruct u as [state message | text];
    cbv [apply_update _update_status_ui _update_transcription_ui bind get_self
         modify_self fst snd];
    eexists; (split; [reflexivity |]); [| now destruct (ui a)].
  unfold face, face_after.
  destruct (String.eqb state STATUS_READY); [reflexivity |].
  destruct (String.eqb state STATUS_RECORDING); [reflexivity |].
  destruct (String.eqb state STATUS_TRANSCRIBING); [reflexivity |].
  destruct (String.eqb state STATUS_ERROR); reflexivity.
Qed.

Lemma apply_in_order_face (us : list update) (a : App) (w : World) :
  exists v, apply_in_order us (a, w) = (Normal tt, (set_ui v a, w))
            /\ face v = fold_left face_after us (face (ui a)).
Proof.
  revert a. induction us as [|u us IH]; intros a.
  - exists (ui a). split; [now destruct a | reflexivity].
  - cbn [apply_in_order fold_left]. unfold bind.
    destruct (apply_update_face u a w) as (v & -> & Hv).
    destruct (IH (set_ui v a)) as (v' & -> & Hv').
    exists v'. split; [reflexivity |]. rewrite Hv'. cbn [ui set_ui]. now rewrite Hv.
Qed.

Lemma status_face (state message : string) (f : string * string) :
  is_status state ->
  face_after f (UStatus state message) = (status_color state, status_label state).
Proof.
  intros Hs. unfold is_status in Hs. cbn [In] in Hs.
  destruct Hs as [<- | [<- | [<- | [<- | []]]]]; reflexivity.
Qed.

Lemma update_status_in_step (state message : string) :
  is_status state -> preserves in_step (update_status state message).
Proof.
  intros Hs [a w] _. unfold update_status, bind, modify_self, in_step.
  cbn [fst snd current_status update_queue ui set_update_queue set_current_status].
  split; [exact Hs |]. rewrite fold_left_app. cbn [fold_left]. now apply status_face.
Qed.

Lemma update_transcription_in_step (text : string) :
  preserves in_step (update_transcription text).
Proof.
  intros [a w] [Hs Hf]. unfold update_transcription, bind, modify_self, in_step.
  cbn [fst snd current_status update_queue ui set_update_queue set_last_transcription].
  split; [exact Hs |]. rewrite fold_left_app. cbn [fold_left face_after]. exact Hf.
Qed.

Lemma poll_updates_in_step : preserves in_step poll_updates.
Proof.
  intros [a w] [Hs Hf]. cbn [fst] in *.
  rewrite poll_updates_applies. unfold bind at 1.
  destruct (apply_in_order_face (update_queue a) (set_update_queue [] a) w) as (v & -> & Hv).
  cbn [ui set_update_queue] in Hv. rewrite Hf in Hv.
  assert (Hin : in_step (set_ui v (set_update_queue [] a))) by (split; [exact Hs | exact Hv]).
  now destruct (root a).
Qed.

Lemma face_after_label (q : list update) (c c' l : string) :
  snd (fold_left face_after q (c, l)) = snd (fold_left face_after q (c', l)).
Proof.
  revert c c' l. induction q as [|u q IH]; intros c c' l; [reflexivity |].
  cbn [fold_left]. destruct u as [state message | text]; cbn [face_after snd].
  - reflexivity.
  - apply IH.
Qed.

(** Applying a queue again to its own outcome changes nothing. *)
Lemma face_after_again (q : list update) (f : string * string) :
  fold_left face_after q (fold_left face_after q f) = fold_left face_after q f.
Proof.
  revert f. induction q as [|u q IH] using rev_ind; intros f; [reflexivity |].
  rewrite !fold_left_app. cbn [fold_left].
  destruct u as [state message | text]; cbn [face_after]; [| apply IH].
  f_equal.
  destruct (String.eqb state STATUS_READY); [reflexivity |].
  destruct (String.eqb state STATUS_RECORDING); [reflexivity |].
  destruct (String.eqb state STATUS_TRANSCRIBING); [reflexivity |].
  destruct (String.eqb state STATUS_ERROR); [reflexivity |].
  cbn [snd]. rewrite (face_after_label q _ (fst (fold_left face_after q f))).
  rewrite <- surjective_pairing. now rewrite IH.
Qed.

(** [self._update_status_ui(self.current_status)] *)
Lemma refresh_in_step :
  preserves in_step (bind get_self (fun a => _update_status_ui (current_status a) "")).
Proof.
  intros [a w] [Hs Hf]. cbn [fst] in *.
  destruct (apply_update_face (UStatus (current_status a) "") a w) as (v & E & Hv).
  cbn [apply_update] in E. unfold bind at 1. cbn [get_self fst snd]. rewrite E.
  cbn [fst snd]. split; [exact Hs |].
  cbn [update_queue ui set_ui current_status]. rewrite Hv, (status_face _ _ _ Hs), <- Hf.
  apply face_after_again.
Qed.

Lemma refresh_then_in_step (k : M unit) :
  preserves in_step k ->
  preserves in_step
    (bind get_self (fun a => bind (_update_status_ui (current_status a) "") (fun _ => k))).
Proof.
  intros Hk s Hin. pose proof (refresh_in_step s Hin) as Hr.
  destruct s as [a w]. unfold bind at 1. cbn [get_self fst snd].
  unfold bind at 1 in Hr. cbn [get_self fst snd] in Hr.
  destruct (apply_update_face (UStatus (current_status a) "") a w) as (v & E & _).
  cbn [apply_update] in E. unfold bind at 1. rewrite E in *. cbn [fst snd] in Hr.
  now apply Hk.
Qed.

(** Every callback keeps the window in step with the status. *)
Lemma handle_in_step (env : Env) (ev : event) : preserves in_step (handle env ev).
Proof.
  destruct ev; cbn [handle];
    unfold on_key_press, on_key_release, is_hotkey_pressed, toggle_recording, start_recording,
      stop_recording, audio_callback, process_recording, guarded_transcription, remove_temp,
      remove_file, wav_write_file, transcribe, type_text,
      on_hotkey_changed, on_sound_changed, on_delay_changed, on_minimized_changed,
      on_startup_changed, quit_app, save_settings, settings_setitem,
      restart_keyboard_listener, stop_keyboard_listener, start_keyboard_listener;
    repeat first
      [ apply poll_updates_in_step
      | apply update_transcription_in_step
      | (apply update_status_in_step; unfold is_status; simpl; tauto)
      | apply refresh_then_in_step
      | frame_step
      | (apply preserves_modify_self; intros ? H; exact H) ].
Qed.

Lemma run_events_in_step (cs : list (Env * event)) (s : State) :
  in_step (fst s) -> in_step (fst (run_events cs s)).
Proof.
  unfold run_events. revert s.
  induction cs as [|[env ev] cs IH]; intros s Hin; [exact Hin |].
  cbn [fold_left]. apply IH. apply (handle_in_step env ev s Hin).
Qed.

Lemma startup_in_step (env : Env) (w : World) : in_step (fst (startup env w)).
Proof.
  destruct (start_ends env w) as (st & l & E). cbv zeta in E.
  change (startup env w) with (exec (start env) (new_app, w)).
  unfold exec. rewrite E. clear E.
  destruct (gui_failure env (initialized st (missing_files w))).
  - unfold in_step, is_status, initialized.
    destruct (missing_files w);
      cbn [fst snd files_ok current_status update_queue ui set_files_ok set_settings
           set_error_message set_ui set_root new_app fold_left];
      (split; [simpl; tauto | reflexivity]).
  - rewrite start_keyboard_listener_ends. cbn [fst snd].
    unfold in_step, is_status, initialized.
    destruct (missing_files w), (listener_failure env);
      cbn [files_ok current_status update_queue ui set_files_ok set_settings
           set_error_message set_ui set_root set_ghost_indicator set_update_queue
           set_current_status new_app fold_left app];
      (split; [simpl; tauto | reflexivity]).
Qed.

(** X23: from start-up on and through any sequence of callbacks, the
    status is one of ready, recording, transcribing and error, and the
    window is in step with it: once the timer has polled the queue, the
    status dot has the colour and the status label the text of the current
    status, which the poll does not change. *)
Theorem window_follows_the_status (env : Env) (w : World) (cs : list (Env * event)) :
  let s := run_events cs (startup env w) in
  let shown := ui (fst (exec poll_updates s)) in
  is_status (current_status (fst s))
  /\ status_label_text shown = status_label (current_status (fst s))
  /\ status_dot_fg_color shown = status_color (current_status (fst s))
  /\ current_status (fst (exec poll_updates s)) = current_status (fst s).
Proof.
  intros s shown.
  destruct (run_events_in_step cs (startup env w) (startup_in_step env w)) as [Hs Hf].
  fold s in Hs, Hf. split; [exact Hs |].
  subst shown. destruct s as [a1 w1]. cbn [fst] in *.
  unfold exec. rewrite poll_updates_applies. unfold bind at 1 2 3.
  destruct (apply_in_order_face (update_queue a1) (set_update_queue [] a1) w1) as (v & -> & Hv).
  cbn [ui set_update_queue] in Hv. rewrite Hf in Hv. unfold face in Hv.
  injection Hv as Hdot Hlabel.
  destruct (root a1); cbn [when ret emit modify_world fst snd ui set_ui current_status
                            set_update_queue]; auto.
Qed.

(** ** The animation of the indicator *)

Import GhostIndicator.

Lemma cancel_animation_stops (g g1 : Indicator) :
  one_loop g ->
  animation_id g1 = animation_id g -> pending_timers g1 = pending_timers g ->
  pending_timers (cancel_animation g1) = ∅
  /\ status (cancel_animation g1) = status g1
  /\ popup_visible (cancel_animation g1) = popup_visible g1.
Proof.
  intros [_ Hloop] Hid Hpending. unfold cancel_animation, after_cancel.
  rewrite Hid. destruct (String.eqb (status g) "idle").
  - destruct (animation_id g); cbn [pending_timers status popup_visible];
      rewrite Hpending, Hloop; repeat split; set_solver.
  - destruct Hloop as (id & -> & Hp). cbn [pending_timers status popup_visible].
    rewrite Hpending, Hp. repeat split; set_solver.
Qed.

Lemma _animate_one_loop (color : string) (g : Indicator) :
  pending_timers g = ∅ ->
  one_loop (_animate color g)
  /\ status (_animate color g) = status g
  /\ popup_visible (_animate color g) = popup_visible g.
Proof.
  intros Hp. unfold _animate, one_loop.
  destruct (String.eqb (status g) "idle") eqn:Hs.
  - rewrite Hs, Hp. repeat split; set_solver.
  - cbn [after status animation_id pending_timers timer_counter popup_visible fst snd].
    rewrite Hs, Hp. repeat split.
    + intros id Hin. assert (id = timer_counter g) by set_solver. lia.
    + exists (timer_counter g). split; [reflexivity | set_solver].
Qed.

(** Every action keeps the loop single and a withdrawn popup idle. *)
Lemma act_one_loop (g : Indicator) (x : action) :
  one_loop g /\ (popup_visible g = false -> status g = "idle"%string) ->
  one_loop (act g x) /\ (popup_visible (act g x) = false -> status (act g x) = "idle"%string).
Proof.
  intros [Hloop Hidle]. destruct x as [screen color new_status | | id color]; cbn [act].
  - unfold show.
    match goal with |- context [cancel_animation ?g1] =>
      destruct (cancel_animation_stops g g1 Hloop eq_refl eq_refl) as (Hp & Hs & Hv);
      destruct (_animate_one_loop color (cancel_animation g1) Hp) as (Hl' & Hs' & Hv')
    end.
    split; [exact Hl' |]. rewrite Hv', Hv. discriminate.
  - unfold hide.
    match goal with |- context [cancel_animation ?g1] =>
      destruct (cancel_animation_stops g g1 Hloop eq_refl eq_refl) as (Hp & Hs & Hv)
    end.
    unfold one_loop. cbn [status pending_timers timer_counter popup_visible].
    rewrite Hs, Hp. cbn [status String.eqb Ascii.eqb Bool.eqb andb]. repeat split. set_solver.
  - case_bool_decide as Hin; [| now split].
    assert (Hp : pending_timers (after_cancel id g) = ∅).
    { destruct Hloop as [_ Hloop]. cbn [after_cancel pending_timers].
      destruct (String.eqb (status g) "idle"); [set_solver |].
      destruct Hloop as (id0 & _ & Hp). rewrite Hp in *. set_solver. }
    destruct (_animate_one_loop color (after_cancel id g) Hp) as (Hl' & Hs' & Hv').
    split; [exact Hl' |]. rewrite Hv', Hs'. exact Hidle.
Qed.

(** X24: whatever the sequence of [show], [hide] and timer callbacks
    from its creation, the indicator never has more than one animation
    timer pending: none while its status is idle, and otherwise exactly the
    one [animation_id] names; and a withdrawn popup is idle. *)
Theorem indicator_runs_one_timer (xs : list action) (sw sh : Z) :
  let g := acts xs (create sw sh) in
  one_loop g /\ (popup_visible g = false -> status g = "idle"%string).
Proof.
  cbv zeta. unfold acts.
  assert (Hstart : one_loop (create sw sh)
                   /\ (popup_visible (create sw sh) = false
                       -> status (create sw sh) = "idle"%string)).
  { unfold one_loop. cbn. repeat split. set_solver. }
  revert Hstart. generalize (create sw sh).
  induction xs as [|x xs IH]; intros g Hg; [exact Hg |].
  cbn [fold_left]. apply IH. now apply act_one_loop.
Qed.
